(** * Cache-coherent scan-and-restock pipeline

    A shallow embedding of the inventory backend's scan workflow:
    [ScannerService] (decodeScan, quickAdd, receiveInventory, batchScan)
    and the parts of [ProductService] it relies on (createProduct,
    getProductById, getProductByBarcode, updateProduct).

    The TypeScript services are [async] functions.  An [async] body is a
    sequence of synchronous segments separated by [await]s of calls into
    the cache and the durable store; here it becomes a tree of type
    [Prog]: each [Await] node is one awaited external call, the
    continuation is the synchronous code up to the next [await].  [run]
    executes one request to completion, [interleave] executes a pool of
    requests under an arbitrary schedule of their segments. *)

From Stdlib Require Import ZArith Ascii.
From stdpp Require Import gmap strings list pretty.

Local Open Scope Z_scope.

(** ** Barcode codec *)

Module Codec.

Definition is_digit (c : ascii) : bool :=
  let n := nat_of_ascii c in (48 <=? n)%nat && (n <=? 57)%nat.

Definition is_upper (c : ascii) : bool :=
  let n := nat_of_ascii c in (65 <=? n)%nat && (n <=? 90)%nat.

Definition is_lower (c : ascii) : bool :=
  let n := nat_of_ascii c in (97 <=? n)%nat && (n <=? 122)%nat.

Definition is_alnum (c : ascii) : bool :=
  is_digit c || is_upper c || is_lower c.

(** The characters a normalized payload is made of. *)
Definition canonical_char (c : ascii) : bool := is_digit c || is_upper c.

Definition to_upper (c : ascii) : ascii :=
  if is_lower c then ascii_of_nat (nat_of_ascii c - 32) else c.

Fixpoint filter (f : ascii -> bool) (s : string) : string :=
  match s with
  | EmptyString => EmptyString
  | String c s' => if f c then String c (filter f s') else filter f s'
  end.

Fixpoint map (f : ascii -> ascii) (s : string) : string :=
  match s with
  | EmptyString => EmptyString
  | String c s' => String (f c) (map f s')
  end.

Fixpoint forallb (f : ascii -> bool) (s : string) : bool :=
  match s with
  | EmptyString => true
  | String c s' => f c && forallb f s'
  end.

Fixpoint zeros (n : nat) : string :=
  match n with
  | O => EmptyString
  | S n' => String "0"%char (zeros n')
  end.

(** A numeric payload: at least one character, digits only. *)
Definition is_numeric (s : string) : bool :=
  match s with
  | EmptyString => false
  | _ => forallb is_digit s
  end.

(** [padStart(width, '0')]: never truncates. *)
Definition pad_left (width : nat) (s : string) : string :=
  zeros (width - String.length s) +:+ s.

(** Normalization for a given rule of canonical lengths: [canonical]
    gives the canonical length of a numeric code from its number of
    digits. *)
Definition normalize_with (canonical : nat -> nat) (raw : string) : string :=
  let payload := map to_upper (filter is_alnum raw) in
  if is_numeric payload
  then pad_left (canonical (String.length payload)) payload
  else payload.

(** The canonical lengths of section 4.2: UPC-A has 12 digits, EAN-13
    has 13.  A numeric code of up to 12 digits is a UPC code, one of 13
    digits an EAN code; longer numeric payloads are no UPC/EAN code and
    keep their length. *)
Definition canonical_length (digits : nat) : nat :=
  if (digits <=? 12)%nat then 12%nat
  else if (digits <=? 13)%nat then 13%nat
  else digits.

(** Modelled from the spec: BarcodeDecoderService.normalize is not under
    src/.  Section 4.2: it strips non-alphanumeric separators, upper-cases
    alphabetic payloads and left-pads numeric UPC/EAN codes to canonical
    length. *)
Definition normalize (raw : string) : string :=
  normalize_with canonical_length raw.

End Codec.

(** ** Errors and settled promises *)

(** The error taxonomy of section 7, as far as the modelled code raises
    it.  [TypeError] is the runtime's error for a property read on
    [undefined]; [PlainError] is a [new Error(...)] of the services. *)
Inductive ErrorKind :=
| InvalidQuantity
| StoreUnavailable
| CacheUnavailable
| UniqueViolation
| TypeError
| PlainError.

Record Error := mkError { kind : ErrorKind; message : string }.

(** How an awaited promise settles. *)
Inductive Outcome (A : Type) : Type :=
| Fulfilled (a : A)
| Rejected (e : Error).

Arguments Fulfilled {A} a.
Arguments Rejected {A} e.

Definition is_fulfilled {A} (o : Outcome A) : bool :=
  match o with Fulfilled _ => true | Rejected _ => false end.

(** ** Data model *)

Module BarcodeType.
Inductive t := UPC | EAN | QR | CODE128.
End BarcodeType.

Module Format.
Inductive t := UPC | EAN | QR | CODE128 | UNKNOWN.
End Format.

(** [DecodedBarcode] of BarcodeDecoderService.  Its [confidence], a
    float, only feeds the scan-log record that [logScan] builds and never
    stores; it is left out. *)
Module DecodedBarcode.
Record t := mk {
  rawValue : string;
  normalizedValue : string;
  format : Format.t;
  isValid : bool
}.
End DecodedBarcode.

Module Inventory.

Record t := mk {
  quantityOnHand : Z;
  quantityReserved : Z;
  reorderLevel : Z;
  reorderQuantity : Z
}.

(** Modelled from the spec: Inventory.addStock (Inventory.entity is not
    under src/).  Section 4.4: fails with InvalidQuantity if quantity <= 0,
    otherwise yields the record with the quantity added on hand.  The
    method updates the record in place; the result is the record after
    the call, untouched when it throws. *)
Definition addStock (inv : t) (quantity : Z) : Outcome t :=
  if quantity <=? 0
  then Rejected (mkError InvalidQuantity "InvalidQuantity")
  else Fulfilled (mk (quantityOnHand inv + quantity) (quantityReserved inv)
                     (reorderLevel inv) (reorderQuantity inv)).

End Inventory.

(** The [Product] entity: the columns [createProduct] fills, the
    generated [id], the [isActive] flag and the eagerly loaded one-to-one
    [inventory].  Prices are decimal columns, kept in minor units. *)
Module Product.

Record t := mk {
  id : string;
  barcode : string;
  barcodeType : BarcodeType.t;
  name : string;
  description : option string;
  sku : option string;
  manufacturer : option string;
  priceUsd : Z;
  costUsd : Z;
  imageUrl : option string;
  createdBy : string;
  isActive : bool;
  inventory : option Inventory.t
}.

Definition with_id (p : t) (i : string) : t :=
  mk i (barcode p) (barcodeType p) (name p) (description p) (sku p)
     (manufacturer p) (priceUsd p) (costUsd p) (imageUrl p) (createdBy p)
     (isActive p) (inventory p).

Definition with_inventory (p : t) (inv : option Inventory.t) : t :=
  mk (id p) (barcode p) (barcodeType p) (name p) (description p) (sku p)
     (manufacturer p) (priceUsd p) (costUsd p) (imageUrl p) (createdBy p)
     (isActive p) inv.

End Product.

(** ** The barcode service, injected into both services *)

Class BarcodeDecoderService := {
  decode : string -> DecodedBarcode.t;
  normalize : string -> string
}.

Module SpecCodec.

Definition digit_value (c : ascii) : nat := nat_of_ascii c - 48.

(** Weighted digit sum, weights alternating [w], [4 - w] (3 and 1). *)
Fixpoint weighted_sum (w : nat) (s : string) : nat :=
  match s with
  | EmptyString => 0
  | String c s' => w * digit_value c + weighted_sum (4 - w) s'
  end.

(** Mod-10 check over all digits, check digit included with weight 1:
    UPC-A (12 digits) starts with weight 3, EAN-13 with weight 1. *)
Definition mod10_ok (first_weight : nat) (s : string) : bool :=
  (weighted_sum first_weight s mod 10 =? 0)%nat.

(** Modelled from the spec: BarcodeDecoderService.decode is not under
    src/.  Section 4.2: 12 digits are UPC-A and 13 digits EAN-13, valid
    when the mod-10 check digit matches; other alphanumeric input is
    CODE128; any other non-empty payload is an opaque QR payload, always
    valid; the rest is UNKNOWN and invalid.  The call never fails. *)
Definition decode (raw : string) : DecodedBarcode.t :=
  let n := Codec.normalize raw in
  if Codec.forallb Codec.is_digit raw && (String.length raw =? 12)%nat
  then DecodedBarcode.mk raw n Format.UPC (mod10_ok 3 raw)
  else if Codec.forallb Codec.is_digit raw && (String.length raw =? 13)%nat
  then DecodedBarcode.mk raw n Format.EAN (mod10_ok 1 raw)
  else match raw with
       | EmptyString => DecodedBarcode.mk raw n Format.UNKNOWN false
       | _ => if Codec.forallb Codec.is_alnum raw
              then DecodedBarcode.mk raw n Format.CODE128 true
              else DecodedBarcode.mk raw n Format.QR true
       end.

End SpecCodec.

#[export] Instance specBarcodeService : BarcodeDecoderService := {
  decode := SpecCodec.decode;
  normalize := Codec.normalize
}.

(** ** External calls: the cache and the durable store *)

Inductive CacheValue :=
| VProduct (p : Product.t)
| VNumber (n : Z).

(** [UpdateProductDto]: every field optional. *)
Module UpdateProductDto.
Record t := mk {
  name : option string;
  description : option string;
  priceUsd : option Z;
  costUsd : option Z;
  imageUrl : option string;
  isActive : option bool
}.
End UpdateProductDto.

(** The calls the services await: the CacheService contract of section
    4.1 and the repository calls of section 6.  No call saves an
    inventory record: the scan paths have that call commented out, so it
    is not part of the signature. *)
Inductive Op :=
| CacheGet (key : string)
| CacheSet (key : string) (value : CacheValue) (ttl : option Z)
| CacheDelete (key : string)
| CacheDeleteByPattern (pattern : string)
| CacheIncrement (key : string) (delta : Z)
| FindByBarcode (barcode : string)
| FindBySku (sku : string)
| FindWithRelations (id : string)
| RepoCreate (product : Product.t)
| RepoUpdate (id : string) (data : UpdateProductDto.t).

(** What each call resolves to. *)
Definition resp (op : Op) : Type :=
  match op with
  | CacheGet _ => option CacheValue
  | CacheSet _ _ _ => unit
  | CacheDelete _ => unit
  | CacheDeleteByPattern _ => unit
  | CacheIncrement _ _ => Z
  | FindByBarcode _ => option Product.t
  | FindBySku _ => option Product.t
  | FindWithRelations _ => option Product.t
  | RepoCreate _ => Product.t
  | RepoUpdate _ _ => option Product.t
  end.

Definition is_cache_op (op : Op) : bool :=
  match op with
  | CacheGet _ | CacheSet _ _ _ | CacheDelete _
  | CacheDeleteByPattern _ | CacheIncrement _ _ => true
  | _ => false
  end.

Definition is_cache_delete (op : Op) : bool :=
  match op with
  | CacheDelete _ | CacheDeleteByPattern _ => true
  | _ => false
  end.

Definition is_store_write (op : Op) : bool :=
  match op with
  | RepoCreate _ | RepoUpdate _ _ => true
  | _ => false
  end.

(** ** Async programs *)

Inductive Prog (A : Type) : Type :=
| Ret (a : A)
| Throw (e : Error)
| Await (op : Op) (k : Outcome (resp op) -> Prog A).

Arguments Ret {A} a.
Arguments Throw {A} e.
Arguments Await {A} op k.

Fixpoint bind {A B} (m : Prog A) (f : A -> Prog B) : Prog B :=
  match m with
  | Ret a => f a
  | Throw e => Throw e
  | Await op k => Await op (fun o => bind (k o) f)
  end.

(** [try { m } catch (error) { h error }] *)
Fixpoint try_catch {A} (m : Prog A) (h : Error -> Prog A) : Prog A :=
  match m with
  | Ret a => Ret a
  | Throw e => h e
  | Await op k => Await op (fun o => try_catch (k o) h)
  end.

(** A value that is there or a synchronous [throw]. *)
Definition settle {A} (o : Outcome A) : Prog A :=
  match o with
  | Fulfilled a => Ret a
  | Rejected e => Throw e
  end.

(** [await op]: a rejected promise throws at the await. *)
Definition call (op : Op) : Prog (resp op) := Await op settle.

#[export] Instance Prog_ret : MRet Prog := @Ret.
#[export] Instance Prog_bind : MBind Prog := fun A B f m => bind m f.
#[export] Instance Prog_throw : MThrow Error Prog := @Throw.

(** ** The world: durable store, cache, clock, failures *)

(** A cache entry (section 3).  The cache owns its entries and hands
    out values, not references: what a caller does to a product it was
    given does not reach the entry. *)
Record CacheEntry := mkEntry { value : CacheValue; expiresAt : option Z }.

(** [products] are the rows of the products table in insertion order,
    each with its eagerly joined inventory; [nextId] feeds the generated
    primary key.  [entries] is the cache, [now] the clock its expiry is
    measured against, [defaultTtl] the time to live of a [set] without
    one.  [faults] says for each coming external call whether the
    collaborator is unreachable at that moment (nothing fails once the
    list is used up).  [journal] records every call issued, oldest first,
    with whether it was fulfilled. *)
Record World := mkWorld {
  products : list Product.t;
  nextId : nat;
  entries : gmap string CacheEntry;
  defaultTtl : Z;
  now : Z;
  faults : list bool;
  journal : list (Op * bool)
}.

Definition with_products (w : World) (ps : list Product.t) (n : nat) : World :=
  mkWorld ps n (entries w) (defaultTtl w) (now w) (faults w) (journal w).

Definition with_entries (w : World) (es : gmap string CacheEntry) : World :=
  mkWorld (products w) (nextId w) es (defaultTtl w) (now w) (faults w) (journal w).

Definition with_faults (w : World) (fs : list bool) : World :=
  mkWorld (products w) (nextId w) (entries w) (defaultTtl w) (now w) fs (journal w).

Definition with_journal (w : World) (j : list (Op * bool)) : World :=
  mkWorld (products w) (nextId w) (entries w) (defaultTtl w) (now w) (faults w) j.

(** Time passes between requests. *)
Definition advance (w : World) (seconds : Z) : World :=
  mkWorld (products w) (nextId w) (entries w) (defaultTtl w) (now w + seconds)
          (faults w) (journal w).

(** *** Cache layer *)

Definition expired (w : World) (e : CacheEntry) : bool :=
  match expiresAt e with
  | Some t => t <=? now w
  | None => false
  end.

(** Modelled from the spec: CacheService.get (CacheService is not under
    src/).  Section 4.1: value or absent; a logically expired entry
    behaves as a miss. *)
Definition cache_get (w : World) (key : string) : option CacheValue :=
  match entries w !! key with
  | Some e => if expired w e then None else Some (value e)
  | None => None
  end.

(** Modelled from the spec: CacheService.set.  Section 4.1: stores the
    value with expiry at now + ttl, overwriting unconditionally. *)
Definition cache_set (w : World) (key : string) (v : CacheValue) (ttl : option Z) : World :=
  with_entries w (<[key := mkEntry v (Some (now w + default (defaultTtl w) ttl))]> (entries w)).

(** Modelled from the spec: CacheService.delete.  Section 4.1: removes
    the entry if present, no-op if absent. *)
Definition cache_delete (w : World) (key : string) : World :=
  with_entries w (delete key (entries w)).

(** Glob match where [*] stands for any run of characters. *)
Fixpoint glob (pattern s : string) : bool :=
  match pattern with
  | EmptyString => match s with EmptyString => true | _ => false end
  | String c pattern' =>
      if Ascii.eqb c "*"%char
      then (fix star (s : string) : bool :=
              glob pattern' s ||
              match s with
              | EmptyString => false
              | String _ s' => star s'
              end) s
      else match s with
           | EmptyString => false
           | String d s' => Ascii.eqb c d && glob pattern' s'
           end
  end.

(** Modelled from the spec: CacheService.deleteByPattern.  Section 4.1:
    removes every entry whose key matches the glob. *)
Definition cache_deleteByPattern (w : World) (pattern : string) : World :=
  with_entries w (filter (fun kv => glob pattern kv.1 = false) (entries w)).

(** Modelled from the spec: CacheService.increment.  Section 4.1: adds
    delta to the numeric counter at key, creating it at 0 if absent. *)
Definition cache_increment (w : World) (key : string) (delta : Z) : Z * World :=
  let current := match cache_get w key with Some (VNumber n) => n | _ => 0 end in
  let expiry := match entries w !! key with
                | Some e => if expired w e then None else expiresAt e
                | None => None
                end in
  (current + delta,
   with_entries w (<[key := mkEntry (VNumber (current + delta)) expiry]> (entries w))).

(** *** Durable store *)

(** Modelled from the spec: ProductRepository.findByBarcode
    (ProductRepository is not under src/).  Section 6: the product with
    that barcode, or absent. *)
Definition repo_findByBarcode (w : World) (barcode : string) : option Product.t :=
  List.find (fun p => String.eqb (Product.barcode p) barcode) (products w).

(** Modelled from the spec: ProductRepository.findBySku, as above. *)
Definition repo_findBySku (w : World) (sku : string) : option Product.t :=
  List.find (fun p => match Product.sku p with
                      | Some s => String.eqb s sku
                      | None => false
                      end) (products w).

(** Modelled from the spec: ProductRepository.findWithRelations, the
    product with that id together with its relations. *)
Definition repo_findWithRelations (w : World) (id : string) : option Product.t :=
  List.find (fun p => String.eqb (Product.id p) id) (products w).

(** The [unique: true] columns of the Product entity: [barcode], and
    [sku] where it is not null. *)
Definition violates_unique (w : World) (p : Product.t) : bool :=
  match repo_findByBarcode w (Product.barcode p) with
  | Some _ => true
  | None => match Product.sku p with
            | Some s => match repo_findBySku w s with
                        | Some _ => true
                        | None => false
                        end
            | None => false
            end
  end.

(** The generated primary key, drawn from a counter. *)
Definition fresh_id (w : World) : string := "id-" +:+ pretty (nextId w).

(** BaseRepository.create: [repo.save] inserts the row, the store fills
    in the generated id; a failure of the store is rethrown as
    [Error creating entity: ...].  The insert of a row that breaks a
    unique column is such a failure. *)
Definition repo_create (w : World) (p : Product.t) : Outcome Product.t * World :=
  if violates_unique w p
  then (Rejected (mkError UniqueViolation
          "Error creating entity: QueryFailedError: duplicate key value violates unique constraint"), w)
  else let saved := Product.with_id p (fresh_id w) in
       (Fulfilled saved, with_products w (products w ++ [saved]) (S (nextId w))).

Definition apply_update (data : UpdateProductDto.t) (p : Product.t) : Product.t :=
  Product.mk (Product.id p) (Product.barcode p) (Product.barcodeType p)
    (default (Product.name p) (UpdateProductDto.name data))
    (match UpdateProductDto.description data with
     | Some d => Some d
     | None => Product.description p
     end)
    (Product.sku p) (Product.manufacturer p)
    (default (Product.priceUsd p) (UpdateProductDto.priceUsd data))
    (default (Product.costUsd p) (UpdateProductDto.costUsd data))
    (match UpdateProductDto.imageUrl data with
     | Some u => Some u
     | None => Product.imageUrl p
     end)
    (Product.createdBy p)
    (default (Product.isActive p) (UpdateProductDto.isActive data))
    (Product.inventory p).

(** BaseRepository.update: [repo.update(id, data)], then [findById]. *)
Definition repo_update (w : World) (id : string) (data : UpdateProductDto.t)
  : option Product.t * World :=
  let rows := List.map (fun p => if String.eqb (Product.id p) id
                                 then apply_update data p else p) (products w) in
  let w' := with_products w rows (nextId w) in
  (repo_findWithRelations w' id, w').

(** *** Executing one call *)

(** The call itself, the collaborator being reachable. *)
Definition perform (op : Op) : World -> Outcome (resp op) * World :=
  match op as o return World -> Outcome (resp o) * World with
  | CacheGet key => fun w => (Fulfilled (cache_get w key), w)
  | CacheSet key v ttl => fun w => (Fulfilled tt, cache_set w key v ttl)
  | CacheDelete key => fun w => (Fulfilled tt, cache_delete w key)
  | CacheDeleteByPattern pattern => fun w => (Fulfilled tt, cache_deleteByPattern w pattern)
  | CacheIncrement key delta => fun w =>
      let '(n, w') := cache_increment w key delta in (Fulfilled n, w')
  | FindByBarcode barcode => fun w => (Fulfilled (repo_findByBarcode w barcode), w)
  | FindBySku sku => fun w => (Fulfilled (repo_findBySku w sku), w)
  | FindWithRelations id => fun w => (Fulfilled (repo_findWithRelations w id), w)
  | RepoCreate p => fun w => repo_create w p
  | RepoUpdate id data => fun w =>
      let '(r, w') := repo_update w id data in (Fulfilled r, w')
  end.

(** The error of a call whose collaborator is unreachable (section 7).
    BaseRepository rethrows what the store throws under its own
    prefix. *)
Definition unavailable (op : Op) : Error :=
  match op with
  | RepoCreate _ =>
      mkError StoreUnavailable "Error creating entity: StoreUnavailable"
  | RepoUpdate _ _ =>
      mkError StoreUnavailable "Error updating entity: StoreUnavailable"
  | _ =>
      if is_cache_op op
      then mkError CacheUnavailable "CacheUnavailable"
      else mkError StoreUnavailable "StoreUnavailable"
  end.

(** One awaited call: it fails when the next fault flag says so, is
    performed otherwise, and is entered in the journal. *)
Definition exec (op : Op) (w : World) : Outcome (resp op) * World :=
  let '(o, w') :=
    match faults w with
    | true :: rest => (Rejected (unavailable op), with_faults w rest)
    | false :: rest => perform op (with_faults w rest)
    | [] => perform op w
    end in
  (o, with_journal w' (journal w' ++ [(op, is_fulfilled o)])).

(** *** Running requests *)

(** One request, run to completion with nothing in between. *)
Fixpoint run {A} (m : Prog A) (w : World) : Outcome A * World :=
  match m with
  | Ret a => (Fulfilled a, w)
  | Throw e => (Rejected e, w)
  | Await op k => let '(o, w') := exec op w in run (k o) w'
  end.

(** One segment of a request: the pending call and the synchronous code
    that follows it. *)
Definition step {A} (m : Prog A) (w : World) : Prog A * World :=
  match m with
  | Await op k => let '(o, w') := exec op w in (k o, w')
  | _ => (m, w)
  end.

(** The requests left over, run one after the other. *)
Fixpoint run_all {A} (requests : list (Prog A)) (w : World)
  : list (Outcome A) * World :=
  match requests with
  | [] => ([], w)
  | m :: rest =>
      let '(o, w1) := run m w in
      let '(os, w2) := run_all rest w1 in
      (o :: os, w2)
  end.

(** Any number of requests in flight at once.  The schedule picks,
    segment by segment, the request that proceeds (a pick outside the
    pool, or of a request that is through, changes nothing); when the
    schedule ends, what is left of each request runs, in order. *)
Fixpoint interleave {A} (schedule : list nat) (requests : list (Prog A))
    (w : World) : list (Outcome A) * World :=
  match schedule with
  | [] => run_all requests w
  | i :: rest =>
      match requests !! i with
      | Some m => let '(m', w') := step m w in
                  interleave rest (<[i := m']> requests) w'
      | None => interleave rest requests w
      end
  end.

(** ** Request and response records *)

Inductive ScanType := lookup | add | receive | count.

Definition scanTypeName (t : ScanType) : string :=
  match t with
  | lookup => "lookup"
  | add => "add"
  | receive => "receive"
  | count => "count"
  end.

Module CreateProductDto.
Record t := mk {
  barcode : string;
  barcodeType : BarcodeType.t;
  name : string;
  description : option string;
  sku : option string;
  categoryId : option string;
  manufacturer : option string;
  priceUsd : option Z;
  costUsd : option Z;
  imageUrl : option string;
  supplierId : option string
}.
End CreateProductDto.

Module ScanDecodeRequest.
Record t := mk {
  barcode : string;
  deviceId : option string;
  location : option string
}.
End ScanDecodeRequest.

Module ScanDecodeResponse.
Record t := mk {
  success : bool;
  product : option Product.t;
  barcode : DecodedBarcode.t;
  cached : bool;
  message : string
}.
End ScanDecodeResponse.

Module QuickAddRequest.
Record t := mk {
  barcode : string;
  quantity : Z;
  location : option string;
  deviceId : option string
}.
End QuickAddRequest.

Module QuickAddResponse.
Record t := mk {
  success : bool;
  product : option Product.t;
  quantity : Z;
  newStock : Z;
  message : string
}.
End QuickAddResponse.

(** The object literal handed to [logScan]. *)
Module ScanLogData.
Record t := mk {
  product : option Product.t;
  barcode : string;
  scanType : ScanType;
  deviceId : option string;
  location : option string;
  quantity : option Z;
  userId : option string;
  decodedData : option DecodedBarcode.t
}.
End ScanLogData.

(** What [batchScan] pushes on [results.items]: the response of the
    operation, [undefined] when no branch assigned [itemResult], or the
    object literal of the catch block. *)
Inductive BatchItem :=
| ItemUndefined
| ItemDecode (r : ScanDecodeResponse.t)
| ItemQuickAdd (r : QuickAddResponse.t)
| ItemError (barcode : string) (error : string).

Record BatchResults := mkResults {
  processed : nat;
  succeeded : nat;
  failed : nat;
  items : list BatchItem
}.

(** [itemResult.success]; reading it off [undefined] is a TypeError. *)
Definition item_success (i : BatchItem) : option bool :=
  match i with
  | ItemUndefined => None
  | ItemDecode r => Some (ScanDecodeResponse.success r)
  | ItemQuickAdd r => Some (QuickAddResponse.success r)
  | ItemError _ _ => Some false
  end.

(** The text is the one V8 gives. *)
Definition undefined_success : Error :=
  mkError TypeError "Cannot read properties of undefined (reading 'success')".

(** JavaScript truthiness of an optional string and an optional number. *)
Definition truthy_string (s : option string) : option string :=
  match s with
  | Some EmptyString => None
  | other => other
  end.

Definition truthy_number (n : option Z) : option Z :=
  match n with
  | Some 0 => None
  | other => other
  end.

(** ** CacheService.getOrSet *)

(** Modelled from the spec: CacheService.getOrSet (CacheService is not
    under src/).  Section 4.1: on a hit the cached value, on a miss the
    computed one, stored for later calls; a failing computation writes no
    entry and fails the call.  Section 7: an unreachable cache degrades
    to the computation, it never fails the request.  A product that is
    absent is no value to store.  This is the helper as one caller runs
    it; how several callers share one computation is the subject of
    [SingleFlight] below. *)
Definition getOrSet (key : string) (computeFn : Prog (option Product.t))
    (ttl : option Z) : Prog (option Product.t) :=
  cached ← try_catch (call (CacheGet key)) (fun _ => mret None);
  match cached with
  | Some (VProduct p) => mret (Some p)
  | _ =>
      value ← computeFn;
      match value with
      | Some p =>
          try_catch (call (CacheSet key (VProduct p) ttl)) (fun _ => mret tt);;
          mret value
      | None => mret value
      end
  end.

(** ** ProductService and ScannerService *)

Section Services.

Context {barcodeService : BarcodeDecoderService}.

(** *** ProductService *)

Definition createProduct (dto : CreateProductDto.t) (userId : string)
  : Prog Product.t :=
  (* Validate barcode doesn't exist *)
  existingProduct ← call (FindByBarcode (CreateProductDto.barcode dto));
  match existingProduct with
  | Some existing =>
      mthrow (mkError PlainError
        ("Product with barcode " +:+ CreateProductDto.barcode dto +:+
         " already exists (ID: " +:+ Product.id existing +:+ ")"))
  | None =>
      (* Validate SKU if provided *)
      match truthy_string (CreateProductDto.sku dto) with
      | Some sku =>
          existingBySku ← call (FindBySku sku);
          match existingBySku with
          | Some _ =>
              mthrow (mkError PlainError
                ("Product with SKU " +:+ sku +:+ " already exists"))
          | None => mret tt
          end
      | None => mret tt
      end;;
      (* Validate barcode format: a warning on the console, nothing else *)
      (* Create product entity *)
      let product :=
        Product.mk EmptyString
          (normalize (CreateProductDto.barcode dto))
          (CreateProductDto.barcodeType dto)
          (CreateProductDto.name dto)
          (truthy_string (CreateProductDto.description dto))
          (truthy_string (CreateProductDto.sku dto))
          (truthy_string (CreateProductDto.manufacturer dto))
          (default 0 (CreateProductDto.priceUsd dto))
          (default 0 (CreateProductDto.costUsd dto))
          (truthy_string (CreateProductDto.imageUrl dto))
          userId true None in
      (* Save product *)
      savedProduct ← call (RepoCreate product);
      (* Create inventory record: built, never saved *)
      (* Invalidate cache *)
      call (CacheDeleteByPattern "products:*");;
      call (CacheDeleteByPattern "search:*");;
      mret savedProduct
  end.

Definition getProductById (id : string) : Prog (option Product.t) :=
  let cacheKey := "product:" +:+ id in
  getOrSet cacheKey (call (FindWithRelations id)) None.

Definition getProductByBarcode (barcode : string) : Prog (option Product.t) :=
  let normalized := normalize barcode in
  let cacheKey := "product:barcode:" +:+ normalized in
  getOrSet cacheKey (call (FindByBarcode normalized)) None.

Definition updateProduct (id : string) (dto : UpdateProductDto.t)
  : Prog (option Product.t) :=
  (* Validate product exists *)
  product ← getProductById id;
  match product with
  | None => mthrow (mkError PlainError ("Product with ID " +:+ id +:+ " not found"))
  | Some product =>
      updated ← call (RepoUpdate id dto);
      (* Invalidate cache *)
      call (CacheDelete ("product:" +:+ id));;
      call (CacheDelete ("product:barcode:" +:+ Product.barcode product));;
      call (CacheDeleteByPattern "products:*");;
      mret updated
  end.

(** *** ScannerService *)

(** The scan-log record is assembled and dropped (its [create] call is
    commented out); what remains are the two counters. *)
Definition logScan (data : ScanLogData.t) : Prog unit :=
  try_catch
    (call (CacheIncrement "metrics:total-scans" 1);;
     call (CacheIncrement
             ("metrics:scans:" +:+ scanTypeName (ScanLogData.scanType data)) 1);;
     mret tt)
    (fun _ => mret tt).

(** The [try] block of [decodeScan]. *)
Definition decodeScan_try (request : ScanDecodeRequest.t)
  : Prog ScanDecodeResponse.t :=
    ((* Decode the barcode format *)
     let decoded := decode (ScanDecodeRequest.barcode request) in
     (* Check cache first *)
     let cacheKey := "scan:product:" +:+ DecodedBarcode.rawValue decoded in
     cachedProduct ← call (CacheGet cacheKey);
     '(product, cached) ←
       match cachedProduct with
       | Some (VProduct p) => mret (Some p, true)
       | _ =>
           (* no entry, or one that is no product: query database *)
           product ← getProductByBarcode (DecodedBarcode.rawValue decoded);
           (* Cache result for 30 minutes *)
           match product with
           | Some p =>
               call (CacheSet cacheKey (VProduct p) (Some 1800));;
               mret (product, false)
           | None => mret (product, false)
           end
       end;
     (* Log the scan *)
     logScan (ScanLogData.mk product (ScanDecodeRequest.barcode request)
                lookup (ScanDecodeRequest.deviceId request)
                (ScanDecodeRequest.location request) None None (Some decoded));;
     mret (ScanDecodeResponse.mk
             (bool_decide (is_Some product)) product decoded cached
             (match product with
              | Some _ => "Product found"
              | None => "Barcode decoded but product not in database"
              end))).

(** The [catch] block of [decodeScan]. *)
Definition decodeScan_catch (request : ScanDecodeRequest.t) (error : Error)
  : Prog ScanDecodeResponse.t :=
  mret (ScanDecodeResponse.mk false None
          (decode (ScanDecodeRequest.barcode request)) false
          ("Error decoding scan: " +:+ message error)).

Definition decodeScan (request : ScanDecodeRequest.t)
  : Prog ScanDecodeResponse.t :=
  try_catch (decodeScan_try request) (decodeScan_catch request).

(** The outer [try] block of [quickAdd]. *)
Definition quickAdd_try (request : QuickAddRequest.t) (userId : string)
  : Prog QuickAddResponse.t :=
  let barcode := QuickAddRequest.barcode request in
  let quantity := QuickAddRequest.quantity request in
    ((* Find product *)
     product ← getProductByBarcode barcode;
     match product with
     | None =>
         mret (QuickAddResponse.mk false None quantity 0
                 ("Product with barcode " +:+ barcode +:+ " not found"))
     | Some product =>
         match Product.inventory product with
         | None =>
             mret (QuickAddResponse.mk false (Some product) quantity 0
                     "Inventory record not found for product")
         | Some inventory =>
             (* Add stock *)
             match Inventory.addStock inventory quantity with
             | Rejected err =>
                 mret (QuickAddResponse.mk false (Some product) quantity
                         (Inventory.quantityOnHand inventory)
                         ("Error adding stock: " +:+ message err))
             | Fulfilled inventory =>
                 let product := Product.with_inventory product (Some inventory) in
                 (* Persist inventory change: commented out *)
                 (* Log the transaction *)
                 logScan (ScanLogData.mk (Some product) barcode add
                            (QuickAddRequest.deviceId request)
                            (QuickAddRequest.location request)
                            (Some quantity) (Some userId) None);;
                 (* Invalidate cache *)
                 call (CacheDelete ("product:" +:+ Product.id product));;
                 call (CacheDelete ("product:barcode:" +:+ Product.barcode product));;
                 mret (QuickAddResponse.mk true (Some product) quantity
                         (Inventory.quantityOnHand inventory)
                         ("Successfully added " +:+ pretty quantity +:+
                          " units of " +:+ Product.name product))
             end
         end
     end).

(** The outer [catch] block of [quickAdd]. *)
Definition quickAdd_catch (request : QuickAddRequest.t) (error : Error)
  : Prog QuickAddResponse.t :=
  mret (QuickAddResponse.mk false None (QuickAddRequest.quantity request) 0
          ("Error in quick add: " +:+ message error)).

Definition quickAdd (request : QuickAddRequest.t) (userId : string)
  : Prog QuickAddResponse.t :=
  try_catch (quickAdd_try request userId) (quickAdd_catch request).

(** The [try] block of [receiveInventory]. *)
Definition receiveInventory_try (barcode : string) (quantity : Z)
    (supplierId userId : option string) : Prog QuickAddResponse.t :=
    (product ← getProductByBarcode barcode;
     match product with
     | None =>
         mret (QuickAddResponse.mk false None quantity 0 "Product not found")
     | Some product =>
         match Product.inventory product with
         | None =>
             mret (QuickAddResponse.mk false (Some product) quantity 0
                     "Inventory record missing")
         | Some inventory =>
             inventory ← settle (Inventory.addStock inventory quantity);
             let product := Product.with_inventory product (Some inventory) in
             (* Log as receive transaction *)
             logScan (ScanLogData.mk (Some product) barcode receive None None
                        (Some quantity) userId None);;
             mret (QuickAddResponse.mk true (Some product) quantity
                     (Inventory.quantityOnHand inventory)
                     ("Received " +:+ pretty quantity +:+ " units"))
         end
     end).

(** The [catch] block of [receiveInventory]. *)
Definition receiveInventory_catch (quantity : Z) (error : Error)
  : Prog QuickAddResponse.t :=
  mret (QuickAddResponse.mk false None quantity 0 (message error)).

Definition receiveInventory (barcode : string) (quantity : Z)
    (supplierId userId : option string) : Prog QuickAddResponse.t :=
  try_catch (receiveInventory_try barcode quantity supplierId userId)
            (receiveInventory_catch quantity).

(** The [if]/[else if] chain of [batchScan]; [itemResult] stays
    [undefined] when no branch applies.  [operation] is the string the
    caller sent: the chain compares it with the three literals. *)
Definition batch_dispatch (operation : string) (quantity : option Z)
    (barcode : string) : Prog BatchItem :=
  if String.eqb operation "lookup" then
    r ← decodeScan (ScanDecodeRequest.mk barcode None None);
    mret (ItemDecode r)
  else
    match String.eqb operation "add", truthy_number quantity with
    | true, Some q =>
        r ← quickAdd (QuickAddRequest.mk barcode q None None) "batch-user";
        mret (ItemQuickAdd r)
    | _, _ =>
        match String.eqb operation "receive", truthy_number quantity with
        | true, Some q =>
            r ← receiveInventory barcode q None None;
            mret (ItemQuickAdd r)
        | _, _ => mret ItemUndefined
        end
    end.

(** The catch block of the loop body, on [results] as they are when the
    error is thrown. *)
Definition batch_catch (results : BatchResults) (barcode : string)
    (error : Error) : BatchResults :=
  mkResults (processed results) (succeeded results) (S (failed results))
            (items results ++ [ItemError barcode (message error)]).

(** One turn of the loop.  [results] is a local object changed in place:
    the [push] and [processed++] that precede the read of
    [itemResult.success] stay in effect when that read throws. *)
Definition batch_iteration (operation : string) (quantity : option Z)
    (results : BatchResults) (barcode : string) : Prog BatchResults :=
  attempt ← try_catch
    (itemResult ← batch_dispatch operation quantity barcode;
     mret (inl itemResult))
    (fun error => mret (inr error));
  match attempt with
  | inr error => mret (batch_catch results barcode error)
  | inl itemResult =>
      let results :=
        mkResults (S (processed results)) (succeeded results) (failed results)
                  (items results ++ [itemResult]) in
      match item_success itemResult with
      | None => mret (batch_catch results barcode undefined_success)
      | Some true =>
          mret (mkResults (processed results) (S (succeeded results))
                          (failed results) (items results))
      | Some false =>
          mret (mkResults (processed results) (succeeded results)
                          (S (failed results)) (items results))
      end
  end.

Fixpoint batch_loop (operation : string) (quantity : option Z)
    (barcodes : list string) (results : BatchResults) : Prog BatchResults :=
  match barcodes with
  | [] => mret results
  | barcode :: rest =>
      results ← batch_iteration operation quantity results barcode;
      batch_loop operation quantity rest results
  end.

Definition batchScan (barcodes : list string) (operation : string)
    (quantity : option Z) : Prog BatchResults :=
  batch_loop operation quantity barcodes (mkResults 0 0 0 []).

End Services.

(** A scan that changes stock, as a device sends it. *)
Inductive StockCall :=
| QuickAdd (request : QuickAddRequest.t) (userId : string)
| Receive (barcode : string) (quantity : Z) (supplierId userId : option string).

Definition stock_call {barcodeService : BarcodeDecoderService}
    (c : StockCall) : Prog QuickAddResponse.t :=
  match c with
  | QuickAdd request userId => quickAdd request userId
  | Receive barcode quantity supplierId userId =>
      receiveInventory barcode quantity supplierId userId
  end.

(** ** Properties of programs *)

(** Every call the program can issue, whatever the calls before it
    resolved to, satisfies [P]. *)
Inductive issues_only (P : Op -> Prop) {A} : Prog A -> Prop :=
| issues_ret a : issues_only P (Ret a)
| issues_throw e : issues_only P (Throw e)
| issues_await op k :
    P op -> (forall o, issues_only P (k o)) -> issues_only P (Await op k).

(** No path through the program ends in a [Throw]. *)
Inductive never_throws {A} : Prog A -> Prop :=
| nt_ret a : never_throws (Ret a)
| nt_await op k : (forall o, never_throws (k o)) -> never_throws (Await op k).

Definition no_store_write (op : Op) : Prop := is_store_write op = false.

Definition no_cache_delete (op : Op) : Prop := is_cache_delete op = false.

(** The call cannot change what the cache holds under [key]. *)
Definition leaves_key (key : string) (op : Op) : Prop :=
  match op with
  | CacheSet k _ _ | CacheDelete k | CacheIncrement k _ => k <> key
  | CacheDeleteByPattern pattern => glob pattern key = false
  | _ => True
  end.

(** The calls journalled between world [w] and a later world [w']. *)
Definition issued (w w' : World) : list (Op * bool) :=
  drop (length (journal w)) (journal w').

(** The read-after-write rule of sections 4.3 and 4.4 on a journal: a
    cache delete is in order only once a store write has been fulfilled
    before it. *)
Fixpoint deletes_follow_write (written : bool) (j : list (Op * bool)) : bool :=
  match j with
  | [] => true
  | (op, ok) :: rest =>
      (negb (is_cache_delete op) || written) &&
      deletes_follow_write (written || (is_store_write op && ok)) rest
  end.

(** The stock on hand the durable store holds for a barcode. *)
Definition stored_stock (w : World) (barcode : string) : option Z :=
  match repo_findByBarcode w barcode with
  | Some p => Inventory.quantityOnHand <$> Product.inventory p
  | None => None
  end.

(** The cache-aside resolution of section 4.3 read off a world: the
    live product entry under product:barcode:<normalized>, else the
    durable store's product with that barcode. *)
Definition cache_aside (w : World) (normalized : string) : option Product.t :=
  match cache_get w ("product:barcode:" +:+ normalized) with
  | Some (VProduct p) => Some p
  | _ => repo_findByBarcode w normalized
  end.

(** The operation and quantity combinations [batchScan] has no branch
    for: an operation other than lookup, add and receive (count among
    them), or add or receive without a quantity that is truthy. *)
Definition unsupported (operation : string) (quantity : option Z) : bool :=
  negb (String.eqb operation "lookup") &&
  negb ((String.eqb operation "add" || String.eqb operation "receive") &&
        bool_decide (is_Some (truthy_number quantity))).

(** How many of the items carry [success] equal to [flag]. *)
Definition reported (flag : bool) (items : list BatchItem) : nat :=
  length (List.filter (fun i => match item_success i with
                                | Some b => Bool.eqb b flag
                                | None => false
                                end) items).

(** ** Single-flight [getOrSet] under concurrent callers *)

Module SingleFlight.

(** Modelled from the spec: CacheService.getOrSet as concurrent callers
    see it (CacheService is not under src/).  Section 4.1: on a hit the
    caller gets the cached value; on a miss one caller becomes the
    computer and invokes computeFn, the callers that miss while that
    computation is in flight await its result; when it settles every one
    of them receives the same value or the same failure; a failure writes
    no entry, so the next call computes again.

    [cache] are the live entries, [inflight] the callers awaiting the
    computation in flight for a key, [invocations] how often computeFn
    was invoked for a key, [delivered] what each caller received. *)
Record State := mkState {
  cache : gmap string CacheValue;
  inflight : gmap string (list nat);
  invocations : gmap string nat;
  delivered : list (nat * string * Outcome CacheValue)
}.

(** What can happen: a caller calls [getOrSet] for a key, or the
    computation in flight for a key settles. *)
Inductive Event :=
| Call (caller : nat) (key : string)
| Settle (key : string) (result : Outcome CacheValue).

Definition event_key (e : Event) : string :=
  match e with
  | Call _ key => key
  | Settle key _ => key
  end.

Definition invoked (s : State) (key : string) : nat :=
  default 0%nat (invocations s !! key).

Definition handle (s : State) (e : Event) : State :=
  match e with
  | Call caller key =>
      match cache s !! key with
      | Some v =>
          mkState (cache s) (inflight s) (invocations s)
                  (delivered s ++ [(caller, key, Fulfilled v)])
      | None =>
          match inflight s !! key with
          | Some waiters =>
              mkState (cache s) (<[key := waiters ++ [caller]]> (inflight s))
                      (invocations s) (delivered s)
          | None =>
              mkState (cache s) (<[key := [caller]]> (inflight s))
                      (<[key := S (invoked s key)]> (invocations s))
                      (delivered s)
          end
      end
  | Settle key result =>
      match inflight s !! key with
      | Some waiters =>
          mkState (match result with
                   | Fulfilled v => <[key := v]> (cache s)
                   | Rejected _ => cache s
                   end)
                  (delete key (inflight s))
                  (invocations s)
                  (delivered s ++ List.map (fun c => (c, key, result)) waiters)
      | None => s
      end
  end.

Definition handle_all (s : State) (events : list Event) : State :=
  fold_left handle events s.

(** What the callers of one key received, in order. *)
Definition for_key (key : string) (d : nat * string * Outcome CacheValue)
  : option (nat * Outcome CacheValue) :=
  if String.eqb d.1.2 key then Some (d.1.1, d.2) else None.

Definition received (s : State) (key : string) : list (nat * Outcome CacheValue) :=
  omap (for_key key) (delivered s).

(** The events of a history that concern one key. *)
Definition on_key (key : string) (events : list Event) : list Event :=
  List.filter (fun e => String.eqb (event_key e) key) events.

(** Nothing cached, nothing in flight. *)
Definition initial : State := mkState ∅ ∅ ∅ [].

(** Two states hold the same for one key. *)
Record same_at (key : string) (s s' : State) : Prop := {
  same_cache : cache s' !! key = cache s !! key;
  same_inflight : inflight s' !! key = inflight s !! key;
  same_invoked : invoked s' key = invoked s key;
  same_received : received s' key = received s key
}.

End SingleFlight.

(** ** A shop to run the services in *)

Module Shop.

Definition shelf : Inventory.t := Inventory.mk 0 0 10 50.

(** A product as the store returns it, stored barcode ABC1. *)
Definition widget : Product.t :=
  Product.mk "id-0" "ABC1" BarcodeType.CODE128 "Widget" None None None
             250 100 None "user-1" true (Some shelf).

(** One product in the store, an empty cache, no outages. *)
Definition opened : World :=
  mkWorld [widget] 1 ∅ 3600 0 [] [].

(** An empty store. *)
Definition empty : World :=
  mkWorld [] 0 ∅ 3600 0 [] [].

(** The shop after both product lookups have filled the cache. *)
Definition warmed : World :=
  (run (getProductById "id-0")
       (run (getProductByBarcode "abc-1") opened).2).2.

(** The shop after a scan of [abc-1] and a later rename of the product. *)
Definition renamed : World :=
  (run (updateProduct "id-0"
          (UpdateProductDto.mk (Some "Gadget") None None None None None))
       (run (decodeScan (ScanDecodeRequest.mk "abc-1" None None)) opened).2).2.

Definition add5 : QuickAddRequest.t := QuickAddRequest.mk "abc-1" 5 None None.
Definition add3 : QuickAddRequest.t := QuickAddRequest.mk "abc-1" 3 None None.

Definition dto (barcode : string) : CreateProductDto.t :=
  CreateProductDto.mk barcode BarcodeType.CODE128 "Widget" None None None
                      None None None None None.

End Shop.

(** ** The rest of ProductService *)

Module BulkImport.
Record t := mk {
  created : nat;
  failed : nat;
  errors : list (string * string)
}.
End BulkImport.

(** The update of [deleteProduct]: [{ isActive: false }]. *)
Definition deactivate : UpdateProductDto.t :=
  UpdateProductDto.mk None None None None None (Some false).

Section MoreServices.

Context {barcodeService : BarcodeDecoderService}.

(** Soft delete: the row stays, flagged inactive. *)
Definition deleteProduct (id : string) : Prog bool :=
  product ← getProductById id;
  match product with
  | None => mthrow (mkError PlainError ("Product with ID " +:+ id +:+ " not found"))
  | Some product =>
      result ← call (RepoUpdate id deactivate);
      (* Invalidate cache *)
      call (CacheDelete ("product:" +:+ id));;
      call (CacheDelete ("product:barcode:" +:+ Product.barcode product));;
      call (CacheDeleteByPattern "products:*");;
      mret (bool_decide (is_Some result))
  end.

(** One turn of the loop of [bulkImportProducts]; an entry of [errors]
    is the barcode of the rejected product and the error's message. *)
Definition bulk_iteration (userId : string) (result : BulkImport.t)
    (productDto : CreateProductDto.t) : Prog BulkImport.t :=
  try_catch
    (createProduct productDto userId;;
     mret (BulkImport.mk (S (BulkImport.created result))
                         (BulkImport.failed result)
                         (BulkImport.errors result)))
    (fun error =>
       mret (BulkImport.mk (BulkImport.created result)
                           (S (BulkImport.failed result))
                           (BulkImport.errors result ++
                            [(CreateProductDto.barcode productDto,
                              message error)]))).

Fixpoint bulk_loop (userId : string) (products : list CreateProductDto.t)
    (result : BulkImport.t) : Prog BulkImport.t :=
  match products with
  | [] => mret result
  | productDto :: rest =>
      result ← bulk_iteration userId result productDto;
      bulk_loop userId rest result
  end.

Definition bulkImportProducts (products : list CreateProductDto.t)
    (userId : string) : Prog BulkImport.t :=
  bulk_loop userId products (BulkImport.mk 0 0 []).

End MoreServices.

(** ** BaseRepository.findPaginated and its callers *)

(** [Math.ceil(total / limit)] on integers, for a [limit] other than 0
    (the quotient is no finite number there) and counts that a double
    holds exactly. *)
Definition ceil_div (total limit : Z) : Z := - ((- total) / limit).

Module Page.
Record t (T : Type) := mk {
  data : list T;
  total : Z;
  page : Z;
  pages : Z
}.
Arguments mk {T}.
Arguments data {T}.
Arguments total {T}.
Arguments page {T}.
Arguments pages {T}.
End Page.

Module BaseRepository.
Section Repository.

Context {T : Type}.

(** TypeORM's [repo.findAndCount({ where, skip, take })], the
    collaborator of this class: the rows of the page and the number of
    all rows that match, or the text of what it threw. *)
Definition FindAndCount : Type :=
  option (T -> bool) -> Z -> Z -> list T * Z + string.

Definition findPaginated (findAndCount : FindAndCount) (page limit : Z)
    (where_ : option (T -> bool)) : Outcome (Page.t T) :=
  let skip := (page - 1) * limit in
  match findAndCount where_ skip limit with
  | inl (data, total) =>
      Fulfilled (Page.mk data total page (ceil_div total limit))
  | inr error =>
      Rejected (mkError PlainError
                  ("Error finding paginated entities: " +:+ error))
  end.

End Repository.
End BaseRepository.

(** ProductService.getAllProducts: the active products, by page. *)
Definition getAllProducts
    (findAndCount : BaseRepository.FindAndCount (T := Product.t))
    (page limit : Z) : Outcome (Page.t Product.t) :=
  BaseRepository.findPaginated findAndCount page limit (Some Product.isActive).

(** The body of GET /api/products: [data] and the [pagination] object. *)
Module Listing.
Record t := mk {
  data : list Product.t;
  page : Z;
  limit : Z;
  total : Z;
  pages : Z
}.
End Listing.

(** ** ProductController *)

(** What a handler sends: the status code and the JSON body, a key the
    body does not carry being [None]. *)
Module Http.
Record Response (A : Type) := mk {
  status : Z;
  success : bool;
  data : option A;
  error : option string;
  message : option string
}.
Arguments mk {A}.
Arguments status {A}.
Arguments success {A}.
Arguments data {A}.
Arguments error {A}.
Arguments message {A}.
End Http.

(** The body of POST /api/products as the handler destructures it; a
    field the client left out is [None]. *)
Module CreateBody.
Record t := mk {
  barcode : option string;
  barcodeType : option BarcodeType.t;
  name : option string;
  description : option string;
  sku : option string;
  categoryId : option string;
  priceUsd : option Z;
  costUsd : option Z;
  imageUrl : option string
}.
End CreateBody.

(** The handlers, each with the request fields it reads as arguments.
    [userId] is [req.user.id] as the JWT middleware has set it. *)
Module ProductController.
Section Handlers.

Context {barcodeService : BarcodeDecoderService}.

Definition createProduct (body : CreateBody.t) (userId : string)
  : Prog (Http.Response Product.t) :=
  try_catch
    ((* Validation *)
     match truthy_string (CreateBody.barcode body),
           truthy_string (CreateBody.name body),
           CreateBody.barcodeType body with
     | Some barcode, Some name, Some barcodeType =>
         let dto :=
           CreateProductDto.mk barcode barcodeType name
             (CreateBody.description body) (CreateBody.sku body)
             (CreateBody.categoryId body) None
             (CreateBody.priceUsd body) (CreateBody.costUsd body)
             (CreateBody.imageUrl body) None in
         product ← createProduct dto userId;
         mret (Http.mk 201 true (Some product) None
                 (Some "Product created successfully"))
     | _, _, _ =>
         mret (Http.mk 400 false None
                 (Some "Missing required fields: barcode, name, barcodeType")
                 None)
     end)
    (fun error => mret (Http.mk 400 false None (Some (message error)) None)).

Definition getProduct (id : string) : Prog (Http.Response Product.t) :=
  try_catch
    (product ← getProductById id;
     match product with
     | None => mret (Http.mk 404 false None (Some "Product not found") None)
     | Some product => mret (Http.mk 200 true (Some product) None None)
     end)
    (fun _ => mret (Http.mk 500 false None (Some "Error fetching product") None)).

Definition getProductByBarcode (barcode : string)
  : Prog (Http.Response Product.t) :=
  try_catch
    (match barcode with
     | EmptyString =>
         mret (Http.mk 400 false None (Some "Barcode is required") None)
     | _ =>
         product ← getProductByBarcode barcode;
         match product with
         | None => mret (Http.mk 404 false None (Some "Product not found") None)
         | Some product => mret (Http.mk 200 true (Some product) None None)
         end
     end)
    (fun _ => mret (Http.mk 500 false None (Some "Error fetching product") None)).

Definition updateProduct (id : string) (dto : UpdateProductDto.t)
  : Prog (Http.Response Product.t) :=
  try_catch
    (product ← updateProduct id dto;
     match product with
     | None => mret (Http.mk 404 false None (Some "Product not found") None)
     | Some product =>
         mret (Http.mk 200 true (Some product) None
                 (Some "Product updated successfully"))
     end)
    (fun error => mret (Http.mk 400 false None (Some (message error)) None)).

Definition deleteProduct (id : string) : Prog (Http.Response unit) :=
  try_catch
    (deleted ← deleteProduct id;
     match deleted with
     | false => mret (Http.mk 404 false None (Some "Product not found") None)
     | true =>
         mret (Http.mk 200 true None None (Some "Product deleted successfully"))
     end)
    (fun error => mret (Http.mk 400 false None (Some (message error)) None)).

(** [products] is [req.body.products] when that is an array. *)
Definition bulkImport (products : option (list CreateProductDto.t))
    (userId : string) : Prog (Http.Response BulkImport.t) :=
  try_catch
    (match products with
     | None | Some [] =>
         mret (Http.mk 400 false None (Some "Products array is required") None)
     | Some products =>
         result ← bulkImportProducts products userId;
         mret (Http.mk 200 true (Some result) None
                 (Some ("Imported " +:+ pretty (BulkImport.created result) +:+
                        " products, " +:+ pretty (BulkImport.failed result) +:+
                        " failed")))
     end)
    (fun error => mret (Http.mk 400 false None (Some (message error)) None)).

End Handlers.
End ProductController.

(** ProductController.listProducts.  [page] and [limit] are what
    [parseInt] made of the query strings, [None] for NaN; the store is
    the [findAndCount] of the product repository. *)
Definition listProducts
    (findAndCount : BaseRepository.FindAndCount (T := Product.t))
    (page limit : option Z) : Http.Response Listing.t :=
  let page := default 1 (truthy_number page) in
  let limit := default 10 (truthy_number limit) in
  if (page <? 1) || (limit <? 1) || (100 <? limit)
  then Http.mk 400 false None (Some "Invalid pagination parameters") None
  else
    match getAllProducts findAndCount page limit with
    | Fulfilled result =>
        Http.mk 200 true
          (Some (Listing.mk (Page.data result) (Page.page result) limit
                            (Page.total result) (Page.pages result)))
          None None
    | Rejected _ =>
        Http.mk 500 false None (Some "Error fetching products") None
    end.

(** A response whose status, success flag and error text agree: 200 or
    201 with success and no error, or 400, 404 or 500 with an error text
    and neither success nor data. *)
Definition coherent {A} (r : Http.Response A) : Prop :=
  (Http.success r = true /\ (Http.status r = 200 \/ Http.status r = 201) /\
   Http.error r = None) \/
  (Http.success r = false /\
   (Http.status r = 400 \/ Http.status r = 404 \/ Http.status r = 500) /\
   is_Some (Http.error r) /\ Http.data r = None).

(** ** What the world holds, for statements *)

(** The product the cache-aside lookup by id resolves: the live entry
    under product:<id>, else the store's row with that id. *)
Definition cache_aside_id (w : World) (id : string) : option Product.t :=
  match cache_get w ("product:" +:+ id) with
  | Some (VProduct p) => Some p
  | _ => repo_findWithRelations w id
  end.

(** A scan counter as [getScanStats] reads it: the number under the key,
    0 when there is none. *)
Definition counter (w : World) (key : string) : Z :=
  match cache_get w key with
  | Some (VNumber n) => n
  | _ => 0
  end.

(** The rows after [repo.update(id, data)]. *)
Definition updated_rows (w : World) (id : string) (data : UpdateProductDto.t)
  : list Product.t :=
  List.map (fun p => if String.eqb (Product.id p) id
                     then apply_update data p else p) (products w).



(** ** More scenes *)

Module Scenes.

(** An empty store that is unreachable for the next call. *)
Definition store_down : World :=
  mkWorld [] 0 ∅ 3600 0 [true] [].

(** The shop after a scan of [abc-1]. *)
Definition scanned : World :=
  (run (decodeScan (ScanDecodeRequest.mk "abc-1" None None)) Shop.opened).2.

(** A request body without a name. *)
Definition nameless : CreateBody.t :=
  CreateBody.mk (Some "abc-1") (Some BarcodeType.CODE128) None None None None
                None None None.

(** A rename, as [Shop.renamed] applies it. *)
Definition rename : UpdateProductDto.t :=
  UpdateProductDto.mk (Some "Gadget") None None None None None.

End Scenes.

(** * Barcode normalization *)

Module CodecFacts.
Import Codec.

Lemma to_upper_canonical c :
  is_alnum c = true -> canonical_char (to_upper c) = true.
Proof.
  destruct c as [[] [] [] [] [] [] [] []]; vm_compute; congruence.
Qed.

Lemma canonical_char_fixed c :
  canonical_char c = true -> is_alnum c = true /\ to_upper c = c.
Proof.
  destruct c as [[] [] [] [] [] [] [] []]; vm_compute; intuition congruence.
Qed.

Lemma digit_canonical c : is_digit c = true -> canonical_char c = true.
Proof. unfold canonical_char. intros ->. reflexivity. Qed.

Lemma payload_canonical raw :
  forallb canonical_char (map to_upper (filter is_alnum raw)) = true.
Proof.
  induction raw as [|c raw IH]; simpl; [reflexivity|].
  destruct (is_alnum c) eqn:E; simpl; [|exact IH].
  rewrite to_upper_canonical, IH by exact E. reflexivity.
Qed.

Lemma canonical_payload_fixed s :
  forallb canonical_char s = true -> map to_upper (filter is_alnum s) = s.
Proof.
  induction s as [|c s IH]; simpl; [reflexivity|].
  intros [Hc Hs]%andb_prop.
  destruct (canonical_char_fixed c Hc) as [-> Hu]. simpl.
  rewrite Hu, IH by exact Hs. reflexivity.
Qed.

Lemma forallb_app f s t :
  forallb f (s +:+ t) = forallb f s && forallb f t.
Proof.
  induction s as [|c s IH]; simpl; [reflexivity|].
  rewrite IH, andb_assoc. reflexivity.
Qed.

Lemma forallb_zeros n : forallb is_digit (zeros n) = true.
Proof. induction n; simpl; auto. Qed.

Lemma forallb_digit_canonical s :
  forallb is_digit s = true -> forallb canonical_char s = true.
Proof.
  induction s as [|c s IH]; simpl; [reflexivity|].
  intros [Hc Hs]%andb_prop. rewrite digit_canonical, IH by assumption.
  reflexivity.
Qed.

Lemma is_numeric_digits s : is_numeric s = true -> forallb is_digit s = true.
Proof. destruct s; simpl; [discriminate|auto]. Qed.

Lemma is_numeric_pad_left width s :
  is_numeric s = true -> is_numeric (pad_left width s) = true.
Proof.
  intros H. pose proof (is_numeric_digits s H) as Hd.
  assert (forallb is_digit (pad_left width s) = true) as Hp.
  { unfold pad_left. rewrite forallb_app, forallb_zeros, Hd. reflexivity. }
  unfold pad_left in *. destruct (zeros (width - String.length s)); simpl in *.
  - exact H.
  - exact Hp.
Qed.

Lemma length_zeros n : String.length (zeros n) = n.
Proof. induction n; simpl; auto. Qed.

Lemma length_append s t :
  String.length (s +:+ t) = (String.length s + String.length t)%nat.
Proof. induction s as [|c s IH]; simpl; [reflexivity|]. rewrite IH. reflexivity. Qed.

Lemma length_pad_left width s :
  String.length (pad_left width s) = (width - String.length s + String.length s)%nat.
Proof.
  unfold pad_left. rewrite length_append, length_zeros. reflexivity.
Qed.

Lemma pad_left_wide_enough width s :
  (width <= String.length s)%nat -> pad_left width s = s.
Proof.
  intros H. unfold pad_left.
  replace (width - String.length s)%nat with 0%nat by lia. reflexivity.
Qed.

(** Normalization is idempotent whenever padding a numeric code to its
    canonical length gives a code that is at its canonical length. *)
Lemma normalize_with_idempotent (canonical : nat -> nat) :
  (forall n, (canonical (canonical n - n + n) <= canonical n - n + n)%nat) ->
  forall x, normalize_with canonical (normalize_with canonical x)
            = normalize_with canonical x.
Proof.
  intros Hcanon x.
  assert (forallb canonical_char (map to_upper (filter is_alnum x)) = true)
    as Hclean by apply payload_canonical.
  unfold normalize_with at 2 3.
  destruct (is_numeric (map to_upper (filter is_alnum x))) eqn:Hnum.
  - unfold normalize_with.
    rewrite canonical_payload_fixed.
    + rewrite is_numeric_pad_left by exact Hnum.
      apply pad_left_wide_enough. rewrite length_pad_left. apply Hcanon.
    + apply forallb_digit_canonical, is_numeric_digits,
        is_numeric_pad_left, Hnum.
  - unfold normalize_with. rewrite canonical_payload_fixed by exact Hclean.
    rewrite Hnum. reflexivity.
Qed.

Lemma canonical_length_stable n :
  (canonical_length (canonical_length n - n + n)
   <= canonical_length n - n + n)%nat.
Proof.
  unfold canonical_length.
  repeat match goal with
         | |- context [(?a <=? ?b)%nat] => destruct (Nat.leb_spec a b)
         end; lia.
Qed.

End CodecFacts.

(** The decoder on the UPC-A code of section 8 and on the same code with
    its last digit changed. *)
Example decode_upc_valid :
  SpecCodec.decode "036000291452"
  = DecodedBarcode.mk "036000291452" "036000291452" Format.UPC true.
Proof. reflexivity. Qed.

Example decode_upc_bad_check_digit :
  SpecCodec.decode "036000291453"
  = DecodedBarcode.mk "036000291453" "036000291453" Format.UPC false.
Proof. reflexivity. Qed.

Example normalize_strips_and_pads :
  Codec.normalize "abc-1" = "ABC1" /\
  Codec.normalize "12 345" = "000000012345".
Proof. split; reflexivity. Qed.

(** C8: barcode normalization is idempotent: for every input string x,
    normalize (normalize x) = normalize x. *)
Theorem normalize_idempotent (x : string) :
  Codec.normalize (Codec.normalize x) = Codec.normalize x.
Proof.
  apply CodecFacts.normalize_with_idempotent, CodecFacts.canonical_length_stable.
Qed.

(** * Running programs *)

Lemma run_bind {A B} (m : Prog A) (f : A -> Prog B) (w : World) :
  run (bind m f) w =
  match run m w with
  | (Fulfilled a, w') => run (f a) w'
  | (Rejected e, w') => (Rejected e, w')
  end.
Proof.
  revert w. induction m as [a|e|op k IH]; intros w; simpl; try reflexivity.
  destruct (exec op w) as [o w']. apply IH.
Qed.

Lemma run_mbind {A B} (m : Prog A) (f : A -> Prog B) (w : World) :
  run (m ≫= f) w =
  match run m w with
  | (Fulfilled a, w') => run (f a) w'
  | (Rejected e, w') => (Rejected e, w')
  end.
Proof. apply run_bind. Qed.

Lemma run_try_catch {A} (m : Prog A) (h : Error -> Prog A) (w : World) :
  run (try_catch m h) w =
  match run m w with
  | (Fulfilled a, w') => (Fulfilled a, w')
  | (Rejected e, w') => run (h e) w'
  end.
Proof.
  revert w. induction m as [a|e|op k IH]; intros w; simpl; try reflexivity.
  destruct (exec op w) as [o w']. apply IH.
Qed.

Lemma run_ret {A} (a : A) (w : World) : run (mret a) w = (Fulfilled a, w).
Proof. reflexivity. Qed.

Lemma run_call (op : Op) (w : World) :
  run (call op) w = exec op w.
Proof.
  unfold call. simpl. destruct (exec op w) as [[a|e] w']; reflexivity.
Qed.

(** ** Programs that never throw *)

Lemma never_throws_run {A} (m : Prog A) :
  never_throws m -> forall w, exists a w', run m w = (Fulfilled a, w').
Proof.
  induction 1 as [a|op k _ IH]; intros w; simpl.
  - eauto.
  - destruct (exec op w) as [o w']. apply IH.
Qed.

Lemma never_throws_try_catch {A} (m : Prog A) (h : Error -> Prog A) :
  (forall e, never_throws (h e)) -> never_throws (try_catch m h).
Proof.
  intros Hh. induction m as [a|e|op k IH]; simpl.
  - constructor.
  - apply Hh.
  - constructor. exact IH.
Qed.

Lemma never_throws_bind {A B} (m : Prog A) (f : A -> Prog B) :
  never_throws m -> (forall a, never_throws (f a)) -> never_throws (bind m f).
Proof.
  intros Hm Hf. induction Hm as [a|op k _ IH]; simpl.
  - apply Hf.
  - constructor. exact IH.
Qed.

Lemma run_then_ret {A B} (m : Prog A) (b : B) (w : World) :
  never_throws m -> run (m ≫= fun _ => mret b) w = (Fulfilled b, (run m w).2).
Proof.
  intros Hm. rewrite run_mbind.
  destruct (never_throws_run m Hm w) as (a & w' & ->). reflexivity.
Qed.

(** ** What a program issues *)

Section Issues.

Context (P : Op -> Prop).

Lemma issues_only_bind {A B} (m : Prog A) (f : A -> Prog B) :
  issues_only P m -> (forall a, issues_only P (f a)) ->
  issues_only P (bind m f).
Proof.
  intros Hm Hf. induction Hm as [a|e|op k Hop _ IH]; simpl.
  - apply Hf.
  - constructor.
  - constructor; assumption.
Qed.

Lemma issues_only_try_catch {A} (m : Prog A) (h : Error -> Prog A) :
  issues_only P m -> (forall e, issues_only P (h e)) ->
  issues_only P (try_catch m h).
Proof.
  intros Hm Hh. induction Hm as [a|e|op k Hop _ IH]; simpl.
  - constructor.
  - apply Hh.
  - constructor; assumption.
Qed.

Lemma issues_only_call (op : Op) : P op -> issues_only P (call op).
Proof.
  intros Hop. constructor; [exact Hop|]. intros [a|e]; constructor.
Qed.

Lemma issues_only_settle {A} (o : Outcome A) : issues_only P (settle o).
Proof. destruct o; constructor. Qed.

Lemma issues_only_step {A} (m : Prog A) (w : World) :
  issues_only P m -> issues_only P (step m w).1.
Proof.
  destruct 1 as [a|e|op k Hop Hk]; simpl; try constructor.
  destruct (exec op w) as [o w']. apply Hk.
Qed.

End Issues.

(** ** The journal *)

Lemma perform_journal (op : Op) (w : World) :
  journal (perform op w).2 = journal w.
Proof.
  destruct op; simpl; try reflexivity.
  - unfold repo_create. destruct (violates_unique w product); reflexivity.
Qed.

Lemma exec_journal (op : Op) (w : World) :
  journal (exec op w).2 = journal w ++ [(op, is_fulfilled (exec op w).1)].
Proof.
  unfold exec. destruct (faults w) as [|[] rest]; simpl.
  - pose proof (perform_journal op w) as H.
    destruct (perform op w) as [o w']. simpl in *. rewrite H. reflexivity.
  - reflexivity.
  - pose proof (perform_journal op (with_faults w rest)) as H.
    destruct (perform op (with_faults w rest)) as [o w']. simpl in *.
    rewrite H. reflexivity.
Qed.

Lemma issued_app (w w' : World) (new : list (Op * bool)) :
  journal w' = journal w ++ new -> issued w w' = new.
Proof. intros H. unfold issued. rewrite H. apply drop_app_length. Qed.

Lemma run_journal (P : Op -> Prop) {A} (m : Prog A) :
  issues_only P m ->
  forall w, exists new,
    journal (run m w).2 = journal w ++ new /\ Forall (fun e => P e.1) new.
Proof.
  induction 1 as [a|e|op k Hop _ IH]; intros w; simpl.
  - exists []. split; [symmetry; apply app_nil_r|constructor].
  - exists []. split; [symmetry; apply app_nil_r|constructor].
  - pose proof (exec_journal op w) as Hj.
    destruct (exec op w) as [o w1]. simpl in Hj.
    destruct (IH o w1) as (new & Hnew & HP).
    exists ((op, is_fulfilled o) :: new). split.
    + rewrite Hnew, Hj, <- app_assoc. reflexivity.
    + constructor; assumption.
Qed.

Lemma run_issued (P : Op -> Prop) {A} (m : Prog A) (w : World) :
  issues_only P m -> Forall (fun e => P e.1) (issued w (run m w).2).
Proof.
  intros H. destruct (run_journal P m H w) as (new & Hnew & HP).
  rewrite (issued_app _ _ _ Hnew). exact HP.
Qed.

(** ** The durable store *)

Lemma perform_products (op : Op) (w : World) :
  no_store_write op -> products (perform op w).2 = products w.
Proof.
  unfold no_store_write. destruct op; simpl; intros H; try reflexivity; discriminate.
Qed.

Lemma exec_products (op : Op) (w : World) :
  no_store_write op -> products (exec op w).2 = products w.
Proof.
  intros H. unfold exec. destruct (faults w) as [|[] rest]; simpl.
  - pose proof (perform_products op w H) as Hp.
    destruct (perform op w) as [o w']. exact Hp.
  - reflexivity.
  - pose proof (perform_products op (with_faults w rest) H) as Hp.
    destruct (perform op (with_faults w rest)) as [o w']. exact Hp.
Qed.

Lemma run_products {A} (m : Prog A) :
  issues_only no_store_write m -> forall w, products (run m w).2 = products w.
Proof.
  induction 1 as [a|e|op k Hop _ IH]; intros w; simpl; try reflexivity.
  pose proof (exec_products op w Hop) as Hp.
  destruct (exec op w) as [o w1]. rewrite IH. exact Hp.
Qed.

Lemma step_products {A} (m : Prog A) (w : World) :
  issues_only no_store_write m -> products (step m w).2 = products w.
Proof.
  destruct 1 as [a|e|op k Hop Hk]; simpl; try reflexivity.
  pose proof (exec_products op w Hop) as Hp.
  destruct (exec op w) as [o w1]. exact Hp.
Qed.

Lemma run_all_products {A} (requests : list (Prog A)) (w : World) :
  Forall (issues_only no_store_write) requests ->
  products (run_all requests w).2 = products w.
Proof.
  intros H. revert w. induction H as [|m rest Hm _ IH]; intros w; simpl.
  - reflexivity.
  - pose proof (run_products m Hm w) as Hp.
    destruct (run m w) as [o w1]. specialize (IH w1).
    destruct (run_all rest w1) as [os w2]. simpl in *. congruence.
Qed.

Lemma interleave_products {A} (schedule : list nat)
    (requests : list (Prog A)) (w : World) :
  Forall (issues_only no_store_write) requests ->
  products (interleave schedule requests w).2 = products w.
Proof.
  revert requests w.
  induction schedule as [|i rest IH]; intros requests w H; simpl.
  - apply run_all_products, H.
  - destruct (requests !! i) as [m|] eqn:Hi; [|apply IH, H].
    assert (issues_only no_store_write m) as Hm
      by (eapply Forall_lookup_1; eassumption).
    pose proof (step_products m w Hm) as Hp.
    pose proof (issues_only_step _ m w Hm) as Hs.
    destruct (step m w) as [m' w']. simpl in *.
    rewrite IH; [exact Hp|]. apply Forall_insert; assumption.
Qed.

(** * What the services issue, and that the scan operations never throw *)

Ltac issues_step :=
  match goal with
  | |- issues_only _ (mbind _ _) => apply issues_only_bind
  | |- issues_only _ (bind _ _) => apply issues_only_bind
  | |- issues_only _ (try_catch _ _) => apply issues_only_try_catch
  | |- issues_only ?P (call ?op) => apply (issues_only_call P op); reflexivity
  | |- issues_only _ (settle _) => apply issues_only_settle
  | |- issues_only _ (mret _) => constructor
  | |- issues_only _ (Ret _) => constructor
  | |- issues_only _ (mthrow _) => constructor
  | |- issues_only _ (match ?x with _ => _ end) => destruct x
  | |- issues_only _ (let '(_, _) := ?x in _) => destruct x
  | |- forall _, _ => intro
  end.

Ltac issues := repeat issues_step.

Section ServiceFacts.

Context {barcodeService : BarcodeDecoderService}.

Lemma getOrSet_issues (P : Op -> Prop) key computeFn ttl :
  (forall k, P (CacheGet k)) -> (forall k v t, P (CacheSet k v t)) ->
  issues_only P computeFn -> issues_only P (getOrSet key computeFn ttl).
Proof.
  intros Hget Hset Hc. unfold getOrSet.
  apply issues_only_bind.
  - apply issues_only_try_catch; [|intro; constructor].
    apply (issues_only_call P (CacheGet key)), Hget.
  - intros cached. assert (issues_only P
      (value ← computeFn;
       match value with
       | Some p => try_catch (call (CacheSet key (VProduct p) ttl))
                     (fun _ => mret tt);; mret value
       | None => mret value
       end)) as Hmiss.
    { apply issues_only_bind; [exact Hc|]. intros [p|]; [|constructor].
      apply issues_only_bind; [|intro; constructor].
      apply issues_only_try_catch; [|intro; constructor].
      apply (issues_only_call P (CacheSet key (VProduct p) ttl)), Hset. }
    destruct cached as [[p|n]|]; try exact Hmiss. constructor.
Qed.

Lemma getProductByBarcode_reads barcode :
  issues_only no_store_write (getProductByBarcode barcode).
Proof.
  apply getOrSet_issues; try reflexivity. issues.
Qed.

Lemma getProductByBarcode_keeps barcode :
  issues_only no_cache_delete (getProductByBarcode barcode).
Proof.
  apply getOrSet_issues; try reflexivity. issues.
Qed.

Lemma logScan_reads data : issues_only no_store_write (logScan data).
Proof. unfold logScan. issues. Qed.

Lemma logScan_keeps data : issues_only no_cache_delete (logScan data).
Proof. unfold logScan. issues. Qed.

Lemma quickAdd_reads request userId :
  issues_only no_store_write (quickAdd request userId).
Proof.
  unfold quickAdd, quickAdd_try, quickAdd_catch.
  apply issues_only_try_catch; [|intro; constructor].
  apply issues_only_bind; [apply getProductByBarcode_reads|].
  intros [product|]; [|constructor].
  destruct (Product.inventory product) as [inventory|]; [|constructor].
  destruct (Inventory.addStock inventory _); [|constructor].
  apply issues_only_bind; [apply logScan_reads|]. issues.
Qed.

Lemma receiveInventory_reads barcode quantity supplierId userId :
  issues_only no_store_write (receiveInventory barcode quantity supplierId userId).
Proof.
  unfold receiveInventory, receiveInventory_try, receiveInventory_catch.
  apply issues_only_try_catch; [|intro; constructor].
  apply issues_only_bind; [apply getProductByBarcode_reads|].
  intros [product|]; [|constructor].
  destruct (Product.inventory product) as [inventory|]; [|constructor].
  apply issues_only_bind; [apply issues_only_settle|]. intros inventory'.
  apply issues_only_bind; [apply logScan_reads|]. issues.
Qed.

Lemma receiveInventory_keeps barcode quantity supplierId userId :
  issues_only no_cache_delete (receiveInventory barcode quantity supplierId userId).
Proof.
  unfold receiveInventory, receiveInventory_try, receiveInventory_catch.
  apply issues_only_try_catch; [|intro; constructor].
  apply issues_only_bind; [apply getProductByBarcode_keeps|].
  intros [product|]; [|constructor].
  destruct (Product.inventory product) as [inventory|]; [|constructor].
  apply issues_only_bind; [apply issues_only_settle|]. intros inventory'.
  apply issues_only_bind; [apply logScan_keeps|]. issues.
Qed.

Lemma stock_calls_read (calls : list StockCall) :
  Forall (issues_only no_store_write) (stock_call <$> calls).
Proof.
  apply Forall_fmap, Forall_forall. intros [request userId|b q s u] _; simpl.
  - apply quickAdd_reads.
  - apply receiveInventory_reads.
Qed.

(** ** No exception leaves a scan operation *)

Lemma logScan_never_throws data : never_throws (logScan data).
Proof. apply never_throws_try_catch. intro. constructor. Qed.

Lemma decodeScan_never_throws request : never_throws (decodeScan request).
Proof. apply never_throws_try_catch. intro. constructor. Qed.

Lemma quickAdd_never_throws request userId :
  never_throws (quickAdd request userId).
Proof. apply never_throws_try_catch. intro. constructor. Qed.

Lemma receiveInventory_never_throws barcode quantity supplierId userId :
  never_throws (receiveInventory barcode quantity supplierId userId).
Proof. apply never_throws_try_catch. intro. constructor. Qed.

Lemma batch_iteration_never_throws operation quantity results barcode :
  never_throws (batch_iteration operation quantity results barcode).
Proof.
  unfold batch_iteration. apply never_throws_bind.
  - apply never_throws_try_catch. intro. constructor.
  - intros [itemResult|error]; [|constructor].
    destruct (item_success itemResult) as [[]|]; constructor.
Qed.

Lemma batch_loop_never_throws operation quantity barcodes results :
  never_throws (batch_loop operation quantity barcodes results).
Proof.
  revert results. induction barcodes as [|barcode rest IH]; intros results; simpl.
  - constructor.
  - apply never_throws_bind; [apply batch_iteration_never_throws|exact IH].
Qed.

End ServiceFacts.

(** * The claims about the scan coordinator *)

(** C10: decodeScan, quickAdd, receiveInventory and batchScan never
    propagate an exception to the caller.  Whatever the barcode service,
    the world and the outages in it, each of them settles fulfilled; and
    an error thrown inside the try block of decodeScan, quickAdd or
    receiveInventory comes back as the response of the catch block, with
    success = false and a message built from the error's message. *)
Theorem scan_operations_never_throw {barcodeService : BarcodeDecoderService} :
  (forall request w, exists response w',
      run (decodeScan request) w = (Fulfilled response, w')) /\
  (forall request userId w, exists response w',
      run (quickAdd request userId) w = (Fulfilled response, w')) /\
  (forall barcode quantity supplierId userId w, exists response w',
      run (receiveInventory barcode quantity supplierId userId) w
      = (Fulfilled response, w')) /\
  (forall barcodes operation quantity w, exists results w',
      run (batchScan barcodes operation quantity) w = (Fulfilled results, w')) /\
  (forall request w,
      run (decodeScan request) w =
      match run (decodeScan_try request) w with
      | (Fulfilled response, w') => (Fulfilled response, w')
      | (Rejected error, w') =>
          (Fulfilled (ScanDecodeResponse.mk false None
                        (decode (ScanDecodeRequest.barcode request)) false
                        ("Error decoding scan: " +:+ message error)), w')
      end) /\
  (forall request userId w,
      run (quickAdd request userId) w =
      match run (quickAdd_try request userId) w with
      | (Fulfilled response, w') => (Fulfilled response, w')
      | (Rejected error, w') =>
          (Fulfilled (QuickAddResponse.mk false None
                        (QuickAddRequest.quantity request) 0
                        ("Error in quick add: " +:+ message error)), w')
      end) /\
  (forall barcode quantity supplierId userId w,
      run (receiveInventory barcode quantity supplierId userId) w =
      match run (receiveInventory_try barcode quantity supplierId userId) w with
      | (Fulfilled response, w') => (Fulfilled response, w')
      | (Rejected error, w') =>
          (Fulfilled (QuickAddResponse.mk false None quantity 0 (message error)),
           w')
      end).
Proof.
  repeat split.
  - intros. apply never_throws_run, decodeScan_never_throws.
  - intros. apply never_throws_run, quickAdd_never_throws.
  - intros. apply never_throws_run, receiveInventory_never_throws.
  - intros. apply never_throws_run, batch_loop_never_throws.
  - intros. unfold decodeScan. rewrite run_try_catch.
    destruct (run (decodeScan_try request) w) as [[response|error] w']; reflexivity.
  - intros. unfold quickAdd. rewrite run_try_catch.
    destruct (run (quickAdd_try request userId) w) as [[response|error] w'];
      reflexivity.
  - intros. unfold receiveInventory. rewrite run_try_catch.
    destruct (run (receiveInventory_try barcode quantity supplierId userId) w)
      as [[response|error] w']; reflexivity.
Qed.

(** C1: concurrent stock mutations on one inventory record serialize,
    so that adding 5 and 3 raises quantityOnHand by exactly 8.  The code
    does not keep this.  Whatever the set of concurrent quickAdd and
    receiveInventory calls and whatever the schedule of their segments,
    the durable store is exactly what it was before them: no stock is
    ever added to the stored quantityOnHand.  In the shop with 0 on hand,
    quickAdd of 5 followed by quickAdd of 3 on the same barcode both
    report success, the first with newStock 5, the second with newStock
    3, and the store still holds 0: the 5 is lost.  With the segments of
    the two calls taking turns the answers are the same. *)
Theorem concurrent_quickAdd_loses_stock :
  (forall (barcodeService : BarcodeDecoderService)
          (calls : list StockCall) (schedule : list nat) (w : World),
      products (interleave schedule (stock_call <$> calls) w).2 = products w) /\
  stored_stock Shop.opened "ABC1" = Some 0 /\
  (exists response1 response2 w',
      interleave [] (stock_call <$> [QuickAdd Shop.add5 "device-a";
                                     QuickAdd Shop.add3 "device-b"])
                 Shop.opened
      = ([Fulfilled response1; Fulfilled response2], w') /\
      QuickAddResponse.success response1 = true /\
      QuickAddResponse.newStock response1 = 5 /\
      QuickAddResponse.success response2 = true /\
      QuickAddResponse.newStock response2 = 3 /\
      stored_stock w' "ABC1" = Some 0) /\
  (exists response1 response2 w',
      interleave (concat (replicate 8 [0; 1]%nat))
                 (stock_call <$> [QuickAdd Shop.add5 "device-a";
                                  QuickAdd Shop.add3 "device-b"])
                 Shop.opened
      = ([Fulfilled response1; Fulfilled response2], w') /\
      QuickAddResponse.success response1 = true /\
      QuickAddResponse.newStock response1 = 5 /\
      QuickAddResponse.success response2 = true /\
      QuickAddResponse.newStock response2 = 3 /\
      stored_stock w' "ABC1" = Some 0).
Proof.
  split; [|split; [|split]].
  - intros. apply interleave_products, stock_calls_read.
  - reflexivity.
  - eexists _, _, _. split; [vm_compute; reflexivity|].
    repeat split; vm_compute; reflexivity.
  - eexists _, _, _. split; [vm_compute; reflexivity|].
    repeat split; vm_compute; reflexivity.
Qed.

(** C3: on the mutating scan paths the cache invalidation is issued
    only after the durable stock write has committed.  The code does not
    keep this.  Neither quickAdd nor receiveInventory ever issues a write
    to the durable store, in any world.  In the shop a successful
    quickAdd issues the deletes of product:id-0 and product:barcode:ABC1
    although no store write was fulfilled before them, and the stored
    stock stays 0 while the response reports 5. *)
Theorem quickAdd_invalidates_without_write :
  (forall (barcodeService : BarcodeDecoderService) request userId w,
      Forall (fun e => no_store_write e.1)
             (issued w (run (quickAdd request userId) w).2)) /\
  (forall (barcodeService : BarcodeDecoderService)
          barcode quantity supplierId userId w,
      Forall (fun e => no_store_write e.1)
             (issued w (run (receiveInventory barcode quantity supplierId userId)
                            w).2)) /\
  (exists response w',
      run (quickAdd Shop.add5 "device-a") Shop.opened = (Fulfilled response, w') /\
      QuickAddResponse.success response = true /\
      QuickAddResponse.newStock response = 5 /\
      List.filter (fun e => is_cache_delete e.1) (issued Shop.opened w')
      = [(CacheDelete "product:id-0", true);
         (CacheDelete "product:barcode:ABC1", true)] /\
      deletes_follow_write false (issued Shop.opened w') = false /\
      stored_stock w' "ABC1" = Some 0).
Proof.
  split; [|split].
  - intros. apply run_issued, quickAdd_reads.
  - intros. apply run_issued, receiveInventory_reads.
  - eexists _, _. split; [vm_compute; reflexivity|].
    repeat split; vm_compute; reflexivity.
Qed.

(** C4: receiveInventory, like quickAdd, invalidates product:<id> and
    product:barcode:<barcode> on every successful stock mutation.  The
    code does not keep this.  receiveInventory never issues a cache
    delete, in any world.  In the shop with both cache keys
    filled, receiveInventory of 5 reports success with newStock 5 and
    leaves product:id-0 and product:barcode:ABC1 cached with 0 on hand,
    where quickAdd of 5 on the same input removes both entries. *)
Theorem receiveInventory_skips_invalidation :
  (forall (barcodeService : BarcodeDecoderService)
          barcode quantity supplierId userId w,
      Forall (fun e => no_cache_delete e.1)
             (issued w (run (receiveInventory barcode quantity supplierId userId)
                            w).2)) /\
  cache_get Shop.warmed "product:id-0" = Some (VProduct Shop.widget) /\
  cache_get Shop.warmed "product:barcode:ABC1" = Some (VProduct Shop.widget) /\
  (exists response w',
      run (receiveInventory "abc-1" 5 None None) Shop.warmed
      = (Fulfilled response, w') /\
      QuickAddResponse.success response = true /\
      QuickAddResponse.newStock response = 5 /\
      cache_get w' "product:id-0" = Some (VProduct Shop.widget) /\
      cache_get w' "product:barcode:ABC1" = Some (VProduct Shop.widget)) /\
  (exists response w',
      run (quickAdd Shop.add5 "device-a") Shop.warmed = (Fulfilled response, w') /\
      QuickAddResponse.success response = true /\
      QuickAddResponse.newStock response = 5 /\
      cache_get w' "product:id-0" = None /\
      cache_get w' "product:barcode:ABC1" = None).
Proof.
  split; [|split; [|split; [|split]]].
  - intros. apply run_issued, receiveInventory_keeps.
  - vm_compute; reflexivity.
  - vm_compute; reflexivity.
  - eexists _, _. split; [vm_compute; reflexivity|].
    repeat split; vm_compute; reflexivity.
  - eexists _, _. split; [vm_compute; reflexivity|].
    repeat split; vm_compute; reflexivity.
Qed.

(** ** Non-positive quantities *)

Lemma addStock_nonpositive inventory quantity :
  quantity <= 0 ->
  Inventory.addStock inventory quantity
  = Rejected (mkError InvalidQuantity "InvalidQuantity").
Proof.
  intros H. unfold Inventory.addStock.
  destruct (Z.leb_spec quantity 0); [reflexivity|lia].
Qed.

(** C6: for every inventory record and every quantity <= 0, addStock
    fails with InvalidQuantity, and quickAdd with that quantity reports
    success = false and leaves the stored products as they were; when it
    reaches addStock on the inventory of the product it resolved, the
    response carries the unchanged product, the unchanged quantityOnHand
    as newStock and the error's message. *)
Theorem nonpositive_quantity_rejected (inventory : Inventory.t) (quantity : Z) :
  quantity <= 0 ->
  (exists error,
      Inventory.addStock inventory quantity = Rejected error /\
      kind error = InvalidQuantity) /\
  (forall (barcodeService : BarcodeDecoderService) request userId w,
      QuickAddRequest.quantity request = quantity ->
      exists response w',
        run (quickAdd request userId) w = (Fulfilled response, w') /\
        QuickAddResponse.success response = false /\
        products w' = products w) /\
  (forall (barcodeService : BarcodeDecoderService) request userId w product w1,
      QuickAddRequest.quantity request = quantity ->
      run (getProductByBarcode (QuickAddRequest.barcode request)) w
      = (Fulfilled (Some product), w1) ->
      Product.inventory product = Some inventory ->
      exists error,
        kind error = InvalidQuantity /\
        run (quickAdd request userId) w
        = (Fulfilled (QuickAddResponse.mk false (Some product) quantity
                        (Inventory.quantityOnHand inventory)
                        ("Error adding stock: " +:+ message error)), w1)).
Proof.
  intros Hq. split; [|split].
  - eexists. split; [apply addStock_nonpositive, Hq|reflexivity].
  - intros barcodeService request userId w Hrequest.
    pose proof (run_products _ (quickAdd_reads request userId) w) as Hstore.
    revert Hstore. unfold quickAdd. rewrite run_try_catch.
    unfold quickAdd_try. rewrite run_mbind.
    destruct (run (getProductByBarcode (QuickAddRequest.barcode request)) w)
      as [[[product|]|error] w1]; simpl; eauto.
    destruct (Product.inventory product) as [inv|]; simpl; eauto.
    rewrite Hrequest, addStock_nonpositive by exact Hq. simpl. eauto.
  - intros barcodeService request userId w product w1 Hrequest Hfound Hinv.
    exists (mkError InvalidQuantity "InvalidQuantity"). split; [reflexivity|].
    unfold quickAdd. rewrite run_try_catch.
    unfold quickAdd_try. rewrite run_mbind, Hfound. simpl.
    rewrite Hinv, Hrequest, addStock_nonpositive by exact Hq. reflexivity.
Qed.

(** The shelf of the shop and a quantity of -1. *)
Lemma nonpositive_quantity_rejected_witness :
  -1 <= 0 /\
  (exists error,
      Inventory.addStock Shop.shelf (-1) = Rejected error /\
      kind error = InvalidQuantity) /\
  (exists response w',
      run (quickAdd (QuickAddRequest.mk "abc-1" (-1) None None) "device-a")
          Shop.opened = (Fulfilled response, w') /\
      QuickAddResponse.success response = false /\
      products w' = products Shop.opened).
Proof.
  assert (-1 <= 0) as H by lia.
  split; [exact H|]. split.
  - exact (proj1 (nonpositive_quantity_rejected Shop.shelf (-1) H)).
  - exact (proj1 (proj2 (nonpositive_quantity_rejected Shop.shelf (-1) H))
             specBarcodeService
             (QuickAddRequest.mk "abc-1" (-1) None None) "device-a"
             Shop.opened eq_refl).
Defined.

(** ** Batches *)

Section Batches.

Context {barcodeService : BarcodeDecoderService}.

Lemma batch_dispatch_never_throws operation quantity barcode :
  never_throws (batch_dispatch operation quantity barcode).
Proof.
  unfold batch_dispatch.
  destruct (String.eqb operation "lookup"), (String.eqb operation "add"),
    (String.eqb operation "receive"), (truthy_number quantity);
    try apply nt_ret;
    apply never_throws_bind; try (intro; apply nt_ret).
  all: first [apply decodeScan_never_throws | apply quickAdd_never_throws
             | apply receiveInventory_never_throws].
Qed.

Lemma reported_app flag items1 items2 :
  reported flag (items1 ++ items2)
  = (reported flag items1 + reported flag items2)%nat.
Proof. unfold reported. rewrite List.filter_app, length_app. reflexivity. Qed.

(** One turn of the loop settles fulfilled, appends to the items and
    counts exactly one success or one failure. *)
Lemma batch_iteration_counts operation quantity results barcode w :
  exists results' w' new,
    run (batch_iteration operation quantity results barcode) w
    = (Fulfilled results', w') /\
    items results' = items results ++ new /\
    succeeded results' = (succeeded results + reported true new)%nat /\
    failed results' = (failed results + reported false new)%nat /\
    (reported true new + reported false new = 1)%nat.
Proof.
  unfold batch_iteration. rewrite run_mbind, run_try_catch, run_mbind.
  destruct (never_throws_run _
              (batch_dispatch_never_throws operation quantity barcode) w)
    as (itemResult & w' & ->). simpl.
  destruct itemResult as [|r|r|b e]; simpl.
  - eexists _, _, [ItemUndefined; ItemError barcode _]. split; [reflexivity|].
    unfold reported. simpl. rewrite <- app_assoc. repeat split; lia.
  - destruct (ScanDecodeResponse.success r) eqn:E;
      eexists _, _, [ItemDecode r]; (split; [reflexivity|]);
      unfold reported; simpl; rewrite E; simpl; repeat split; lia.
  - destruct (QuickAddResponse.success r) eqn:E;
      eexists _, _, [ItemQuickAdd r]; (split; [reflexivity|]);
      unfold reported; simpl; rewrite E; simpl; repeat split; lia.
  - eexists _, _, [ItemError b e]. split; [reflexivity|].
    unfold reported; simpl. repeat split; lia.
Qed.

Lemma batch_loop_counts operation quantity barcodes results w :
  exists results' w' new,
    run (batch_loop operation quantity barcodes results) w
    = (Fulfilled results', w') /\
    items results' = items results ++ new /\
    succeeded results' = (succeeded results + reported true new)%nat /\
    failed results' = (failed results + reported false new)%nat /\
    (reported true new + reported false new = length barcodes)%nat.
Proof.
  revert results w. induction barcodes as [|barcode rest IH]; intros results w.
  - exists results, w, []. simpl. rewrite app_nil_r.
    unfold reported; simpl. repeat split; lia.
  - simpl. rewrite run_mbind.
    destruct (batch_iteration_counts operation quantity results barcode w)
      as (r1 & w1 & new1 & -> & Hi1 & Hs1 & Hf1 & Hn1).
    destruct (IH r1 w1) as (r2 & w2 & new2 & -> & Hi2 & Hs2 & Hf2 & Hn2).
    exists r2, w2, (new1 ++ new2). split; [reflexivity|].
    rewrite !reported_app, Hi2, Hi1, <- app_assoc. repeat split; lia.
Qed.

Lemma batch_dispatch_unsupported operation quantity barcode :
  unsupported operation quantity = true ->
  batch_dispatch operation quantity barcode = mret ItemUndefined.
Proof.
  unfold unsupported, batch_dispatch.
  destruct (String.eqb operation "lookup"), (String.eqb operation "add"),
    (String.eqb operation "receive"), (truthy_number quantity); intros H;
    try discriminate; reflexivity.
Qed.

Lemma batch_loop_unsupported operation quantity barcodes results w :
  unsupported operation quantity = true ->
  run (batch_loop operation quantity barcodes results) w
  = (Fulfilled
       (mkResults (processed results + length barcodes) (succeeded results)
          (failed results + length barcodes)
          (items results ++
           flat_map (fun barcode =>
                       [ItemUndefined;
                        ItemError barcode (message undefined_success)])
                    barcodes)), w).
Proof.
  intros H. revert results.
  induction barcodes as [|barcode rest IH]; intros results; simpl.
  - rewrite !Nat.add_0_r, app_nil_r. destruct results; reflexivity.
  - rewrite run_mbind. unfold batch_iteration at 1.
    rewrite batch_dispatch_unsupported by exact H. simpl.
    rewrite IH. simpl. rewrite <- !app_assoc. simpl.
    rewrite <- !Nat.add_succ_comm. reflexivity.
Qed.

Lemma batch_loop_app operation quantity barcodes1 barcodes2 results w :
  run (batch_loop operation quantity (barcodes1 ++ barcodes2) results) w
  = match run (batch_loop operation quantity barcodes1 results) w with
    | (Fulfilled results1, w1) =>
        run (batch_loop operation quantity barcodes2 results1) w1
    | (Rejected error, w1) => (Rejected error, w1)
    end.
Proof.
  revert results w.
  induction barcodes1 as [|barcode rest IH]; intros results w; simpl.
  - reflexivity.
  - rewrite !run_mbind.
    destruct (run (batch_iteration operation quantity results barcode) w)
      as [[results1|error] w1]; [apply IH|reflexivity].
Qed.

End Batches.

(** C7: batchScan reports an item whose operation and quantity have no
    branch as a failed item and throws nothing, and no item's failure
    stops or undoes the others.  For every batch, operation, quantity and
    world the call settles fulfilled; every barcode is counted exactly
    once, as succeeded or as failed, and the counts are the numbers of
    items with [success] true and false.  With an unsupported combination
    every barcode yields the [undefined] item followed by a failure record
    for that barcode, [failed] is the number of barcodes and the world is
    untouched.  The loop over two batches in a row is the loop over the
    first followed by the loop over the second from the results and the
    world the first one left. *)
Theorem batchScan_isolates_failures {barcodeService : BarcodeDecoderService} :
  (forall barcodes operation quantity w, exists results w',
      run (batchScan barcodes operation quantity) w = (Fulfilled results, w') /\
      (succeeded results + failed results = length barcodes)%nat /\
      succeeded results = reported true (items results) /\
      failed results = reported false (items results)) /\
  (forall barcodes operation quantity w,
      unsupported operation quantity = true ->
      run (batchScan barcodes operation quantity) w
      = (Fulfilled
           (mkResults (length barcodes) 0 (length barcodes)
              (flat_map (fun barcode =>
                           [ItemUndefined;
                            ItemError barcode (message undefined_success)])
                        barcodes)), w)) /\
  (forall operation quantity barcodes1 barcodes2 results w,
      run (batch_loop operation quantity (barcodes1 ++ barcodes2) results) w
      = match run (batch_loop operation quantity barcodes1 results) w with
        | (Fulfilled results1, w1) =>
            run (batch_loop operation quantity barcodes2 results1) w1
        | (Rejected error, w1) => (Rejected error, w1)
        end).
Proof.
  split; [|split].
  - intros barcodes operation quantity w. unfold batchScan.
    destruct (batch_loop_counts operation quantity barcodes
                (mkResults 0 0 0 []) w)
      as (results & w' & new & -> & Hi & Hs & Hf & Hn).
    exists results, w'. simpl in Hi, Hs, Hf. rewrite Hi, Hs, Hf.
    repeat split. exact Hn.
  - intros barcodes operation quantity w H. unfold batchScan.
    rewrite batch_loop_unsupported by exact H. reflexivity.
  - intros. apply batch_loop_app.
Qed.

(** A batch of two barcodes under the operation count. *)
Lemma batchScan_isolates_failures_witness :
  unsupported "count" (Some 3) = true /\
  run (batchScan ["abc-1"; "zzz"] "count" (Some 3)) Shop.opened
  = (Fulfilled
       (mkResults 2 0 2
          [ItemUndefined; ItemError "abc-1" (message undefined_success);
           ItemUndefined; ItemError "zzz" (message undefined_success)]),
     Shop.opened).
Proof.
  split; [reflexivity|].
  exact (proj1 (proj2 (@batchScan_isolates_failures specBarcodeService))
           ["abc-1"; "zzz"] "count" (Some 3) Shop.opened eq_refl).
Defined.

(** ** Runs without outages *)

Lemma exec_calm (op : Op) (w : World) :
  faults w = [] ->
  exec op w =
  ((perform op w).1,
   with_journal (perform op w).2
     (journal (perform op w).2 ++ [(op, is_fulfilled (perform op w).1)])).
Proof.
  intros H. unfold exec. rewrite H. destruct (perform op w); reflexivity.
Qed.

Lemma cache_get_set (w : World) (key : string) (v : CacheValue) (ttl : Z) :
  0 < ttl -> cache_get (cache_set w key v (Some ttl)) key = Some v.
Proof.
  intros H. unfold cache_get, cache_set. simpl.
  rewrite lookup_insert_eq. unfold expired. simpl.
  destruct (Z.leb_spec (now w + ttl) (now w)); [lia|reflexivity].
Qed.

Lemma cache_get_expired (w : World) (key : string) (v : CacheValue) (ttl : Z) :
  cache_get (advance (cache_set w key v (Some ttl)) ttl) key = None.
Proof.
  unfold cache_get, cache_set, advance. simpl.
  rewrite lookup_insert_eq. unfold expired. simpl.
  destruct (Z.leb_spec (now w + ttl) (now w + ttl)); [reflexivity|lia].
Qed.

(** ** Cache keys a program leaves alone *)

Lemma perform_leaves_key (key : string) (op : Op) (w : World) :
  leaves_key key op -> cache_get (perform op w).2 key = cache_get w key.
Proof.
  destruct op; simpl; intros H; try reflexivity.
  - unfold cache_get. simpl. rewrite lookup_insert_ne by exact H. reflexivity.
  - unfold cache_get. simpl. rewrite lookup_delete_ne by exact H. reflexivity.
  - unfold cache_get. simpl.
    destruct (entries w !! key) as [e|] eqn:E.
    + erewrite map_lookup_filter_Some_2; [reflexivity|exact E|exact H].
    + rewrite map_lookup_filter_None_2; [reflexivity|]. left. exact E.
  - unfold cache_get. simpl. rewrite lookup_insert_ne by exact H. reflexivity.
  - unfold repo_create. destruct (violates_unique w product); reflexivity.
Qed.

Lemma exec_leaves_key (key : string) (op : Op) (w : World) :
  leaves_key key op -> cache_get (exec op w).2 key = cache_get w key.
Proof.
  intros H. unfold exec. destruct (faults w) as [|[] rest]; simpl.
  - pose proof (perform_leaves_key key op w H) as Hp.
    destruct (perform op w). exact Hp.
  - reflexivity.
  - pose proof (perform_leaves_key key op (with_faults w rest) H) as Hp.
    destruct (perform op (with_faults w rest)). exact Hp.
Qed.

Lemma run_leaves_key (key : string) {A} (m : Prog A) :
  issues_only (leaves_key key) m ->
  forall w, cache_get (run m w).2 key = cache_get w key.
Proof.
  induction 1 as [a|e|op k Hop _ IH]; intros w; simpl; try reflexivity.
  pose proof (exec_leaves_key key op w Hop) as Hp.
  destruct (exec op w) as [o w1]. rewrite IH. exact Hp.
Qed.

Section Resolution.

Context {barcodeService : BarcodeDecoderService}.

(** Without outages [getProductByBarcode] is the cache-aside resolution
    under the normalized barcode; it leaves every other cache key and
    the clock alone. *)
Lemma getProductByBarcode_cache_aside barcode w :
  faults w = [] ->
  exists w',
    run (getProductByBarcode barcode) w
    = (Fulfilled (cache_aside w (normalize barcode)), w') /\
    faults w' = [] /\
    now w' = now w /\
    forall key, key <> "product:barcode:" +:+ normalize barcode ->
                cache_get w' key = cache_get w key.
Proof.
  intros H. unfold getProductByBarcode, getOrSet, cache_aside. cbv zeta.
  set (key := "product:barcode:" +:+ normalize barcode).
  rewrite run_mbind, run_try_catch, (run_call (CacheGet key)), exec_calm
    by exact H.
  cbn [perform fst snd is_fulfilled].
  set (w1 := with_journal w (journal w ++ [(CacheGet key, true)])).
  assert (exists w',
    run (value ← call (FindByBarcode (normalize barcode));
         match value with
         | Some p =>
             try_catch (call (CacheSet key (VProduct p) None))
                       (fun _ => mret tt);; mret value
         | None => mret value
         end) w1
    = (Fulfilled (repo_findByBarcode w (normalize barcode)), w') /\
    faults w' = [] /\ now w' = now w /\
    forall other, other <> key -> cache_get w' other = cache_get w other)
    as Hmiss.
  { rewrite run_mbind, (run_call (FindByBarcode (normalize barcode))), exec_calm
      by exact H.
    cbn [perform fst snd is_fulfilled].
    change (repo_findByBarcode w1 (normalize barcode))
      with (repo_findByBarcode w (normalize barcode)).
    destruct (repo_findByBarcode w (normalize barcode)) as [p|].
    - rewrite run_mbind, run_try_catch,
        (run_call (CacheSet key (VProduct p) None)), exec_calm by exact H.
      cbn [perform fst snd is_fulfilled]. rewrite run_ret.
      eexists. repeat split; try exact H.
      intros other Hother. unfold cache_get. simpl.
      rewrite lookup_insert_ne by congruence. reflexivity.
    - rewrite run_ret. eexists. repeat split. exact H. }
  destruct (cache_get w key) as [[p|n]|]; try exact Hmiss.
  rewrite run_ret. eexists. repeat split. exact H.
Qed.

Lemma logScan_leaves_key data key :
  (forall suffix, key <> "metrics:" +:+ suffix) ->
  issues_only (leaves_key key) (logScan data).
Proof.
  intros Hkey. unfold logScan.
  apply issues_only_try_catch; [|intro; constructor].
  apply issues_only_bind; [|intros _; apply issues_only_bind;
                                     [|intros _; constructor]].
  - apply (issues_only_call _ (CacheIncrement _ _)). simpl.
    intros E. apply (Hkey "total-scans"). symmetry. exact E.
  - apply (issues_only_call _ (CacheIncrement _ _)). simpl.
    intros E.
    apply (Hkey ("scans:" +:+ scanTypeName (ScanLogData.scanType data))).
    symmetry. exact E.
Qed.

End Resolution.

Section ScanResolution.

Context {barcodeService : BarcodeDecoderService}.

Lemma scan_key_not_metrics raw suffix :
  "scan:product:" +:+ raw <> "metrics:" +:+ suffix.
Proof. simpl. discriminate. Qed.

(** C5, as the code has it: decodeScan first looks in the cache under
    scan:product:<rawValue>, the raw string and not the normalized one.
    Without outages, on a hit there it answers with that entry and
    cached = true; only on a miss does it resolve the product by the
    cache-aside lookup under product:barcode:<normalized> with the
    durable store as fallback, answers with cached = false, and stores a
    product it found under scan:product:<rawValue>. *)
Theorem decodeScan_resolution (request : ScanDecodeRequest.t) (w : World) :
  faults w = [] ->
  let decoded := decode (ScanDecodeRequest.barcode request) in
  let scanKey := "scan:product:" +:+ DecodedBarcode.rawValue decoded in
  exists response w',
    run (decodeScan request) w = (Fulfilled response, w') /\
    ScanDecodeResponse.barcode response = decoded /\
    ScanDecodeResponse.success response
    = bool_decide (is_Some (ScanDecodeResponse.product response)) /\
    match cache_get w scanKey with
    | Some (VProduct p) =>
        ScanDecodeResponse.product response = Some p /\
        ScanDecodeResponse.cached response = true
    | _ =>
        ScanDecodeResponse.product response
        = cache_aside w (normalize (DecodedBarcode.rawValue decoded)) /\
        ScanDecodeResponse.cached response = false /\
        forall p, ScanDecodeResponse.product response = Some p ->
                  cache_get w' scanKey = Some (VProduct p)
    end.
Proof.
  intros H decoded scanKey.
  unfold decodeScan, decodeScan_try. rewrite run_try_catch.
  fold decoded. fold scanKey. cbv zeta.
  rewrite run_mbind, (run_call (CacheGet scanKey)), exec_calm by exact H.
  cbn [perform fst snd is_fulfilled].
  set (w1 := with_journal w (journal w ++ [(CacheGet scanKey, true)])).
  assert (faults w1 = []) as H1 by exact H.
  rewrite run_mbind.
  assert (forall response w',
    ScanDecodeResponse.barcode response = decoded ->
    ScanDecodeResponse.success response
    = bool_decide (is_Some (ScanDecodeResponse.product response)) ->
    ScanDecodeResponse.product response
    = cache_aside w (normalize (DecodedBarcode.rawValue decoded)) ->
    ScanDecodeResponse.cached response = false ->
    (forall p, ScanDecodeResponse.product response = Some p ->
               cache_get w' scanKey = Some (VProduct p)) ->
    exists response0 w'0,
      (Fulfilled response, w') = (Fulfilled response0, w'0) /\
      ScanDecodeResponse.barcode response0 = decoded /\
      ScanDecodeResponse.success response0
      = bool_decide (is_Some (ScanDecodeResponse.product response0)) /\
      ScanDecodeResponse.product response0
      = cache_aside w (normalize (DecodedBarcode.rawValue decoded)) /\
      ScanDecodeResponse.cached response0 = false /\
      forall p, ScanDecodeResponse.product response0 = Some p ->
                cache_get w'0 scanKey = Some (VProduct p)) as Hpack
    by (intros; eexists _, _; eauto 10).
  assert (forall data, issues_only (leaves_key scanKey) (logScan data)) as Hlog
    by (intro; apply logScan_leaves_key, scan_key_not_metrics).
  destruct (cache_get w scanKey) as [[p|n]|] eqn:Hhit.
  - rewrite run_ret. cbn beta iota.
    rewrite run_then_ret by apply logScan_never_throws.
    eexists _, _. split; [reflexivity|]. cbn. repeat split.
  - rewrite run_mbind.
    destruct (getProductByBarcode_cache_aside
                (DecodedBarcode.rawValue decoded) w1 H1)
      as (w2 & -> & H2 & _ & _).
    change (cache_aside w1 (normalize (DecodedBarcode.rawValue decoded)))
      with (cache_aside w (normalize (DecodedBarcode.rawValue decoded))).
    destruct (cache_aside w (normalize (DecodedBarcode.rawValue decoded)))
      as [p|].
    + rewrite run_mbind, (run_call (CacheSet scanKey (VProduct p) (Some 1800))),
        exec_calm by exact H2.
      cbn [perform fst snd is_fulfilled]. rewrite run_ret. cbn beta iota.
      rewrite run_then_ret by apply logScan_never_throws.
      apply Hpack; try reflexivity.
      intros p' [= <-]. rewrite (run_leaves_key scanKey _ (Hlog _)).
      apply (cache_get_set w2 scanKey (VProduct p) 1800). lia.
    + rewrite run_ret. cbn beta iota.
      rewrite run_then_ret by apply logScan_never_throws.
      apply Hpack; try reflexivity. intros p' [=].
  - rewrite run_mbind.
    destruct (getProductByBarcode_cache_aside
                (DecodedBarcode.rawValue decoded) w1 H1)
      as (w2 & -> & H2 & _ & _).
    change (cache_aside w1 (normalize (DecodedBarcode.rawValue decoded)))
      with (cache_aside w (normalize (DecodedBarcode.rawValue decoded))).
    destruct (cache_aside w (normalize (DecodedBarcode.rawValue decoded)))
      as [p|].
    + rewrite run_mbind, (run_call (CacheSet scanKey (VProduct p) (Some 1800))),
        exec_calm by exact H2.
      cbn [perform fst snd is_fulfilled]. rewrite run_ret. cbn beta iota.
      rewrite run_then_ret by apply logScan_never_throws.
      apply Hpack; try reflexivity.
      intros p' [= <-]. rewrite (run_leaves_key scanKey _ (Hlog _)).
      apply (cache_get_set w2 scanKey (VProduct p) 1800). lia.
    + rewrite run_ret. cbn beta iota.
      rewrite run_then_ret by apply logScan_never_throws.
      apply Hpack; try reflexivity. intros p' [=].
Qed.

End ScanResolution.

(** A first scan of abc-1 in the shop. *)
Lemma decodeScan_resolution_witness :
  faults Shop.opened = [] /\
  exists response w',
    run (decodeScan (ScanDecodeRequest.mk "abc-1" None None)) Shop.opened
    = (Fulfilled response, w') /\
    ScanDecodeResponse.barcode response = decode "abc-1".
Proof.
  split; [reflexivity|].
  destruct (decodeScan_resolution (ScanDecodeRequest.mk "abc-1" None None)
              Shop.opened eq_refl)
    as (response & w' & Hrun & Hdecoded & _).
  exists response, w'. split; [exact Hrun|exact Hdecoded].
Defined.

(** C5, as the spec words it, fails: in the shop where abc-1 was scanned
    and the product renamed afterwards, decodeScan of abc-1 answers from
    the cache entry scan:product:abc-1 with the product as it was before
    the rename.  The only cache key it reads is that raw-keyed one; it
    neither reads product:barcode:ABC1 nor asks the durable store, and
    its answer differs from what the cache-aside lookup under the
    normalized barcode resolves in that world. *)
Lemma decodeScan_answers_from_scan_key :
  faults Shop.renamed = [] /\
  exists response w',
    run (decodeScan (ScanDecodeRequest.mk "abc-1" None None)) Shop.renamed
    = (Fulfilled response, w') /\
    ScanDecodeResponse.cached response = true /\
    Product.name <$> ScanDecodeResponse.product response = Some "Widget" /\
    Product.name <$> cache_aside Shop.renamed (normalize "abc-1")
    = Some "Gadget" /\
    ScanDecodeResponse.product response
    <> cache_aside Shop.renamed (normalize "abc-1") /\
    issued Shop.renamed w'
    = [(CacheGet "scan:product:abc-1", true);
       (CacheIncrement "metrics:total-scans" 1, true);
       (CacheIncrement "metrics:scans:lookup" 1, true)].
Proof.
  split; [reflexivity|].
  eexists _, _. split; [vm_compute; reflexivity|].
  repeat split; try (vm_compute; reflexivity).
  vm_compute. discriminate.
Qed.

(** ** Creating products *)

Lemma exec_create_fulfilled (p saved : Product.t) (w w' : World) :
  exec (RepoCreate p) w = (Fulfilled saved, w') ->
  violates_unique w p = false /\
  Product.barcode saved = Product.barcode p /\
  products w' = products w ++ [saved].
Proof.
  unfold exec. destruct (faults w) as [|[] rest]; simpl; unfold repo_create.
  - destruct (violates_unique w p); simpl; intros [= <- <-]; auto.
  - discriminate.
  - change (violates_unique (with_faults w rest) p) with (violates_unique w p).
    destruct (violates_unique w p); simpl; intros [= <- <-]; auto.
Qed.

Lemma violates_unique_barcode (w : World) (p q : Product.t) :
  Product.barcode p = Product.barcode q ->
  In q (products w) -> violates_unique w p = true.
Proof.
  intros Hb Hin. unfold violates_unique, repo_findByBarcode.
  destruct (List.find _ (products w)) as [r|] eqn:E; [reflexivity|].
  pose proof (List.find_none _ _ E q Hin) as Hq. simpl in Hq.
  rewrite Hb, String.eqb_refl in Hq. discriminate.
Qed.

Section Creation.

Context {barcodeService : BarcodeDecoderService}.

(** The SKU check of [createProduct]. *)
Lemma sku_check_reads (sku : option string) :
  issues_only no_store_write
    (match truthy_string sku with
     | Some sku =>
         existingBySku ← call (FindBySku sku);
         match existingBySku with
         | Some _ =>
             mthrow (mkError PlainError
                       ("Product with SKU " +:+ sku +:+ " already exists"))
         | None => mret tt
         end
     | None => mret tt
     end).
Proof. issues. Qed.

(** A fulfilled [createProduct] has appended one row, whose barcode is
    the normalized input, to a store that had no row with that barcode. *)
Lemma createProduct_fulfilled dto userId w saved w' :
  run (createProduct dto userId) w = (Fulfilled saved, w') ->
  Product.barcode saved = normalize (CreateProductDto.barcode dto) /\
  repo_findByBarcode w (normalize (CreateProductDto.barcode dto)) = None /\
  products w' = products w ++ [saved].
Proof.
  unfold createProduct.
  rewrite run_mbind, (run_call (FindByBarcode (CreateProductDto.barcode dto))).
  pose proof (exec_products (FindByBarcode (CreateProductDto.barcode dto)) w
                eq_refl) as Hp0.
  destruct (exec (FindByBarcode (CreateProductDto.barcode dto)) w)
    as [[[existing|]|e] w0]; try discriminate. simpl in Hp0.
  rewrite run_mbind.
  match goal with
  | |- context [run ?check w0] =>
      pose proof (run_products check (sku_check_reads _) w0) as Hp1;
      destruct (run check w0) as [[[]|e] w1]; try discriminate
  end.
  simpl in Hp1. cbv zeta.
  rewrite run_mbind.
  match goal with
  | |- context [run (call (RepoCreate ?p)) w1] =>
      rewrite (run_call (RepoCreate p));
      destruct (exec (RepoCreate p) w1) as [[row|e] w2] eqn:Hcreate;
        try discriminate;
      apply exec_create_fulfilled in Hcreate;
      destruct Hcreate as (Hunique & Hbarcode & Hp2)
  end.
  rewrite run_mbind, (run_call (CacheDeleteByPattern "products:*")).
  pose proof (exec_products (CacheDeleteByPattern "products:*") w2 eq_refl)
    as Hp3.
  destruct (exec (CacheDeleteByPattern "products:*") w2) as [[[]|e] w3];
    try discriminate. simpl in Hp3.
  rewrite run_mbind, (run_call (CacheDeleteByPattern "search:*")).
  pose proof (exec_products (CacheDeleteByPattern "search:*") w3 eq_refl)
    as Hp4.
  destruct (exec (CacheDeleteByPattern "search:*") w3) as [[[]|e] w4];
    try discriminate. simpl in Hp4.
  rewrite run_ret. intros [= <- <-].
  split; [exact Hbarcode|]. split.
  - unfold violates_unique in Hunique. simpl in Hunique.
    unfold repo_findByBarcode in *. rewrite Hp1, Hp0 in Hunique.
    destruct (List.find _ (products w)); [discriminate|reflexivity].
  - rewrite Hp4, Hp3, Hp2, Hp1, Hp0. reflexivity.
Qed.

End Creation.

(** C9, as the code has it: createProduct looks for a duplicate under
    the raw barcode and stores the normalized one.  When a first create
    has succeeded and a second one carries a raw barcode that normalizes
    to the same value but is itself not a stored barcode, the duplicate
    checks of the second call pass as well; its insert then breaks the
    unique barcode column, the store rejects it, and the call fails with
    the store's creation error, not with the duplicate-barcode error.
    The store keeps its rows: no second product with that barcode. *)
Theorem createProduct_duplicate_reaches_store
    {barcodeService : BarcodeDecoderService}
    (dto1 dto2 : CreateProductDto.t) (userId1 userId2 : string)
    (w w1 : World) (p1 : Product.t) :
  run (createProduct dto1 userId1) w = (Fulfilled p1, w1) ->
  normalize (CreateProductDto.barcode dto2)
  = normalize (CreateProductDto.barcode dto1) ->
  faults w1 = [] ->
  repo_findByBarcode w1 (CreateProductDto.barcode dto2) = None ->
  (forall sku, truthy_string (CreateProductDto.sku dto2) = Some sku ->
               repo_findBySku w1 sku = None) ->
  In p1 (products w1) /\
  Product.barcode p1 = normalize (CreateProductDto.barcode dto2) /\
  exists error w2,
    run (createProduct dto2 userId2) w1 = (Rejected error, w2) /\
    kind error = UniqueViolation /\
    products w2 = products w1.
Proof.
  intros Hfirst Hsame H1 Hraw Hsku.
  destruct (createProduct_fulfilled _ _ _ _ _ Hfirst) as (Hb1 & _ & Hrows).
  assert (In p1 (products w1)) as Hin
    by (rewrite Hrows; apply in_or_app; right; left; reflexivity).
  split; [exact Hin|]. split; [congruence|].
  unfold createProduct.
  rewrite run_mbind, (run_call (FindByBarcode (CreateProductDto.barcode dto2))),
    exec_calm by exact H1.
  cbn [perform fst snd is_fulfilled]. rewrite Hraw.
  set (w2 := with_journal w1 _).
  assert (faults w2 = []) as H2 by exact H1.
  rewrite run_mbind.
  assert (exists w3,
    run (match truthy_string (CreateProductDto.sku dto2) with
         | Some sku =>
             existingBySku ← call (FindBySku sku);
             match existingBySku with
             | Some _ =>
                 mthrow (mkError PlainError
                           ("Product with SKU " +:+ sku +:+ " already exists"))
             | None => mret tt
             end
         | None => mret tt
         end) w2 = (Fulfilled tt, w3) /\
    faults w3 = [] /\ products w3 = products w1) as (w3 & -> & H3 & Hp3).
  { destruct (truthy_string (CreateProductDto.sku dto2)) as [sku|] eqn:E.
    - rewrite run_mbind, (run_call (FindBySku sku)), exec_calm by exact H2.
      cbn [perform fst snd is_fulfilled].
      change (repo_findBySku w2 sku) with (repo_findBySku w1 sku).
      rewrite (Hsku sku eq_refl). eexists. split; [reflexivity|].
      split; [exact H1|reflexivity].
    - eexists. split; [reflexivity|]. split; [exact H1|reflexivity]. }
  cbv zeta. rewrite run_mbind.
  match goal with
  | |- context [run (call (RepoCreate ?p)) w3] =>
      rewrite (run_call (RepoCreate p)), exec_calm by exact H3;
      cbn [perform fst snd is_fulfilled]; unfold repo_create;
      assert (violates_unique w3 p = true) as ->
  end.
  { apply (violates_unique_barcode w3 _ p1).
    - simpl. congruence.
    - rewrite Hp3. exact Hin. }
  cbn [fst snd is_fulfilled]. eexists _, _. split; [reflexivity|].
  split; [reflexivity|exact Hp3].
Qed.

(** In the empty shop: create with barcode abc-1, then with abc1. *)
Lemma createProduct_duplicate_reaches_store_witness :
  exists p1 w1,
    run (createProduct (Shop.dto "abc-1") "user-1") Shop.empty
    = (Fulfilled p1, w1) /\
    normalize "abc1" = normalize "abc-1" /\
    faults w1 = [] /\
    repo_findByBarcode w1 "abc1" = None /\
    Product.barcode p1 = "ABC1" /\
    exists error w2,
      run (createProduct (Shop.dto "abc1") "user-2") w1 = (Rejected error, w2) /\
      kind error = UniqueViolation /\
      products w2 = products w1.
Proof.
  destruct (run (createProduct (Shop.dto "abc-1") "user-1") Shop.empty)
    as [[p1|e] w1] eqn:Hfirst; [|vm_compute in Hfirst; discriminate Hfirst].
  exists p1, w1. split; [reflexivity|].
  assert (normalize "abc1" = normalize "abc-1") as Hsame by reflexivity.
  assert (faults w1 = []) as H1
    by (vm_compute in Hfirst; injection Hfirst as _ <-; reflexivity).
  assert (repo_findByBarcode w1 "abc1" = None) as Hraw
    by (vm_compute in Hfirst; injection Hfirst as _ <-; reflexivity).
  assert (forall sku, truthy_string (CreateProductDto.sku (Shop.dto "abc1"))
                      = Some sku -> repo_findBySku w1 sku = None) as Hsku
    by (intros sku [=]).
  destruct (createProduct_duplicate_reaches_store
              (Shop.dto "abc-1") (Shop.dto "abc1") "user-1" "user-2"
              Shop.empty w1 p1 Hfirst Hsame H1 Hraw Hsku)
    as (_ & Hb & Hsecond).
  repeat split; try assumption.
Defined.

(** C9, as the spec words it, fails: no two create calls, the second
    running in the world the first one left, with raw barcodes that
    differ and normalize to the same value, both succeed and so store
    two products with equal barcodes. *)
Lemma createProduct_second_insert_rejected :
  ~ exists (barcodeService : BarcodeDecoderService)
           (dto1 dto2 : CreateProductDto.t) (userId1 userId2 : string)
           (w w1 w2 : World) (p1 p2 : Product.t),
      CreateProductDto.barcode dto1 <> CreateProductDto.barcode dto2 /\
      normalize (CreateProductDto.barcode dto1)
      = normalize (CreateProductDto.barcode dto2) /\
      run (createProduct dto1 userId1) w = (Fulfilled p1, w1) /\
      run (createProduct dto2 userId2) w1 = (Fulfilled p2, w2) /\
      Product.barcode p1 = Product.barcode p2.
Proof.
  intros (barcodeService & dto1 & dto2 & userId1 & userId2 & w & w1 & w2
          & p1 & p2 & _ & Hsame & Hfirst & Hsecond & _).
  destruct (createProduct_fulfilled _ _ _ _ _ Hfirst) as (Hb1 & _ & Hrows).
  destruct (createProduct_fulfilled _ _ _ _ _ Hsecond) as (_ & Hfree & _).
  unfold repo_findByBarcode in Hfree.
  assert (In p1 (products w1)) as Hin
    by (rewrite Hrows; apply in_or_app; right; left; reflexivity).
  pose proof (List.find_none _ _ Hfree p1 Hin) as Hp. simpl in Hp.
  rewrite Hb1, Hsame, String.eqb_refl in Hp. discriminate.
Qed.

(** * Single flight *)

Module SingleFlightFacts.
Import SingleFlight.

Lemma received_app c i n d extra key :
  received (mkState c i n (d ++ extra)) key
  = omap (for_key key) d ++ omap (for_key key) extra.
Proof. unfold received. simpl. apply omap_app. Qed.

Lemma deliveries_same_key key result (waiters : list nat) :
  omap (for_key key) (List.map (fun c => (c, key, result)) waiters)
  = List.map (fun c => (c, result)) waiters.
Proof.
  induction waiters as [|c waiters IH]; [reflexivity|].
  cbn [List.map omap list_omap]. unfold for_key at 1. cbn [fst snd].
  rewrite String.eqb_refl, IH. reflexivity.
Qed.

Lemma deliveries_other_key key other result (waiters : list nat) :
  other <> key ->
  omap (for_key key) (List.map (fun c => (c, other, result)) waiters) = [].
Proof.
  intros Hne. induction waiters as [|c waiters IH]; [reflexivity|].
  cbn [List.map omap list_omap]. unfold for_key at 1. cbn [fst snd].
  destruct (String.eqb_spec other key); [contradiction|]. exact IH.
Qed.

Lemma same_at_refl key s : same_at key s s.
Proof. split; reflexivity. Qed.

Lemma same_at_trans key s1 s2 s3 :
  same_at key s1 s2 -> same_at key s2 s3 -> same_at key s1 s3.
Proof. intros [] []. split; congruence. Qed.

(** An event on another key changes nothing for this one. *)
Lemma handle_other_key key s e :
  event_key e <> key -> same_at key s (handle s e).
Proof.
  intros Hne. destruct e as [caller other|other result]; simpl in *.
  - destruct (cache s !! other) as [v|].
    + split; try reflexivity. rewrite received_app.
      cbn [omap list_omap]. unfold for_key at 2. cbn [fst snd].
      destruct (String.eqb_spec other key); [contradiction|].
      apply app_nil_r.
    + destruct (inflight s !! other) as [waiters|].
      * split; try reflexivity. simpl. apply lookup_insert_ne, Hne.
      * split; try reflexivity; simpl.
        -- apply lookup_insert_ne, Hne.
        -- unfold invoked. simpl. rewrite lookup_insert_ne by exact Hne.
           reflexivity.
  - destruct (inflight s !! other) as [waiters|]; [|apply same_at_refl].
    split; simpl.
    + destruct result; [apply lookup_insert_ne, Hne|reflexivity].
    + apply lookup_delete_ne, Hne.
    + reflexivity.
    + rewrite received_app, deliveries_other_key by exact Hne.
      apply app_nil_r.
Qed.

Lemma handle_all_other_keys key events s :
  on_key key events = [] -> same_at key s (handle_all s events).
Proof.
  revert s. induction events as [|e events IH]; intros s H; simpl.
  - apply same_at_refl.
  - unfold on_key in H. simpl in H.
    destruct (String.eqb_spec (event_key e) key) as [|Hne]; [discriminate|].
    eapply same_at_trans; [apply handle_other_key, Hne|apply IH, H].
Qed.

(** While a computation is in flight, later callers queue behind it and
    its result reaches all of them; computeFn is not invoked again. *)
Lemma in_flight key result events : forall s waiters callers,
  cache s !! key = None ->
  inflight s !! key = Some waiters ->
  on_key key events = List.map (fun c => Call c key) callers ++ [Settle key result] ->
  let s' := handle_all s events in
  invoked s' key = invoked s key /\
  received s' key
  = received s key ++ List.map (fun c => (c, result)) (waiters ++ callers) /\
  inflight s' !! key = None /\
  cache s' !! key = match result with
                    | Fulfilled v => Some v
                    | Rejected _ => None
                    end.
Proof.
  induction events as [|e events IH]; intros s waiters callers Hmiss Hflight Hkey.
  - destruct callers; discriminate.
  - unfold on_key in Hkey. simpl in Hkey. simpl.
    destruct (String.eqb_spec (event_key e) key) as [He|Hne].
    + destruct callers as [|c callers]; simpl in Hkey.
      * injection Hkey as -> Hrest.
        destruct (handle_all_other_keys key events
                    (handle s (Settle key result)) Hrest) as [Hc Hf Hi Hr].
        rewrite Hc, Hf, Hi, Hr. simpl. rewrite Hflight. simpl.
        rewrite app_nil_r. repeat split.
        -- rewrite received_app, deliveries_same_key. reflexivity.
        -- apply lookup_delete_eq.
        -- destruct result; [apply lookup_insert_eq|exact Hmiss].
      * injection Hkey as -> Hrest.
        specialize (IH (handle s (Call c key)) (waiters ++ [c]) callers).
        simpl in IH. rewrite Hmiss, Hflight in IH. simpl in IH.
        rewrite lookup_insert_eq in IH.
        specialize (IH Hmiss eq_refl Hrest).
        simpl. rewrite Hmiss, Hflight.
        rewrite <- app_assoc in IH. exact IH.
    + destruct (handle_other_key key s e Hne) as [Hc Hf Hi Hr].
      specialize (IH (handle s e) waiters callers).
      rewrite Hc, Hf in IH. specialize (IH Hmiss Hflight Hkey).
      simpl in IH. rewrite Hi, Hr in IH. exact IH.
Qed.

End SingleFlightFacts.

(** C2: for every key, when N callers of getOrSet all miss, that is, the
    key has no entry and no computation in flight and all N calls come
    before the computation settles, whatever happens on other keys in
    between: computeFn is invoked exactly once, and every one of the N
    callers receives the result of that one computation, the same value
    or the same failure; a failure leaves no entry behind. *)
Theorem getOrSet_single_flight (key : string) (callers : list nat)
    (result : Outcome CacheValue) (events : list SingleFlight.Event)
    (s : SingleFlight.State) :
  SingleFlight.cache s !! key = None ->
  SingleFlight.inflight s !! key = None ->
  callers <> [] ->
  SingleFlight.on_key key events
  = List.map (fun c => SingleFlight.Call c key) callers
    ++ [SingleFlight.Settle key result] ->
  let s' := SingleFlight.handle_all s events in
  SingleFlight.invoked s' key = S (SingleFlight.invoked s key) /\
  SingleFlight.received s' key
  = SingleFlight.received s key ++ List.map (fun c => (c, result)) callers /\
  SingleFlight.inflight s' !! key = None /\
  SingleFlight.cache s' !! key = match result with
                                 | Fulfilled v => Some v
                                 | Rejected _ => None
                                 end.
Proof.
  revert s. induction events as [|e events IH]; intros s Hmiss Hidle Hsome Hkey.
  - destruct callers; discriminate.
  - unfold SingleFlight.on_key in Hkey. simpl in Hkey. simpl.
    destruct (String.eqb_spec (SingleFlight.event_key e) key) as [He|Hne].
    + destruct callers as [|c callers]; [contradiction|].
      simpl in Hkey. injection Hkey as -> Hrest.
      pose proof (SingleFlightFacts.in_flight key result events
                    (SingleFlight.handle s (SingleFlight.Call c key))
                    [c] callers) as Hflight.
      simpl in Hflight. rewrite Hmiss, Hidle in Hflight. simpl in Hflight.
      rewrite lookup_insert_eq in Hflight.
      specialize (Hflight Hmiss eq_refl Hrest).
      simpl. rewrite Hmiss, Hidle.
      destruct Hflight as (Hi & Hr & Hf & Hc).
      repeat split; try assumption.
      rewrite Hi. unfold SingleFlight.invoked at 1. simpl.
      rewrite lookup_insert_eq. reflexivity.
    + destruct (SingleFlightFacts.handle_other_key key s e Hne)
        as [Hc Hf Hi Hr].
      specialize (IH (SingleFlight.handle s e)).
      rewrite Hc, Hf in IH. specialize (IH Hmiss Hidle Hsome Hkey).
      simpl in IH. rewrite Hi, Hr in IH. exact IH.
Qed.

(** Three callers of one key, with a call and a failed computation on
    another key in between. *)
Lemma getOrSet_single_flight_witness :
  let key := "product:barcode:ABC1" in
  let result := Fulfilled (VProduct Shop.widget) in
  let events :=
    [SingleFlight.Call 1 key; SingleFlight.Call 7 "product:id-9";
     SingleFlight.Call 2 key; SingleFlight.Call 3 key;
     SingleFlight.Settle "product:id-9"
       (Rejected (mkError StoreUnavailable "StoreUnavailable"));
     SingleFlight.Settle key result] in
  let s' := SingleFlight.handle_all SingleFlight.initial events in
  SingleFlight.cache SingleFlight.initial !! key = None /\
  SingleFlight.inflight SingleFlight.initial !! key = None /\
  [1; 2; 3]%nat <> [] /\
  SingleFlight.on_key key events
  = List.map (fun c => SingleFlight.Call c key) [1; 2; 3]%nat
    ++ [SingleFlight.Settle key result] /\
  SingleFlight.invoked s' key = 1%nat /\
  SingleFlight.received s' key = [(1, result); (2, result); (3, result)]%nat.
Proof.
  intros key result events s'.
  assert ([1; 2; 3]%nat <> []) as Hsome by discriminate.
  destruct (getOrSet_single_flight key [1; 2; 3]%nat result events
              SingleFlight.initial eq_refl eq_refl Hsome eq_refl)
    as (Hinvoked & Hreceived & _).
  repeat split; try assumption.
Defined.

(** * Further properties of the services *)

(** ** One call at a time, without outages *)

Lemma exec_faults (op : Op) (w : World) :
  faults w = [] -> faults (exec op w).2 = [].
Proof.
  intros H. rewrite exec_calm by exact H. simpl.
  destruct op; simpl; try exact H.
  unfold repo_create. destruct (violates_unique w product); exact H.
Qed.

Lemma run_faults {A} (m : Prog A) (w : World) :
  faults w = [] -> faults (run m w).2 = [].
Proof.
  revert w. induction m as [a|e|op k IH]; intros w H; simpl; try exact H.
  pose proof (exec_faults op w H) as H1.
  destruct (exec op w) as [o w1]. apply IH, H1.
Qed.

(** Only an insert that breaks a unique column is rejected by a
    collaborator that is reachable. *)
Lemma perform_rejected (op : Op) (w w' : World) (e : Error) :
  perform op w = (Rejected e, w') ->
  is_cache_op op = false /\ kind e = UniqueViolation /\
  products w' = products w.
Proof.
  destruct op; simpl; try (intros [=]; fail).
  unfold repo_create. destruct (violates_unique w product).
  - intros [= <- <-]. repeat split.
  - intros [=].
Qed.

Lemma exec_rejected (op : Op) (w w' : World) (e : Error) :
  exec op w = (Rejected e, w') ->
  products w' = products w /\
  (faults w = [] -> kind e = UniqueViolation) /\
  (is_cache_op op = true -> kind e = CacheUnavailable /\ faults w <> []) /\
  (is_cache_op op = false -> kind e <> CacheUnavailable).
Proof.
  unfold exec. destruct (faults w) as [|[] rest] eqn:Hf.
  - destruct (perform op w) as [[a|e0] w0] eqn:Hp; intros [= <- <-].
    destruct (perform_rejected _ _ _ _ Hp) as (Hop & Hk & Hrows).
    split; [exact Hrows|]. split; [intros _; exact Hk|].
    split; [intros Hc; congruence|]. intros _. rewrite Hk. discriminate.
  - intros [= <- <-]. split; [reflexivity|]. split; [discriminate|].
    unfold unavailable. split; intros Hop.
    + destruct op; try discriminate Hop; split; (reflexivity || discriminate).
    + destruct op; try discriminate Hop; simpl; discriminate.
  - destruct (perform op (with_faults w rest)) as [[a|e0] w0] eqn:Hp;
      intros [= <- <-].
    destruct (perform_rejected _ _ _ _ Hp) as (Hop & Hk & Hrows).
    split; [exact Hrows|]. split; [discriminate|].
    split; [intros Hc; congruence|]. intros _. rewrite Hk. discriminate.
Qed.

Lemma run_throw {A} (e : Error) (w : World) :
  run (mthrow e : Prog A) w = (Rejected e, w).
Proof. reflexivity. Qed.

(** *** What the cache holds after a call *)

Lemma cache_get_delete (w : World) (key other : string) :
  cache_get (cache_delete w key) other
  = if decide (key = other) then None else cache_get w other.
Proof.
  unfold cache_get, cache_delete. simpl. rewrite lookup_delete.
  destruct (decide (key = other)); reflexivity.
Qed.

Lemma cache_get_deleteByPattern (w : World) (pattern key : string) :
  cache_get (cache_deleteByPattern w pattern) key
  = if glob pattern key then None else cache_get w key.
Proof.
  unfold cache_get, cache_deleteByPattern. simpl.
  destruct (glob pattern key) eqn:Hg.
  - rewrite map_lookup_filter_None_2; [reflexivity|].
    right. intros e _. simpl. rewrite Hg. discriminate.
  - destruct (entries w !! key) as [e|] eqn:E.
    + erewrite map_lookup_filter_Some_2; [reflexivity|exact E|exact Hg].
    + rewrite map_lookup_filter_None_2; [reflexivity|]. left. exact E.
Qed.

Lemma find_app_miss {A} (f : A -> bool) (l : list A) (x : A) :
  List.find f l = None -> f x = true -> List.find f (l ++ [x]) = Some x.
Proof.
  induction l as [|y l IH]; simpl; intros Hl Hx.
  - rewrite Hx. reflexivity.
  - destruct (f y); [discriminate|]. apply IH; assumption.
Qed.

Lemma product_key_kept (rest : string) :
  glob "products:*" ("product:" +:+ rest) = false /\
  glob "search:*" ("product:" +:+ rest) = false.
Proof. split; reflexivity. Qed.

Lemma perform_increment (key : string) (delta : Z) (w : World) :
  perform (CacheIncrement key delta) w
  = (Fulfilled (cache_increment w key delta).1, (cache_increment w key delta).2).
Proof. reflexivity. Qed.

Lemma perform_update (id : string) (data : UpdateProductDto.t) (w : World) :
  perform (RepoUpdate id data) w
  = (Fulfilled (repo_findWithRelations
                  (with_products w (updated_rows w id data) (nextId w)) id),
     with_products w (updated_rows w id data) (nextId w)).
Proof. reflexivity. Qed.

(** One awaited call in a world without outages. *)
Ltac calm_call H :=
  match goal with
  | |- context [run (call ?op) ?w] =>
      rewrite (run_call op), (exec_calm op w) by exact H;
      rewrite ?perform_increment, ?perform_update;
      cbn [perform fst snd is_fulfilled]
  end.

(** ** createProduct *)

Section CreateProduct.

Context {barcodeService : BarcodeDecoderService}.

(** Everything a createProduct without outages and without duplicates
    does. *)
Lemma createProduct_calm (dto : CreateProductDto.t) (userId : string)
    (w : World) :
  faults w = [] ->
  repo_findByBarcode w (CreateProductDto.barcode dto) = None ->
  repo_findByBarcode w (normalize (CreateProductDto.barcode dto)) = None ->
  (forall sku, truthy_string (CreateProductDto.sku dto) = Some sku ->
               repo_findBySku w sku = None) ->
  let saved :=
    Product.mk (fresh_id w) (normalize (CreateProductDto.barcode dto))
      (CreateProductDto.barcodeType dto) (CreateProductDto.name dto)
      (truthy_string (CreateProductDto.description dto))
      (truthy_string (CreateProductDto.sku dto))
      (truthy_string (CreateProductDto.manufacturer dto))
      (default 0 (CreateProductDto.priceUsd dto))
      (default 0 (CreateProductDto.costUsd dto))
      (truthy_string (CreateProductDto.imageUrl dto))
      userId true None in
  exists w',
    run (createProduct dto userId) w = (Fulfilled saved, w') /\
    faults w' = [] /\
    products w' = products w ++ [saved] /\
    forall key,
      cache_get w' key
      = if glob "products:*" key || glob "search:*" key
        then None else cache_get w key.
Proof.
  intros H Hraw Hnorm Hsku saved. unfold createProduct.
  rewrite run_mbind. calm_call H. rewrite Hraw.
  set (w1 := with_journal w _).
  rewrite run_mbind.
  assert (exists w2,
    run (match truthy_string (CreateProductDto.sku dto) with
         | Some sku =>
             existingBySku ← call (FindBySku sku);
             match existingBySku with
             | Some _ =>
                 mthrow (mkError PlainError
                           ("Product with SKU " +:+ sku +:+ " already exists"))
             | None => mret tt
             end
         | None => mret tt
         end) w1 = (Fulfilled tt, w2) /\
    faults w2 = [] /\ products w2 = products w /\ nextId w2 = nextId w /\
    forall key, cache_get w2 key = cache_get w key)
    as (w2 & -> & H2 & Hrows2 & Hid2 & Hcache2).
  { destruct (truthy_string (CreateProductDto.sku dto)) as [sku|] eqn:E.
    - rewrite run_mbind. calm_call H.
      change (repo_findBySku w1 sku) with (repo_findBySku w sku).
      rewrite (Hsku sku eq_refl). eexists. split; [reflexivity|].
      repeat split. exact H.
    - eexists. split; [reflexivity|]. repeat split. exact H. }
  cbv zeta. rewrite run_mbind. calm_call H2. unfold repo_create.
  match goal with
  | |- context [violates_unique w2 ?p] =>
      assert (violates_unique w2 p = false) as ->
  end.
  { unfold violates_unique, repo_findByBarcode, repo_findBySku.
    rewrite Hrows2. simpl.
    unfold repo_findByBarcode in Hnorm. rewrite Hnorm.
    destruct (truthy_string (CreateProductDto.sku dto)) as [sku|] eqn:E;
      [|reflexivity].
    specialize (Hsku sku eq_refl). unfold repo_findBySku in Hsku.
    rewrite Hsku. reflexivity. }
  cbn [fst snd is_fulfilled].
  assert (Product.with_id
            (Product.mk EmptyString (normalize (CreateProductDto.barcode dto))
               (CreateProductDto.barcodeType dto) (CreateProductDto.name dto)
               (truthy_string (CreateProductDto.description dto))
               (truthy_string (CreateProductDto.sku dto))
               (truthy_string (CreateProductDto.manufacturer dto))
               (default 0 (CreateProductDto.priceUsd dto))
               (default 0 (CreateProductDto.costUsd dto))
               (truthy_string (CreateProductDto.imageUrl dto))
               userId true None) (fresh_id w2) = saved) as ->.
  { unfold Product.with_id, fresh_id. simpl. rewrite Hid2. reflexivity. }
  rewrite run_mbind. calm_call H2.
  rewrite run_mbind. calm_call H2. rewrite run_ret.
  eexists. split; [reflexivity|]. split; [exact H2|]. split.
  - simpl. rewrite Hrows2. reflexivity.
  - intros key.
    match goal with
    | |- cache_get (with_journal (cache_deleteByPattern ?wa ?pa) _) _ = _ =>
        change (cache_get (cache_deleteByPattern wa pa) key
                = if glob "products:*" key || glob "search:*" key
                  then None else cache_get w key)
    end.
    rewrite cache_get_deleteByPattern.
    match goal with
    | |- context [cache_get (with_journal (cache_deleteByPattern ?wb ?pb) ?j) key] =>
        change (cache_get (with_journal (cache_deleteByPattern wb pb) j) key)
          with (cache_get (cache_deleteByPattern wb pb) key)
    end.
    rewrite cache_get_deleteByPattern.
    match goal with
    | |- context [cache_get ?wc key] =>
        change (cache_get wc key) with (cache_get w2 key)
    end.
    rewrite Hcache2.
    destruct (glob "products:*" key), (glob "search:*" key); reflexivity.
Qed.

(** X1: without outages, createProduct of a product whose raw and
    normalized barcode and whose SKU are not stored yet succeeds.  The
    saved row carries the normalized barcode, the generated id, an empty
    string field as null, absent prices as 0, the active flag and no
    inventory; it is appended to the rows; and exactly the cache keys
    matching products:* or search:* are gone. *)
Theorem createProduct_success (dto : CreateProductDto.t) (userId : string)
    (w : World) :
  faults w = [] ->
  repo_findByBarcode w (CreateProductDto.barcode dto) = None ->
  repo_findByBarcode w (normalize (CreateProductDto.barcode dto)) = None ->
  (forall sku, truthy_string (CreateProductDto.sku dto) = Some sku ->
               repo_findBySku w sku = None) ->
  let saved :=
    Product.mk (fresh_id w) (normalize (CreateProductDto.barcode dto))
      (CreateProductDto.barcodeType dto) (CreateProductDto.name dto)
      (truthy_string (CreateProductDto.description dto))
      (truthy_string (CreateProductDto.sku dto))
      (truthy_string (CreateProductDto.manufacturer dto))
      (default 0 (CreateProductDto.priceUsd dto))
      (default 0 (CreateProductDto.costUsd dto))
      (truthy_string (CreateProductDto.imageUrl dto))
      userId true None in
  exists w',
    run (createProduct dto userId) w = (Fulfilled saved, w') /\
    products w' = products w ++ [saved] /\
    forall key,
      cache_get w' key
      = if glob "products:*" key || glob "search:*" key
        then None else cache_get w key.
Proof.
  intros H Hraw Hnorm Hsku saved.
  destruct (createProduct_calm dto userId w H Hraw Hnorm Hsku)
    as (w' & Hrun & _ & Hrows & Hcache).
  exists w'. split; [exact Hrun|]. split; [exact Hrows|exact Hcache].
Qed.

End CreateProduct.

(** Shop.empty and the product with raw barcode abc-1. *)
Lemma createProduct_success_witness :
  faults Shop.empty = [] /\
  repo_findByBarcode Shop.empty "abc-1" = None /\
  exists saved w',
    run (createProduct (Shop.dto "abc-1") "user-1") Shop.empty
    = (Fulfilled saved, w') /\
    Product.barcode saved = "ABC1" /\
    products w' = [saved].
Proof.
  split; [reflexivity|]. split; [reflexivity|].
  assert (forall sku,
             truthy_string (CreateProductDto.sku (Shop.dto "abc-1")) = Some sku ->
             repo_findBySku Shop.empty sku = None) as Hsku by (intros sku [=]).
  destruct (createProduct_success (Shop.dto "abc-1") "user-1" Shop.empty
              eq_refl eq_refl eq_refl Hsku) as (w' & Hrun & Hrows & _).
  eexists _, w'. split; [exact Hrun|]. split; [reflexivity|exact Hrows].
Defined.

Section CreateProductFailures.

Context {barcodeService : BarcodeDecoderService}.

(** X2: createProduct refuses a barcode or a SKU that is stored already
    before it writes anything: without outages, when the store has a
    product with the raw barcode the call throws the duplicate-barcode
    error naming that product's id after the one lookup, and when the
    barcode is free but the SKU is taken it throws the duplicate-SKU
    error after the two lookups; nothing but the journal has changed. *)
Theorem createProduct_rejects_duplicates (dto : CreateProductDto.t)
    (userId : string) (w : World) :
  faults w = [] ->
  (forall existing,
      repo_findByBarcode w (CreateProductDto.barcode dto) = Some existing ->
      run (createProduct dto userId) w
      = (Rejected (mkError PlainError
                     ("Product with barcode " +:+ CreateProductDto.barcode dto +:+
                      " already exists (ID: " +:+ Product.id existing +:+ ")")),
         with_journal w
           (journal w ++ [(FindByBarcode (CreateProductDto.barcode dto), true)]))) /\
  (forall sku existing,
      repo_findByBarcode w (CreateProductDto.barcode dto) = None ->
      truthy_string (CreateProductDto.sku dto) = Some sku ->
      repo_findBySku w sku = Some existing ->
      run (createProduct dto userId) w
      = (Rejected (mkError PlainError
                     ("Product with SKU " +:+ sku +:+ " already exists")),
         with_journal w
           (journal w ++ [(FindByBarcode (CreateProductDto.barcode dto), true);
                          (FindBySku sku, true)]))).
Proof.
  intros H. split.
  - intros existing Hdup. unfold createProduct.
    rewrite run_mbind. calm_call H. rewrite Hdup. reflexivity.
  - intros sku existing Hfree Hsku Hdup. unfold createProduct.
    rewrite run_mbind. calm_call H. rewrite Hfree.
    rewrite run_mbind, Hsku, run_mbind. calm_call H.
    change (repo_findBySku _ sku) with (repo_findBySku w sku). rewrite Hdup.
    simpl. rewrite <- app_assoc. reflexivity.
Qed.

(** Where a createProduct that failed has left the store. *)
Lemma createProduct_rejected (dto : CreateProductDto.t) (userId : string)
    (w w' : World) (error : Error) :
  run (createProduct dto userId) w = (Rejected error, w') ->
  (kind error <> CacheUnavailable /\ products w' = products w) \/
  (kind error = CacheUnavailable /\ faults w <> [] /\
   exists saved,
     products w' = products w ++ [saved] /\
     Product.barcode saved = normalize (CreateProductDto.barcode dto)).
Proof.
  unfold createProduct.
  rewrite run_mbind, (run_call (FindByBarcode (CreateProductDto.barcode dto))).
  pose proof (exec_products (FindByBarcode (CreateProductDto.barcode dto)) w
                eq_refl) as Hp0.
  pose proof (exec_faults (FindByBarcode (CreateProductDto.barcode dto)) w)
    as Hf0.
  destruct (exec (FindByBarcode (CreateProductDto.barcode dto)) w)
    as [[[existing|]|e] w0] eqn:E0; simpl in Hp0, Hf0.
  - rewrite run_throw. intros [= <- <-]. left. split; [discriminate|exact Hp0].
  - rewrite run_mbind.
    match goal with
    | |- context [run ?check w0] =>
        pose proof (run_products check (sku_check_reads _) w0) as Hp1;
        pose proof (run_faults check w0) as Hf1;
        assert (forall e1 w1, run check w0 = (Rejected e1, w1) ->
                              kind e1 <> CacheUnavailable) as Hk1;
        [|destruct (run check w0) as [[[]|e1] w1] eqn:E1]
    end.
    { destruct (truthy_string (CreateProductDto.sku dto)) as [sku|];
        [|intros e1 w1 [=]].
      rewrite run_mbind, (run_call (FindBySku sku)).
      destruct (exec (FindBySku sku) w0) as [[[x|]|e2] w2] eqn:E2;
        intros e1 w1 [= <- <-]; try discriminate.
      apply (exec_rejected _ _ _ _ E2). reflexivity. }
    + simpl in Hp1, Hf1. cbv zeta. rewrite run_mbind.
      match goal with
      | |- context [run (call (RepoCreate ?p)) w1] =>
          rewrite (run_call (RepoCreate p));
          pose proof (exec_faults (RepoCreate p) w1) as Hf2;
          destruct (exec (RepoCreate p) w1) as [[row|e2] w2] eqn:E2
      end.
      * apply exec_create_fulfilled in E2.
        destruct E2 as (_ & Hbarcode & Hp2). simpl in Hf2.
        rewrite run_mbind, (run_call (CacheDeleteByPattern "products:*")).
        pose proof (exec_products (CacheDeleteByPattern "products:*") w2
                      eq_refl) as Hp3.
        pose proof (exec_faults (CacheDeleteByPattern "products:*") w2) as Hf3.
        destruct (exec (CacheDeleteByPattern "products:*") w2)
          as [[[]|e3] w3] eqn:E3; simpl in Hp3, Hf3.
        -- rewrite run_mbind, (run_call (CacheDeleteByPattern "search:*")).
           pose proof (exec_products (CacheDeleteByPattern "search:*") w3
                         eq_refl) as Hp4.
           destruct (exec (CacheDeleteByPattern "search:*") w3)
             as [[[]|e4] w4] eqn:E4; simpl in Hp4.
           ++ rewrite run_ret. discriminate.
           ++ intros [= <- <-]. right.
              destruct (exec_rejected _ _ _ _ E4) as (_ & _ & Hc & _).
              destruct (Hc eq_refl) as (Hkind & Hfault).
              split; [exact Hkind|]. split.
              ** intros Hw. apply Hfault. auto.
              ** exists row. split; [congruence|exact Hbarcode].
        -- intros [= <- <-]. right.
           destruct (exec_rejected _ _ _ _ E3) as (_ & _ & Hc & _).
           destruct (Hc eq_refl) as (Hkind & Hfault).
           split; [exact Hkind|]. split.
           ** intros Hw. apply Hfault. auto.
           ** exists row. split; [congruence|exact Hbarcode].
      * intros [= <- <-]. left.
        destruct (exec_rejected _ _ _ _ E2) as (Hrows & _ & _ & Hs).
        split; [apply Hs; reflexivity|congruence].
    + intros [= <- <-]. left. simpl in Hp1.
      split; [eapply Hk1; reflexivity|congruence].
  - intros [= <- <-]. left.
    destruct (exec_rejected _ _ _ _ E0) as (Hrows & _ & _ & Hs).
    split; [apply Hs; reflexivity|exact Hrows].
Qed.

(** X3: a createProduct that fails has either left the rows of the store
    as they were, or it failed on an unreachable cache after the insert:
    then the product is stored although the call threw. *)
Theorem createProduct_failure (dto : CreateProductDto.t) (userId : string)
    (w w' : World) (error : Error) :
  run (createProduct dto userId) w = (Rejected error, w') ->
  (kind error <> CacheUnavailable /\ products w' = products w) \/
  (kind error = CacheUnavailable /\ faults w <> [] /\
   exists saved,
     products w' = products w ++ [saved] /\
     Product.barcode saved = normalize (CreateProductDto.barcode dto)).
Proof. apply createProduct_rejected. Qed.

End CreateProductFailures.

(** The shop, and a product that comes with the stored barcode ABC1. *)
Lemma createProduct_rejects_duplicates_witness :
  faults Shop.opened = [] /\
  repo_findByBarcode Shop.opened "ABC1" = Some Shop.widget /\
  exists w',
    run (createProduct (Shop.dto "ABC1") "user-2") Shop.opened
    = (Rejected (mkError PlainError
                   "Product with barcode ABC1 already exists (ID: id-0)"), w') /\
    products w' = products Shop.opened.
Proof.
  split; [reflexivity|]. split; [reflexivity|].
  eexists. split.
  - exact (proj1 (createProduct_rejects_duplicates (Shop.dto "ABC1") "user-2"
                    Shop.opened eq_refl) Shop.widget eq_refl).
  - reflexivity.
Defined.

(** A create while the store is unreachable. *)
Lemma createProduct_failure_witness :
  exists error w',
    run (createProduct (Shop.dto "abc-1") "user-1") Scenes.store_down
    = (Rejected error, w') /\
    ((kind error <> CacheUnavailable /\ products w' = products Scenes.store_down) \/
     (kind error = CacheUnavailable /\ faults Scenes.store_down <> [] /\
      exists saved,
        products w' = products Scenes.store_down ++ [saved] /\
        Product.barcode saved = normalize "abc-1")).
Proof.
  eexists _, _. split; [reflexivity|].
  exact (createProduct_failure (Shop.dto "abc-1") "user-1" Scenes.store_down
           _ _ eq_refl).
Defined.

(** ** Scan counters *)

Lemma counter_same (w w' : World) (key : string) :
  cache_get w' key = cache_get w key -> counter w' key = counter w key.
Proof. unfold counter. intros ->. reflexivity. Qed.

Lemma counter_increment (w : World) (key : string) (delta : Z) :
  counter (cache_increment w key delta).2 key = counter w key + delta.
Proof.
  unfold counter, cache_increment, cache_get. simpl.
  rewrite lookup_insert_eq. simpl.
  destruct (entries w !! key) as [e|]; [|reflexivity].
  destruct (expired w e) eqn:Hexp; [reflexivity|].
  unfold expired in *. simpl. rewrite Hexp. reflexivity.
Qed.

Lemma cache_get_increment (w : World) (key other : string) (delta : Z) :
  key <> other ->
  cache_get (cache_increment w key delta).2 other = cache_get w other.
Proof.
  intros Hne. unfold cache_increment, cache_get. simpl.
  rewrite lookup_insert_ne by exact Hne. reflexivity.
Qed.

Lemma metrics_keys_differ (t : ScanType) :
  "metrics:total-scans" <> "metrics:scans:" +:+ scanTypeName t.
Proof. destruct t; discriminate. Qed.

Section ScanCounters.

Context {barcodeService : BarcodeDecoderService}.

(** Without outages [logScan] adds one to the total and one to the
    counter of its scan type, and touches nothing else. *)
Lemma logScan_counts data w :
  faults w = [] ->
  exists w',
    run (logScan data) w = (Fulfilled tt, w') /\
    faults w' = [] /\ products w' = products w /\
    counter w' "metrics:total-scans" = counter w "metrics:total-scans" + 1 /\
    counter w' ("metrics:scans:" +:+ scanTypeName (ScanLogData.scanType data))
    = counter w ("metrics:scans:" +:+ scanTypeName (ScanLogData.scanType data))
      + 1 /\
    forall key,
      key <> "metrics:total-scans" ->
      key <> "metrics:scans:" +:+ scanTypeName (ScanLogData.scanType data) ->
      cache_get w' key = cache_get w key.
Proof.
  intros H. unfold logScan.
  set (typeKey := "metrics:scans:" +:+ scanTypeName (ScanLogData.scanType data)).
  rewrite run_try_catch, run_mbind. calm_call H.
  set (w1 := with_journal (cache_increment w "metrics:total-scans" 1).2 _).
  assert (faults w1 = []) as H1 by exact H.
  rewrite run_mbind. calm_call H1. rewrite run_ret.
  eexists. split; [reflexivity|]. split; [exact H|]. split; [reflexivity|].
  pose proof (metrics_keys_differ (ScanLogData.scanType data)) as Hne.
  fold typeKey in Hne.
  assert (forall key, cache_get (with_journal (cache_increment w1 typeKey 1).2
                                   (journal (cache_increment w1 typeKey 1).2 ++
                                    [(CacheIncrement typeKey 1, true)])) key
                      = cache_get (cache_increment w1 typeKey 1).2 key) as Hj
    by reflexivity.
  assert (forall key, cache_get w1 key
                      = cache_get (cache_increment w "metrics:total-scans" 1).2 key)
    as Hj1 by reflexivity.
  split; [|split].
  - transitivity (counter (cache_increment w "metrics:total-scans" 1).2
                    "metrics:total-scans"); [|apply counter_increment].
    apply counter_same. rewrite Hj, cache_get_increment by congruence.
    apply Hj1.
  - transitivity (counter (cache_increment w1 typeKey 1).2 typeKey).
    { apply counter_same, Hj. }
    rewrite counter_increment. f_equal. apply counter_same. rewrite Hj1.
    apply cache_get_increment. exact Hne.
  - intros key Hk1 Hk2. rewrite Hj.
    rewrite cache_get_increment by congruence. rewrite Hj1.
    apply cache_get_increment. congruence.
Qed.

End ScanCounters.

Lemma cache_get_journal (w : World) (j : list (Op * bool)) (key : string) :
  cache_get (with_journal w j) key = cache_get w key.
Proof. reflexivity. Qed.

Lemma metrics_not_product (suffix rest : string) :
  "product:" +:+ rest <> "metrics:" +:+ suffix.
Proof. discriminate. Qed.

Section StockScans.

Context {barcodeService : BarcodeDecoderService}.

(** The lookup by barcode without outages, with everything it keeps. *)
Lemma resolve_by_barcode barcode w :
  faults w = [] ->
  exists w',
    run (getProductByBarcode barcode) w
    = (Fulfilled (cache_aside w (normalize barcode)), w') /\
    faults w' = [] /\ products w' = products w /\
    forall suffix,
      cache_get w' ("metrics:" +:+ suffix) = cache_get w ("metrics:" +:+ suffix).
Proof.
  intros H.
  pose proof (run_products _ (getProductByBarcode_reads barcode) w) as Hrows.
  destruct (getProductByBarcode_cache_aside barcode w H)
    as (w' & Hrun & H' & _ & Hother).
  rewrite Hrun in Hrows. exists w'. repeat split; try assumption.
  intros suffix. apply Hother. discriminate.
Qed.

(** Everything a quickAdd without outages does. *)
Lemma quickAdd_calm request userId w :
  faults w = [] ->
  let barcode := QuickAddRequest.barcode request in
  let quantity := QuickAddRequest.quantity request in
  exists response w',
    run (quickAdd request userId) w = (Fulfilled response, w') /\
    faults w' = [] /\ products w' = products w /\
    counter w' "metrics:total-scans"
    = counter w "metrics:total-scans"
      + (if QuickAddResponse.success response then 1 else 0) /\
    counter w' "metrics:scans:add"
    = counter w "metrics:scans:add"
      + (if QuickAddResponse.success response then 1 else 0) /\
    match cache_aside w (normalize barcode) with
    | None =>
        response = QuickAddResponse.mk false None quantity 0
                     ("Product with barcode " +:+ barcode +:+ " not found")
    | Some p =>
        match Product.inventory p with
        | None =>
            response = QuickAddResponse.mk false (Some p) quantity 0
                         "Inventory record not found for product"
        | Some inventory =>
            match Inventory.addStock inventory quantity with
            | Rejected err =>
                response = QuickAddResponse.mk false (Some p) quantity
                             (Inventory.quantityOnHand inventory)
                             ("Error adding stock: " +:+ message err)
            | Fulfilled inventory' =>
                response = QuickAddResponse.mk true
                             (Some (Product.with_inventory p (Some inventory')))
                             quantity (Inventory.quantityOnHand inventory')
                             ("Successfully added " +:+ pretty quantity +:+
                              " units of " +:+ Product.name p) /\
                cache_get w' ("product:" +:+ Product.id p) = None /\
                cache_get w' ("product:barcode:" +:+ Product.barcode p) = None
            end
        end
    end.
Proof.
  intros H barcode quantity.
  unfold quickAdd. rewrite run_try_catch. unfold quickAdd_try.
  fold barcode. fold quantity. cbv zeta. rewrite run_mbind.
  destruct (resolve_by_barcode barcode w H) as (w1 & -> & H1 & Hrows1 & Hm1).
  assert (forall suffix, counter w1 ("metrics:" +:+ suffix)
                         = counter w ("metrics:" +:+ suffix)) as Hc1
    by (intros; apply counter_same, Hm1).
  destruct (cache_aside w (normalize barcode)) as [p|].
  2:{ rewrite run_ret. eexists _, _. split; [reflexivity|]. simpl.
      rewrite !Z.add_0_r. repeat split; try assumption.
      - apply (Hc1 "total-scans").
      - apply (Hc1 "scans:add"). }
  destruct (Product.inventory p) as [inventory|].
  2:{ rewrite run_ret. eexists _, _. split; [reflexivity|]. simpl.
      rewrite !Z.add_0_r. repeat split; try assumption.
      - apply (Hc1 "total-scans").
      - apply (Hc1 "scans:add"). }
  destruct (Inventory.addStock inventory quantity) as [inventory'|err].
  2:{ rewrite run_ret. eexists _, _. split; [reflexivity|]. simpl.
      rewrite !Z.add_0_r. repeat split; try assumption.
      - apply (Hc1 "total-scans").
      - apply (Hc1 "scans:add"). }
  cbv zeta. rewrite run_mbind.
  match goal with
  | |- context [run (logScan ?data) w1] =>
      destruct (logScan_counts data w1 H1)
        as (w2 & -> & H2 & Hrows2 & Htotal & Hadd & Hframe)
  end.
  change (counter w2 "metrics:scans:add" = counter w1 "metrics:scans:add" + 1)
    in Hadd.
  rewrite run_mbind. calm_call H2.
  rewrite run_mbind. calm_call H2. rewrite run_ret.
  eexists _, _. split; [reflexivity|]. cbn [QuickAddResponse.success].
  assert (forall key,
    cache_get (with_journal
                 (cache_delete
                    (with_journal
                       (cache_delete w2
                          ("product:" +:+
                           Product.id (Product.with_inventory p (Some inventory'))))
                       (journal (cache_delete w2
                          ("product:" +:+
                           Product.id (Product.with_inventory p (Some inventory'))))
                        ++ [(CacheDelete
                               ("product:" +:+
                                Product.id (Product.with_inventory p (Some inventory'))),
                             true)]))
                    ("product:barcode:" +:+
                     Product.barcode (Product.with_inventory p (Some inventory'))))
                 (journal
                    (cache_delete
                       (with_journal
                          (cache_delete w2
                             ("product:" +:+
                              Product.id (Product.with_inventory p (Some inventory'))))
                          (journal (cache_delete w2
                             ("product:" +:+
                              Product.id (Product.with_inventory p (Some inventory'))))
                           ++ [(CacheDelete
                                  ("product:" +:+
                                   Product.id (Product.with_inventory p (Some inventory'))),
                                true)]))
                       ("product:barcode:" +:+
                        Product.barcode (Product.with_inventory p (Some inventory'))))
                  ++ [(CacheDelete
                         ("product:barcode:" +:+
                          Product.barcode (Product.with_inventory p (Some inventory'))),
                       true)])) key
    = if decide ("product:barcode:" +:+ Product.barcode p = key) then None
      else if decide ("product:" +:+ Product.id p = key) then None
      else cache_get w2 key) as Hfinal.
  { intros key. rewrite cache_get_journal, cache_get_delete.
    rewrite cache_get_journal, cache_get_delete. reflexivity. }
  split; [exact H2|]. split; [simpl; congruence|].
  split; [|split; [|split; [reflexivity|split]]].
  - transitivity (counter w2 "metrics:total-scans").
    + apply counter_same. rewrite Hfinal.
      destruct (decide _) as [E|_]; [discriminate E|].
      destruct (decide _) as [E|_]; [discriminate E|]. reflexivity.
    + rewrite Htotal. f_equal. apply (Hc1 "total-scans").
  - transitivity (counter w2 "metrics:scans:add").
    + apply counter_same. rewrite Hfinal.
      destruct (decide _) as [E|_]; [discriminate E|].
      destruct (decide _) as [E|_]; [discriminate E|]. reflexivity.
    + rewrite Hadd. f_equal. apply (Hc1 "scans:add").
  - rewrite Hfinal. destruct (decide _); [reflexivity|].
    destruct (decide _); [reflexivity|contradiction].
  - rewrite Hfinal. destruct (decide _); [reflexivity|contradiction].
Qed.

(** Everything a receiveInventory without outages does. *)
Lemma receiveInventory_calm barcode quantity supplierId userId w :
  faults w = [] ->
  exists response w',
    run (receiveInventory barcode quantity supplierId userId) w
    = (Fulfilled response, w') /\
    faults w' = [] /\ products w' = products w /\
    counter w' "metrics:total-scans"
    = counter w "metrics:total-scans"
      + (if QuickAddResponse.success response then 1 else 0) /\
    counter w' "metrics:scans:receive"
    = counter w "metrics:scans:receive"
      + (if QuickAddResponse.success response then 1 else 0) /\
    match cache_aside w (normalize barcode) with
    | None =>
        response = QuickAddResponse.mk false None quantity 0 "Product not found"
    | Some p =>
        match Product.inventory p with
        | None =>
            response = QuickAddResponse.mk false (Some p) quantity 0
                         "Inventory record missing"
        | Some inventory =>
            match Inventory.addStock inventory quantity with
            | Rejected err =>
                response = QuickAddResponse.mk false None quantity 0 (message err)
            | Fulfilled inventory' =>
                response = QuickAddResponse.mk true
                             (Some (Product.with_inventory p (Some inventory')))
                             quantity (Inventory.quantityOnHand inventory')
                             ("Received " +:+ pretty quantity +:+ " units")
            end
        end
    end.
Proof.
  intros H.
  unfold receiveInventory. rewrite run_try_catch. unfold receiveInventory_try.
  rewrite run_mbind.
  destruct (resolve_by_barcode barcode w H) as (w1 & -> & H1 & Hrows1 & Hm1).
  assert (forall suffix, counter w1 ("metrics:" +:+ suffix)
                         = counter w ("metrics:" +:+ suffix)) as Hc1
    by (intros; apply counter_same, Hm1).
  destruct (cache_aside w (normalize barcode)) as [p|].
  2:{ rewrite run_ret. eexists _, _. split; [reflexivity|]. simpl.
      rewrite !Z.add_0_r. repeat split; try assumption.
      - apply (Hc1 "total-scans").
      - apply (Hc1 "scans:receive"). }
  destruct (Product.inventory p) as [inventory|].
  2:{ rewrite run_ret. eexists _, _. split; [reflexivity|]. simpl.
      rewrite !Z.add_0_r. repeat split; try assumption.
      - apply (Hc1 "total-scans").
      - apply (Hc1 "scans:receive"). }
  rewrite run_mbind.
  destruct (Inventory.addStock inventory quantity) as [inventory'|err].
  2:{ unfold settle. rewrite run_throw. unfold receiveInventory_catch.
      rewrite run_ret. eexists _, _. split; [reflexivity|]. simpl.
      rewrite !Z.add_0_r. repeat split; try assumption.
      - apply (Hc1 "total-scans").
      - apply (Hc1 "scans:receive"). }
  unfold settle. rewrite run_ret. cbv zeta. rewrite run_mbind.
  match goal with
  | |- context [run (logScan ?data) w1] =>
      destruct (logScan_counts data w1 H1)
        as (w2 & -> & H2 & Hrows2 & Htotal & Hreceive & Hframe)
  end.
  change (counter w2 "metrics:scans:receive"
          = counter w1 "metrics:scans:receive" + 1) in Hreceive.
  rewrite run_ret. eexists _, _. split; [reflexivity|].
  cbn [QuickAddResponse.success].
  split; [exact H2|]. split; [congruence|].
  split; [|split; [|reflexivity]].
  - rewrite Htotal. f_equal. apply (Hc1 "total-scans").
  - rewrite Hreceive. f_equal. apply (Hc1 "scans:receive").
Qed.

End StockScans.

Lemma cache_get_set_ne (w : World) (key other : string) (v : CacheValue)
    (ttl : option Z) :
  key <> other -> cache_get (cache_set w key v ttl) other = cache_get w other.
Proof.
  intros Hne. unfold cache_get, cache_set. simpl.
  rewrite lookup_insert_ne by exact Hne. reflexivity.
Qed.

Section LookupScans.

Context {barcodeService : BarcodeDecoderService}.

(** Everything a decodeScan without outages does. *)
Lemma decodeScan_calm request w :
  faults w = [] ->
  let decoded := decode (ScanDecodeRequest.barcode request) in
  let scanKey := "scan:product:" +:+ DecodedBarcode.rawValue decoded in
  exists response w',
    run (decodeScan request) w = (Fulfilled response, w') /\
    faults w' = [] /\ products w' = products w /\
    counter w' "metrics:total-scans" = counter w "metrics:total-scans" + 1 /\
    counter w' "metrics:scans:lookup" = counter w "metrics:scans:lookup" + 1 /\
    (ScanDecodeResponse.product response, ScanDecodeResponse.cached response)
    = match cache_get w scanKey with
      | Some (VProduct p) => (Some p, true)
      | _ => (cache_aside w (normalize (DecodedBarcode.rawValue decoded)), false)
      end /\
    ScanDecodeResponse.success response
    = bool_decide (is_Some (ScanDecodeResponse.product response)) /\
    forall p, ScanDecodeResponse.product response = Some p ->
              cache_get w' scanKey = Some (VProduct p).
Proof.
  intros H decoded scanKey.
  unfold decodeScan, decodeScan_try. rewrite run_try_catch.
  fold decoded. fold scanKey. cbv zeta.
  rewrite run_mbind. calm_call H.
  set (w1 := with_journal w (journal w ++ [(CacheGet scanKey, true)])).
  assert (faults w1 = []) as H1 by exact H.
  rewrite run_mbind.
  assert (forall w2 p,
    faults w2 = [] -> products w2 = products w ->
    (forall suffix, cache_get w2 ("metrics:" +:+ suffix)
                    = cache_get w ("metrics:" +:+ suffix)) ->
    exists w',
      run (logScan (ScanLogData.mk p (ScanDecodeRequest.barcode request)
             lookup (ScanDecodeRequest.deviceId request)
             (ScanDecodeRequest.location request) None None (Some decoded))) w2
      = (Fulfilled tt, w') /\
      faults w' = [] /\ products w' = products w /\
      counter w' "metrics:total-scans" = counter w "metrics:total-scans" + 1 /\
      counter w' "metrics:scans:lookup" = counter w "metrics:scans:lookup" + 1 /\
      cache_get w' scanKey = cache_get w2 scanKey) as Hlog.
  { intros w2 p H2 Hrows Hm.
    destruct (logScan_counts
                (ScanLogData.mk p (ScanDecodeRequest.barcode request)
                   lookup (ScanDecodeRequest.deviceId request)
                   (ScanDecodeRequest.location request) None None (Some decoded))
                w2 H2)
      as (w' & Hrun & H' & Hrows' & Htotal & Hlookup & Hframe).
    change (counter w' "metrics:scans:lookup"
            = counter w2 "metrics:scans:lookup" + 1) in Hlookup.
    exists w'. split; [exact Hrun|]. split; [exact H'|].
    split; [congruence|].
    split; [|split].
    - rewrite Htotal. f_equal. apply counter_same, (Hm "total-scans").
    - rewrite Hlookup. f_equal. apply counter_same, (Hm "scans:lookup").
    - apply Hframe; discriminate. }
  assert (exists w2,
    run (product ← getProductByBarcode (DecodedBarcode.rawValue decoded);
         match product with
         | Some p =>
             call (CacheSet scanKey (VProduct p) (Some 1800));;
             mret (product, false)
         | None => mret (product, false)
         end) w1
    = (Fulfilled (cache_aside w (normalize (DecodedBarcode.rawValue decoded)),
                  false), w2) /\
    faults w2 = [] /\ products w2 = products w /\
    (forall suffix, cache_get w2 ("metrics:" +:+ suffix)
                    = cache_get w ("metrics:" +:+ suffix)) /\
    (forall p,
       cache_aside w (normalize (DecodedBarcode.rawValue decoded)) = Some p ->
       cache_get w2 scanKey = Some (VProduct p))) as Hmiss.
  { rewrite run_mbind.
    destruct (resolve_by_barcode (DecodedBarcode.rawValue decoded) w1 H1)
      as (w2 & -> & H2 & Hrows2 & Hm2).
    change (cache_aside w1 (normalize (DecodedBarcode.rawValue decoded)))
      with (cache_aside w (normalize (DecodedBarcode.rawValue decoded))).
    destruct (cache_aside w (normalize (DecodedBarcode.rawValue decoded)))
      as [p|].
    - rewrite run_mbind. calm_call H2. rewrite run_ret.
      eexists. split; [reflexivity|]. split; [exact H2|].
      split; [exact Hrows2|]. split.
      + intros suffix. rewrite cache_get_journal, cache_get_set_ne
          by discriminate.
        apply Hm2.
      + intros p' [= <-]. rewrite cache_get_journal.
        apply (cache_get_set w2 scanKey (VProduct p) 1800). lia.
    - rewrite run_ret. eexists. split; [reflexivity|]. split; [exact H2|].
      split; [exact Hrows2|]. split; [exact Hm2|]. intros p' [=]. }
  destruct (cache_get w scanKey) as [[p|n]|] eqn:Hhit.
  - rewrite run_ret. cbn beta iota. rewrite run_mbind.
    destruct (Hlog w1 (Some p) H1 eq_refl (fun _ => eq_refl))
      as (w' & -> & H' & Hrows & Htotal & Hlookup & Hkey).
    rewrite run_ret. eexists _, _. split; [reflexivity|].
    cbn [ScanDecodeResponse.product ScanDecodeResponse.cached
         ScanDecodeResponse.success].
    repeat split; try assumption.
    intros p' [= <-]. rewrite Hkey. exact Hhit.
  - destruct Hmiss as (w2 & -> & H2 & Hrows2 & Hm2 & Hset).
    cbn beta iota. rewrite run_mbind.
    destruct (Hlog w2 (cache_aside w (normalize (DecodedBarcode.rawValue decoded)))
                H2 Hrows2 Hm2)
      as (w' & -> & H' & Hrows & Htotal & Hlookup & Hkey).
    rewrite run_ret. eexists _, _. split; [reflexivity|].
    cbn [ScanDecodeResponse.product ScanDecodeResponse.cached
         ScanDecodeResponse.success].
    repeat split; try assumption.
    intros p' Hp. rewrite Hkey. apply Hset, Hp.
  - destruct Hmiss as (w2 & -> & H2 & Hrows2 & Hm2 & Hset).
    cbn beta iota. rewrite run_mbind.
    destruct (Hlog w2 (cache_aside w (normalize (DecodedBarcode.rawValue decoded)))
                H2 Hrows2 Hm2)
      as (w' & -> & H' & Hrows & Htotal & Hlookup & Hkey).
    rewrite run_ret. eexists _, _. split; [reflexivity|].
    cbn [ScanDecodeResponse.product ScanDecodeResponse.cached
         ScanDecodeResponse.success].
    repeat split; try assumption.
    intros p' Hp. rewrite Hkey. apply Hset, Hp.
Qed.

Lemma decodeScan_reads request :
  issues_only no_store_write (decodeScan request).
Proof.
  unfold decodeScan, decodeScan_try, decodeScan_catch.
  apply issues_only_try_catch; [|intro; constructor]. cbv zeta.
  apply issues_only_bind; [issues|]. intros cached.
  apply issues_only_bind.
  - destruct cached as [[p|n]|]; try (constructor; fail);
      (apply issues_only_bind; [apply getProductByBarcode_reads|]; issues).
  - intros [product cachedFlag].
    apply issues_only_bind; [apply logScan_reads|]. issues.
Qed.

Lemma batch_dispatch_reads operation quantity barcode :
  issues_only no_store_write (batch_dispatch operation quantity barcode).
Proof.
  unfold batch_dispatch.
  destruct (String.eqb operation "lookup"), (String.eqb operation "add"),
    (String.eqb operation "receive"), (truthy_number quantity);
    try (constructor; fail);
    (apply issues_only_bind; [|intro; constructor]).
  all: first [apply decodeScan_reads | apply quickAdd_reads
             | apply receiveInventory_reads].
Qed.

(** With a branch for the operation, the item is the response of the
    scan operation. *)
Lemma batch_dispatch_supported operation quantity barcode w :
  unsupported operation quantity = false ->
  exists item w',
    run (batch_dispatch operation quantity barcode) w = (Fulfilled item, w') /\
    is_Some (item_success item).
Proof.
  unfold unsupported, batch_dispatch. intros H.
  destruct (String.eqb operation "lookup").
  - rewrite run_mbind.
    destruct (never_throws_run _ (decodeScan_never_throws
                (ScanDecodeRequest.mk barcode None None)) w) as (r & w' & ->).
    rewrite run_ret. eexists _, _. split; [reflexivity|]. simpl. eauto.
  - destruct (truthy_number quantity) as [q|];
      [|destruct (String.eqb operation "add"),
          (String.eqb operation "receive"); discriminate H].
    destruct (String.eqb operation "add").
    + rewrite run_mbind.
      destruct (never_throws_run _ (quickAdd_never_throws
                  (QuickAddRequest.mk barcode q None None) "batch-user") w)
        as (r & w' & ->).
      rewrite run_ret. eexists _, _. split; [reflexivity|]. simpl. eauto.
    + destruct (String.eqb operation "receive"); [|discriminate H].
      rewrite run_mbind.
      destruct (never_throws_run _ (receiveInventory_never_throws
                  barcode q None None) w) as (r & w' & ->).
      rewrite run_ret. eexists _, _. split; [reflexivity|]. simpl. eauto.
Qed.

Lemma batch_iteration_shape operation quantity results barcode w :
  exists results' w',
    run (batch_iteration operation quantity results barcode) w
    = (Fulfilled results', w') /\
    processed results' = S (processed results) /\
    length (items results')
    = (length (items results)
       + if unsupported operation quantity then 2 else 1)%nat /\
    products w' = products w.
Proof.
  destruct (unsupported operation quantity) eqn:Hu.
  - unfold batch_iteration.
    rewrite batch_dispatch_unsupported by exact Hu. simpl.
    eexists _, _. split; [reflexivity|]. simpl.
    rewrite !length_app. simpl. repeat split; lia.
  - pose proof (run_products _ (batch_dispatch_reads operation quantity barcode) w)
      as Hrows.
    unfold batch_iteration. rewrite run_mbind, run_try_catch, run_mbind.
    destruct (batch_dispatch_supported operation quantity barcode w Hu)
      as (item & w' & Hrun & [flag Hflag]).
    rewrite Hrun in *. simpl in Hrows. rewrite !run_ret. cbn beta iota zeta.
    rewrite Hflag.
    destruct flag; rewrite run_ret; eexists _, _; (split; [reflexivity|]);
      simpl; rewrite length_app; simpl; repeat split; lia || exact Hrows.
Qed.

Lemma batch_loop_shape operation quantity barcodes results w :
  exists results' w',
    run (batch_loop operation quantity barcodes results) w
    = (Fulfilled results', w') /\
    processed results' = (processed results + length barcodes)%nat /\
    length (items results')
    = (length (items results)
       + if unsupported operation quantity then 2 * length barcodes
         else length barcodes)%nat /\
    products w' = products w.
Proof.
  revert results w. induction barcodes as [|barcode rest IH]; intros results w.
  - exists results, w. simpl. destruct (unsupported operation quantity);
      repeat split; lia.
  - simpl. rewrite run_mbind.
    destruct (batch_iteration_shape operation quantity results barcode w)
      as (r1 & w1 & -> & Hp1 & Hi1 & Hrows1).
    destruct (IH r1 w1) as (r2 & w2 & -> & Hp2 & Hi2 & Hrows2).
    exists r2, w2. split; [reflexivity|].
    rewrite Hp2, Hp1, Hi2, Hi1, Hrows2, Hrows1.
    destruct (unsupported operation quantity); repeat split; lia.
Qed.

(** ** What the scan operations answer *)

(** X4: without outages quickAdd always answers, and the answer is
    decided by the cache-aside lookup of the normalized barcode.  No
    product: a failure naming the barcode as it was sent.  A product
    without inventory record: a failure carrying the product.  A quantity
    the inventory refuses: a failure carrying the product and the stock
    on hand, unchanged.  Otherwise success with the raised stock, and the
    cache then holds no entry under product:<id> nor under
    product:barcode:<barcode>.  In every case the rows of the durable
    store are the ones before the call. *)
Theorem quickAdd_answers (request : QuickAddRequest.t) (userId : string)
    (w : World) :
  faults w = [] ->
  let barcode := QuickAddRequest.barcode request in
  let quantity := QuickAddRequest.quantity request in
  exists response w',
    run (quickAdd request userId) w = (Fulfilled response, w') /\
    products w' = products w /\
    match cache_aside w (normalize barcode) with
    | None =>
        response = QuickAddResponse.mk false None quantity 0
                     ("Product with barcode " +:+ barcode +:+ " not found")
    | Some p =>
        match Product.inventory p with
        | None =>
            response = QuickAddResponse.mk false (Some p) quantity 0
                         "Inventory record not found for product"
        | Some inventory =>
            match Inventory.addStock inventory quantity with
            | Rejected err =>
                response = QuickAddResponse.mk false (Some p) quantity
                             (Inventory.quantityOnHand inventory)
                             ("Error adding stock: " +:+ message err)
            | Fulfilled inventory' =>
                response = QuickAddResponse.mk true
                             (Some (Product.with_inventory p (Some inventory')))
                             quantity (Inventory.quantityOnHand inventory')
                             ("Successfully added " +:+ pretty quantity +:+
                              " units of " +:+ Product.name p) /\
                cache_get w' ("product:" +:+ Product.id p) = None /\
                cache_get w' ("product:barcode:" +:+ Product.barcode p) = None
            end
        end
    end.
Proof.
  intros H barcode quantity.
  destruct (quickAdd_calm request userId w H)
    as (response & w' & Hrun & _ & Hrows & _ & _ & Hanswer).
  exists response, w'. split; [exact Hrun|]. split; [exact Hrows|exact Hanswer].
Qed.

(** X5: without outages receiveInventory always answers.  No product
    and no inventory record are failures as in quickAdd, with texts of
    their own.  A quantity the inventory refuses is reported by the outer
    handler: the failure carries no product, a stock of 0 and the text of
    the inventory's error alone.  Otherwise success with the raised
    stock.  The rows of the durable store are the ones before the call. *)
Theorem receiveInventory_answers (barcode : string) (quantity : Z)
    (supplierId userId : option string) (w : World) :
  faults w = [] ->
  exists response w',
    run (receiveInventory barcode quantity supplierId userId) w
    = (Fulfilled response, w') /\
    products w' = products w /\
    match cache_aside w (normalize barcode) with
    | None =>
        response = QuickAddResponse.mk false None quantity 0 "Product not found"
    | Some p =>
        match Product.inventory p with
        | None =>
            response = QuickAddResponse.mk false (Some p) quantity 0
                         "Inventory record missing"
        | Some inventory =>
            match Inventory.addStock inventory quantity with
            | Rejected err =>
                response = QuickAddResponse.mk false None quantity 0 (message err)
            | Fulfilled inventory' =>
                response = QuickAddResponse.mk true
                             (Some (Product.with_inventory p (Some inventory')))
                             quantity (Inventory.quantityOnHand inventory')
                             ("Received " +:+ pretty quantity +:+ " units")
            end
        end
    end.
Proof.
  intros H.
  destruct (receiveInventory_calm barcode quantity supplierId userId w H)
    as (response & w' & Hrun & _ & Hrows & _ & _ & Hanswer).
  exists response, w'. split; [exact Hrun|]. split; [exact Hrows|exact Hanswer].
Qed.

(** X6: a scan that changes stock is counted only when it succeeds.
    Without outages, quickAdd raises metrics:total-scans and
    metrics:scans:add by exactly one when it answers success and leaves
    both as they were when it answers failure; receiveInventory does the
    same with metrics:scans:receive. *)
Theorem stock_scans_counted_on_success (c : StockCall) (w : World) :
  faults w = [] ->
  let typeKey := match c with
                 | QuickAdd _ _ => "metrics:scans:add"
                 | Receive _ _ _ _ => "metrics:scans:receive"
                 end in
  exists response w',
    run (stock_call c) w = (Fulfilled response, w') /\
    counter w' "metrics:total-scans"
    = counter w "metrics:total-scans"
      + (if QuickAddResponse.success response then 1 else 0) /\
    counter w' typeKey
    = counter w typeKey + (if QuickAddResponse.success response then 1 else 0).
Proof.
  intros H. destruct c as [request userId|barcode quantity supplierId userId];
    cbv zeta; simpl stock_call.
  - destruct (quickAdd_calm request userId w H)
      as (response & w' & Hrun & _ & _ & Htotal & Hadd & _).
    exists response, w'. repeat split; assumption.
  - destruct (receiveInventory_calm barcode quantity supplierId userId w H)
      as (response & w' & Hrun & _ & _ & Htotal & Hreceive & _).
    exists response, w'. repeat split; assumption.
Qed.

(** X7: quickAdd and receiveInventory decide alike.  From the same
    world and without outages, for the same barcode and quantity, both
    answer success or both answer failure, and on success they carry the
    same product and the same new stock.  *)
Theorem stock_scans_agree (barcode : string) (quantity : Z)
    (deviceId location : option string) (userId : string)
    (supplierId receiver : option string) (w : World) :
  faults w = [] ->
  exists added w1 received w2,
    run (quickAdd (QuickAddRequest.mk barcode quantity deviceId location) userId) w
    = (Fulfilled added, w1) /\
    run (receiveInventory barcode quantity supplierId receiver) w
    = (Fulfilled received, w2) /\
    QuickAddResponse.success added = QuickAddResponse.success received /\
    QuickAddResponse.quantity added = QuickAddResponse.quantity received /\
    (QuickAddResponse.success added = true ->
     QuickAddResponse.product added = QuickAddResponse.product received /\
     QuickAddResponse.newStock added = QuickAddResponse.newStock received).
Proof.
  intros H.
  destruct (quickAdd_calm (QuickAddRequest.mk barcode quantity deviceId location)
              userId w H)
    as (added & w1 & Hrun1 & _ & _ & _ & _ & Hadded).
  destruct (receiveInventory_calm barcode quantity supplierId receiver w H)
    as (received & w2 & Hrun2 & _ & _ & _ & _ & Hreceived).
  exists added, w1, received, w2. split; [exact Hrun1|]. split; [exact Hrun2|].
  cbn [QuickAddRequest.barcode QuickAddRequest.quantity] in Hadded.
  destruct (cache_aside w (normalize barcode)) as [p|];
    [destruct (Product.inventory p) as [inventory|];
     [destruct (Inventory.addStock inventory quantity)
        as [inventory'|err]|]|].
  - destruct Hadded as (-> & _). subst received. repeat split.
  - subst. repeat split; discriminate.
  - subst. repeat split; discriminate.
  - subst. repeat split; discriminate.
Qed.

(** X8: every lookup scan is counted, found or not.  Without outages
    decodeScan raises metrics:total-scans and metrics:scans:lookup by
    exactly one, whether it answers from the scan key, finds the product
    by the cache-aside lookup or finds none, and it leaves the rows of
    the durable store as they were. *)
Theorem decodeScan_counts_every_lookup (request : ScanDecodeRequest.t)
    (w : World) :
  faults w = [] ->
  exists response w',
    run (decodeScan request) w = (Fulfilled response, w') /\
    products w' = products w /\
    counter w' "metrics:total-scans" = counter w "metrics:total-scans" + 1 /\
    counter w' "metrics:scans:lookup" = counter w "metrics:scans:lookup" + 1.
Proof.
  intros H.
  destruct (decodeScan_calm request w H)
    as (response & w' & Hrun & _ & Hrows & Htotal & Hlookup & _).
  exists response, w'. repeat split; assumption.
Qed.

(** X9: a scan that found a product makes the next scan of the same
    barcode a cache hit.  Without outages, when decodeScan answers with a
    product, a decodeScan of the same barcode string in the world it
    left, from any device and location, answers success with that same
    product and cached = true. *)
Theorem decodeScan_repeat_is_cached (request again : ScanDecodeRequest.t)
    (w : World) :
  faults w = [] ->
  ScanDecodeRequest.barcode again = ScanDecodeRequest.barcode request ->
  exists first w1,
    run (decodeScan request) w = (Fulfilled first, w1) /\
    forall p,
      ScanDecodeResponse.product first = Some p ->
      exists second w2,
        run (decodeScan again) w1 = (Fulfilled second, w2) /\
        ScanDecodeResponse.product second = Some p /\
        ScanDecodeResponse.cached second = true /\
        ScanDecodeResponse.success second = true.
Proof.
  intros H Hsame.
  destruct (decodeScan_calm request w H)
    as (first & w1 & Hrun1 & H1 & _ & _ & _ & _ & _ & Hkey).
  exists first, w1. split; [exact Hrun1|]. intros p Hp.
  destruct (decodeScan_calm again w1 H1)
    as (second & w2 & Hrun2 & _ & _ & _ & _ & Hanswer & Hsuccess & _).
  exists second, w2. split; [exact Hrun2|].
  rewrite Hsame, (Hkey p Hp) in Hanswer. injection Hanswer as Hproduct Hcached.
  rewrite Hsuccess, Hproduct. split; [reflexivity|]. split; [exact Hcached|].
  apply bool_decide_eq_true. eauto.
Qed.

(** X10: batchScan counts every barcode as processed and never writes
    to the durable store, whatever the operation, the quantity and the
    outages.  With a branch for the operation every barcode yields
    exactly one item; without one it yields two, the undefined item and
    the failure record. *)
Theorem batchScan_processes_every_barcode (barcodes : list string)
    (operation : string) (quantity : option Z) (w : World) :
  exists results w',
    run (batchScan barcodes operation quantity) w = (Fulfilled results, w') /\
    processed results = length barcodes /\
    length (items results)
    = (if unsupported operation quantity then 2 * length barcodes
       else length barcodes)%nat /\
    products w' = products w.
Proof.
  unfold batchScan.
  destruct (batch_loop_shape operation quantity barcodes (mkResults 0 0 0 []) w)
    as (results & w' & Hrun & Hp & Hi & Hrows).
  exists results, w'. split; [exact Hrun|]. simpl in Hp, Hi.
  repeat split; assumption.
Qed.

End LookupScans.

(** Five units of abc-1 in the shop. *)
Lemma quickAdd_answers_witness :
  faults Shop.opened = [] /\
  exists response w',
    run (quickAdd (QuickAddRequest.mk "abc-1" 5 None None) "device-a")
        Shop.opened = (Fulfilled response, w') /\
    products w' = products Shop.opened.
Proof.
  split; [reflexivity|].
  destruct (quickAdd_answers (QuickAddRequest.mk "abc-1" 5 None None)
              "device-a" Shop.opened eq_refl)
    as (response & w' & Hrun & Hrows & _).
  exists response, w'. split; [exact Hrun|exact Hrows].
Defined.

(** A delivery of a refused quantity of abc-1. *)
Lemma receiveInventory_answers_witness :
  faults Shop.opened = [] /\
  exists response w',
    run (receiveInventory "abc-1" (-2) None None) Shop.opened
    = (Fulfilled response, w') /\
    products w' = products Shop.opened.
Proof.
  split; [reflexivity|].
  destruct (receiveInventory_answers "abc-1" (-2) None None Shop.opened eq_refl)
    as (response & w' & Hrun & Hrows & _).
  exists response, w'. split; [exact Hrun|exact Hrows].
Defined.

(** A delivery of three units of abc-1. *)
Lemma stock_scans_counted_on_success_witness :
  faults Shop.opened = [] /\
  exists response w',
    run (stock_call (Receive "abc-1" 3 None None)) Shop.opened
    = (Fulfilled response, w') /\
    counter w' "metrics:scans:receive"
    = counter Shop.opened "metrics:scans:receive"
      + (if QuickAddResponse.success response then 1 else 0).
Proof.
  split; [reflexivity|].
  destruct (stock_scans_counted_on_success (Receive "abc-1" 3 None None)
              Shop.opened eq_refl)
    as (response & w' & Hrun & _ & Hcount).
  exists response, w'. split; [exact Hrun|exact Hcount].
Defined.

(** Three units of abc-1, added and received. *)
Lemma stock_scans_agree_witness :
  faults Shop.opened = [] /\
  exists added w1 received w2,
    run (quickAdd (QuickAddRequest.mk "abc-1" 3 None None) "device-a")
        Shop.opened = (Fulfilled added, w1) /\
    run (receiveInventory "abc-1" 3 None None) Shop.opened
    = (Fulfilled received, w2) /\
    QuickAddResponse.success added = QuickAddResponse.success received.
Proof.
  split; [reflexivity|].
  destruct (stock_scans_agree "abc-1" 3 None None "device-a" None None
              Shop.opened eq_refl)
    as (added & w1 & received & w2 & Hrun1 & Hrun2 & Hsuccess & _).
  exists added, w1, received, w2. repeat split; assumption.
Defined.

(** A scan of a barcode the shop does not carry. *)
Lemma decodeScan_counts_every_lookup_witness :
  faults Shop.opened = [] /\
  exists response w',
    run (decodeScan (ScanDecodeRequest.mk "zzz" None None)) Shop.opened
    = (Fulfilled response, w') /\
    counter w' "metrics:scans:lookup"
    = counter Shop.opened "metrics:scans:lookup" + 1.
Proof.
  split; [reflexivity|].
  destruct (decodeScan_counts_every_lookup
              (ScanDecodeRequest.mk "zzz" None None) Shop.opened eq_refl)
    as (response & w' & Hrun & _ & _ & Hlookup).
  exists response, w'. split; [exact Hrun|exact Hlookup].
Defined.

(** abc-1 scanned at the door, then at the till. *)
Lemma decodeScan_repeat_is_cached_witness :
  faults Shop.opened = [] /\
  ScanDecodeRequest.barcode (ScanDecodeRequest.mk "abc-1" (Some "till") None)
  = ScanDecodeRequest.barcode (ScanDecodeRequest.mk "abc-1" (Some "door") None) /\
  exists first w1 second w2,
    run (decodeScan (ScanDecodeRequest.mk "abc-1" (Some "door") None))
        Shop.opened = (Fulfilled first, w1) /\
    ScanDecodeResponse.cached first = false /\
    run (decodeScan (ScanDecodeRequest.mk "abc-1" (Some "till") None)) w1
    = (Fulfilled second, w2) /\
    ScanDecodeResponse.product second = Some Shop.widget /\
    ScanDecodeResponse.cached second = true.
Proof.
  split; [reflexivity|]. split; [reflexivity|].
  destruct (decodeScan_repeat_is_cached
              (ScanDecodeRequest.mk "abc-1" (Some "door") None)
              (ScanDecodeRequest.mk "abc-1" (Some "till") None)
              Shop.opened eq_refl eq_refl)
    as (first & w1 & Hrun & Hnext).
  assert (ScanDecodeResponse.product first = Some Shop.widget /\
          ScanDecodeResponse.cached first = false) as (Hfound & Hfresh).
  { assert ((run (decodeScan (ScanDecodeRequest.mk "abc-1" (Some "door") None))
                 Shop.opened).1
            = Fulfilled first) as Hfirst by (rewrite Hrun; reflexivity).
    vm_compute in Hfirst. injection Hfirst as <-. split; reflexivity. }
  destruct (Hnext Shop.widget Hfound) as (second & w2 & Hrun2 & Hp & Hc & _).
  exists first, w1, second, w2. repeat split; assumption.
Defined.

(** ** Changing and deleting a product *)

Lemma run_cache_delete (key : string) (w : World) :
  faults w = [] ->
  exists w',
    run (call (CacheDelete key)) w = (Fulfilled tt, w') /\
    faults w' = [] /\ products w' = products w /\
    forall other,
      cache_get w' other
      = if decide (key = other) then None else cache_get w other.
Proof.
  intros H. calm_call H. eexists. split; [reflexivity|].
  split; [exact H|]. split; [reflexivity|].
  intros other. rewrite cache_get_journal. apply cache_get_delete.
Qed.

Lemma run_cache_deleteByPattern (pattern : string) (w : World) :
  faults w = [] ->
  exists w',
    run (call (CacheDeleteByPattern pattern)) w = (Fulfilled tt, w') /\
    faults w' = [] /\ products w' = products w /\
    forall key,
      cache_get w' key = if glob pattern key then None else cache_get w key.
Proof.
  intros H. calm_call H. eexists. split; [reflexivity|].
  split; [exact H|]. split; [reflexivity|].
  intros key. rewrite cache_get_journal. apply cache_get_deleteByPattern.
Qed.

Lemma run_repo_update (id : string) (data : UpdateProductDto.t) (w : World) :
  faults w = [] ->
  exists w',
    run (call (RepoUpdate id data)) w
    = (Fulfilled (List.find (fun p => String.eqb (Product.id p) id)
                            (updated_rows w id data)), w') /\
    faults w' = [] /\ products w' = updated_rows w id data /\
    forall key, cache_get w' key = cache_get w key.
Proof.
  intros H. calm_call H. eexists. split; [reflexivity|].
  split; [exact H|]. split; reflexivity.
Qed.

Lemma find_updated_rows (id : string) (data : UpdateProductDto.t) (w : World) :
  List.find (fun p => String.eqb (Product.id p) id) (updated_rows w id data)
  = apply_update data <$> repo_findWithRelations w id.
Proof.
  unfold updated_rows, repo_findWithRelations.
  induction (products w) as [|p rows IH]; [reflexivity|]. simpl.
  destruct (String.eqb (Product.id p) id) eqn:E; simpl; rewrite E;
    [reflexivity|exact IH].
Qed.





Lemma getOrSet_leaves (kept key : string) computeFn ttl :
  key <> kept ->
  issues_only (leaves_key kept) computeFn ->
  issues_only (leaves_key kept) (getOrSet key computeFn ttl).
Proof.
  intros Hne Hc. unfold getOrSet.
  apply issues_only_bind.
  - apply issues_only_try_catch; [|intro; constructor].
    apply (issues_only_call _ (CacheGet key)). exact I.
  - intros cached. assert (issues_only (leaves_key kept)
      (value ← computeFn;
       match value with
       | Some p => try_catch (call (CacheSet key (VProduct p) ttl))
                     (fun _ => mret tt);; mret value
       | None => mret value
       end)) as Hmiss.
    { apply issues_only_bind; [exact Hc|]. intros [p|]; [|constructor].
      apply issues_only_bind; [|intro; constructor].
      apply issues_only_try_catch; [|intro; constructor].
      apply (issues_only_call _ (CacheSet key (VProduct p) ttl)). exact Hne. }
    destruct cached as [[p|n]|]; try exact Hmiss. constructor.
Qed.

Section ChangingProducts.

Context {barcodeService : BarcodeDecoderService}.

Lemma getProductById_reads id :
  issues_only no_store_write (getProductById id).
Proof. apply getOrSet_issues; try reflexivity. issues. Qed.

(** The lookup by id without outages. *)
Lemma resolve_by_id id w :
  faults w = [] ->
  exists w',
    run (getProductById id) w = (Fulfilled (cache_aside_id w id), w') /\
    faults w' = [] /\ products w' = products w /\
    (forall key, key <> "product:" +:+ id ->
                 cache_get w' key = cache_get w key) /\
    (cache_aside_id w id = None ->
     forall key, cache_get w' key = cache_get w key).
Proof.
  intros H.
  pose proof (run_products _ (getProductById_reads id) w) as Hrows.
  unfold getProductById, getOrSet, cache_aside_id in *. cbv zeta in *.
  set (key := "product:" +:+ id) in *.
  rewrite run_mbind, run_try_catch, (run_call (CacheGet key)), exec_calm in *
    by exact H.
  cbn [perform fst snd is_fulfilled] in *.
  set (w1 := with_journal w (journal w ++ [(CacheGet key, true)])) in *.
  destruct (cache_get w key) as [[p|n]|] eqn:Hget.
  - rewrite run_ret in *. eexists. split; [reflexivity|].
    split; [exact H|]. split; [reflexivity|]. split; [reflexivity|].
    intros [=].
  - rewrite run_mbind, (run_call (FindWithRelations id)), exec_calm in *
      by exact H.
    cbn [perform fst snd is_fulfilled] in *.
    change (repo_findWithRelations w1 id) with (repo_findWithRelations w id) in *.
    destruct (repo_findWithRelations w id) as [p|].
    + rewrite run_mbind, run_try_catch,
        (run_call (CacheSet key (VProduct p) None)), exec_calm in * by exact H.
      cbn [perform fst snd is_fulfilled] in *. rewrite run_ret in *.
      eexists. split; [reflexivity|]. split; [exact H|].
      split; [exact Hrows|]. split; [|intros [=]].
      intros other Hother.
      rewrite cache_get_journal, cache_get_set_ne by congruence. reflexivity.
    + rewrite run_ret in *. eexists. split; [reflexivity|].
      split; [exact H|]. split; [reflexivity|]. split; reflexivity.
  - rewrite run_mbind, (run_call (FindWithRelations id)), exec_calm in *
      by exact H.
    cbn [perform fst snd is_fulfilled] in *.
    change (repo_findWithRelations w1 id) with (repo_findWithRelations w id) in *.
    destruct (repo_findWithRelations w id) as [p|].
    + rewrite run_mbind, run_try_catch,
        (run_call (CacheSet key (VProduct p) None)), exec_calm in * by exact H.
      cbn [perform fst snd is_fulfilled] in *. rewrite run_ret in *.
      eexists. split; [reflexivity|]. split; [exact H|].
      split; [exact Hrows|]. split; [|intros [=]].
      intros other Hother.
      rewrite cache_get_journal, cache_get_set_ne by congruence. reflexivity.
    + rewrite run_ret in *. eexists. split; [reflexivity|].
      split; [exact H|]. split; [reflexivity|]. split; reflexivity.
Qed.

(** Everything an updateProduct without outages does. *)
Lemma updateProduct_calm id dto w :
  faults w = [] ->
  exists w',
    faults w' = [] /\
    match cache_aside_id w id with
    | None =>
        run (updateProduct id dto) w
        = (Rejected (mkError PlainError
                       ("Product with ID " +:+ id +:+ " not found")), w') /\
        products w' = products w /\
        forall key, cache_get w' key = cache_get w key
    | Some product =>
        run (updateProduct id dto) w
        = (Fulfilled (List.find (fun p => String.eqb (Product.id p) id)
                                (updated_rows w id dto)), w') /\
        products w' = updated_rows w id dto /\
        forall key,
          cache_get w' key
          = if decide ("product:" +:+ id = key) then None
            else if decide ("product:barcode:" +:+ Product.barcode product = key)
                 then None
                 else if glob "products:*" key then None
                      else cache_get w key
    end.
Proof.
  intros H. unfold updateProduct. rewrite run_mbind.
  destruct (resolve_by_id id w H) as (w1 & -> & H1 & Hrows1 & Hother1 & Hnone1).
  destruct (cache_aside_id w id) as [product|].
  2:{ rewrite run_throw. exists w1. split; [exact H1|]. split; [reflexivity|].
      split; [exact Hrows1|]. apply Hnone1. reflexivity. }
  rewrite run_mbind.
  destruct (run_repo_update id dto w1 H1) as (w2 & -> & H2 & Hrows2 & Hget2).
  rewrite run_mbind.
  destruct (run_cache_delete ("product:" +:+ id) w2 H2)
    as (w3 & -> & H3 & Hrows3 & Hget3).
  rewrite run_mbind.
  destruct (run_cache_delete ("product:barcode:" +:+ Product.barcode product)
              w3 H3) as (w4 & -> & H4 & Hrows4 & Hget4).
  rewrite run_mbind.
  destruct (run_cache_deleteByPattern "products:*" w4 H4)
    as (w5 & -> & H5 & Hrows5 & Hget5).
  rewrite run_ret. exists w5. split; [exact H5|].
  assert (updated_rows w1 id dto = updated_rows w id dto) as Hsame
    by (unfold updated_rows; rewrite Hrows1; reflexivity).
  rewrite Hsame in *. split; [reflexivity|].
  split; [congruence|].
  intros key. rewrite Hget5, Hget4, Hget3, Hget2.
  destruct (decide ("product:" +:+ id = key)) as [<-|Hne].
  - destruct (glob "products:*" ("product:" +:+ id)); [reflexivity|].
    destruct (decide _); reflexivity.
  - rewrite (Hother1 key) by congruence.
    destruct (glob "products:*" key); destruct (decide _); reflexivity.
Qed.

(** deleteProduct is updateProduct with isActive false, answering whether
    a row came back; in every world. *)
Lemma deleteProduct_as_update id w :
  run (deleteProduct id) w
  = run (updated ← updateProduct id deactivate;
         mret (bool_decide (is_Some updated))) w.
Proof.
  unfold deleteProduct, updateProduct. rewrite !run_mbind.
  destruct (run (getProductById id) w) as [[[product|]|error] w1];
    try reflexivity.
  rewrite !run_mbind, !(run_call (RepoUpdate id deactivate)).
  destruct (exec (RepoUpdate id deactivate) w1) as [[result|error] w2];
    [|reflexivity].
  rewrite !run_mbind, !(run_call (CacheDelete ("product:" +:+ id))).
  destruct (exec (CacheDelete ("product:" +:+ id)) w2)
    as [[[]|error] w3]; [|reflexivity].
  rewrite !run_mbind,
    !(run_call (CacheDelete ("product:barcode:" +:+ Product.barcode product))).
  destruct (exec (CacheDelete
                    ("product:barcode:" +:+ Product.barcode product)) w3)
    as [[[]|error] w4]; [|reflexivity].
  rewrite !run_mbind, !(run_call (CacheDeleteByPattern "products:*")).
  destruct (exec (CacheDeleteByPattern "products:*") w4)
    as [[[]|error] w5]; [|reflexivity].
  rewrite !run_ret. reflexivity.
Qed.



Lemma updateProduct_leaves_scan_key id dto raw :
  issues_only (leaves_key ("scan:product:" +:+ raw)) (updateProduct id dto).
Proof.
  unfold updateProduct. apply issues_only_bind.
  - apply getOrSet_leaves; [discriminate|].
    apply (issues_only_call _ (FindWithRelations id)). exact I.
  - intros [product|]; [|constructor].
    apply issues_only_bind;
      [apply (issues_only_call _ (RepoUpdate id dto)); exact I|intros ?].
    apply issues_only_bind;
      [apply (issues_only_call _ (CacheDelete _)); discriminate|intros ?].
    apply issues_only_bind;
      [apply (issues_only_call _ (CacheDelete _)); discriminate|intros ?].
    apply issues_only_bind;
      [apply (issues_only_call _ (CacheDeleteByPattern _)); reflexivity
      |intros ?; constructor].
Qed.

Lemma deleteProduct_leaves_scan_key id raw :
  issues_only (leaves_key ("scan:product:" +:+ raw)) (deleteProduct id).
Proof.
  unfold deleteProduct. apply issues_only_bind.
  - apply getOrSet_leaves; [discriminate|].
    apply (issues_only_call _ (FindWithRelations id)). exact I.
  - intros [product|]; [|constructor].
    apply issues_only_bind;
      [apply (issues_only_call _ (RepoUpdate id deactivate)); exact I|intros ?].
    apply issues_only_bind;
      [apply (issues_only_call _ (CacheDelete _)); discriminate|intros ?].
    apply issues_only_bind;
      [apply (issues_only_call _ (CacheDelete _)); discriminate|intros ?].
    apply issues_only_bind;
      [apply (issues_only_call _ (CacheDeleteByPattern _)); reflexivity
      |intros ?; constructor].
Qed.

(** The row with a given id stays resolvable after an update: the cache
    entry under product:<id> is gone and the store has the changed row. *)
Lemma updateProduct_row id dto row w :
  faults w = [] ->
  repo_findWithRelations w id = Some row ->
  exists w',
    run (updateProduct id dto) w = (Fulfilled (Some (apply_update dto row)), w') /\
    faults w' = [] /\
    products w' = updated_rows w id dto /\
    cache_get w' ("product:" +:+ id) = None /\
    (forall key, glob "products:*" key = true -> cache_get w' key = None) /\
    (forall product, cache_aside_id w id = Some product ->
       cache_get w' ("product:barcode:" +:+ Product.barcode product) = None) /\
    cache_aside_id w' id = Some (apply_update dto row).
Proof.
  intros H Hrow.
  destruct (updateProduct_calm id dto w H) as (w' & H' & Hcalm).
  assert (exists product, cache_aside_id w id = Some product) as [product Hp].
  { unfold cache_aside_id. rewrite Hrow.
    destruct (cache_get w ("product:" +:+ id)) as [[p|n]|]; eauto. }
  rewrite Hp in Hcalm. destruct Hcalm as (Hrun & Hrows & Hcache).
  rewrite find_updated_rows, Hrow in Hrun. exists w'.
  split; [exact Hrun|]. split; [exact H'|]. split; [exact Hrows|].
  split; [|split; [|split]].
  - rewrite Hcache. destruct (decide _); [reflexivity|contradiction].
  - intros key Hglob. rewrite Hcache, Hglob.
    destruct (decide _); [reflexivity|]. destruct (decide _); reflexivity.
  - intros product' Hp'. rewrite Hp in Hp'. injection Hp' as Heq.
    rewrite <- Heq, Hcache. destruct (decide _); [reflexivity|].
    destruct (decide _); [reflexivity|contradiction].
  - unfold cache_aside_id. rewrite Hcache.
    destruct (decide _); [|contradiction].
    unfold repo_findWithRelations. rewrite Hrows.
    rewrite find_updated_rows, Hrow. reflexivity.
Qed.

(** X11: updateProduct and deleteProduct of an id that resolves to no
    product fail before they write.  Without outages, when the cache has
    no live product under product:<id> and the store no row with the id,
    both throw Product with ID <id> not found, and the rows and every
    cache key are as they were. *)
Theorem product_changes_reject_unknown_id (id : string)
    (dto : UpdateProductDto.t) (w : World) :
  faults w = [] ->
  cache_aside_id w id = None ->
  let notFound :=
    mkError PlainError ("Product with ID " +:+ id +:+ " not found") in
  (exists w',
      run (updateProduct id dto) w = (Rejected notFound, w') /\
      products w' = products w /\
      forall key, cache_get w' key = cache_get w key) /\
  (exists w',
      run (deleteProduct id) w = (Rejected notFound, w') /\
      products w' = products w /\
      forall key, cache_get w' key = cache_get w key).
Proof.
  intros H Hnone notFound. split.
  - destruct (updateProduct_calm id dto w H) as (w' & _ & Hcalm).
    rewrite Hnone in Hcalm. exists w'. exact Hcalm.
  - destruct (updateProduct_calm id deactivate w H) as (w' & _ & Hcalm).
    rewrite Hnone in Hcalm. destruct Hcalm as (Hrun & Hrest).
    exists w'. rewrite deleteProduct_as_update, run_mbind, Hrun.
    split; [reflexivity|exact Hrest].
Qed.


(** X13: deleteProduct is a soft delete.  Without outages, when the
    store has a row with the id, deleteProduct answers true; the store
    has as many rows as before, the row with the id is the old one with
    isActive false and every other field as it was, and a getProductById
    of the same id afterwards still answers that row. *)
Theorem deleteProduct_is_soft (id : string) (row : Product.t) (w : World) :
  faults w = [] ->
  repo_findWithRelations w id = Some row ->
  let deleted :=
    Product.mk (Product.id row) (Product.barcode row) (Product.barcodeType row)
      (Product.name row) (Product.description row) (Product.sku row)
      (Product.manufacturer row) (Product.priceUsd row) (Product.costUsd row)
      (Product.imageUrl row) (Product.createdBy row) false
      (Product.inventory row) in
  exists w' w'',
    run (deleteProduct id) w = (Fulfilled true, w') /\
    length (products w') = length (products w) /\
    repo_findWithRelations w' id = Some deleted /\
    run (getProductById id) w' = (Fulfilled (Some deleted), w'').
Proof.
  intros H Hrow deleted.
  destruct (updateProduct_row id deactivate row w H Hrow)
    as (w' & Hrun & H' & Hrows & _ & _ & _ & Hread).
  destruct (resolve_by_id id w' H') as (w'' & Hrun' & _).
  rewrite Hread in Hrun'. exists w', w''.
  rewrite deleteProduct_as_update, run_mbind, Hrun, run_ret.
  split; [reflexivity|]. split; [|split].
  - rewrite Hrows. unfold updated_rows. apply length_map.
  - unfold repo_findWithRelations. rewrite Hrows. rewrite find_updated_rows, Hrow.
    destruct row; reflexivity.
  - rewrite Hrun'. destruct row; reflexivity.
Qed.


(** A scan entry is served after any program that leaves its key. *)
Lemma decodeScan_after {A} (change : Prog A) request p w :
  faults w = [] ->
  cache_get w ("scan:product:" +:+
               DecodedBarcode.rawValue (decode (ScanDecodeRequest.barcode request)))
  = Some (VProduct p) ->
  issues_only
    (leaves_key ("scan:product:" +:+
                 DecodedBarcode.rawValue
                   (decode (ScanDecodeRequest.barcode request)))) change ->
  exists response w',
    run (decodeScan request) (run change w).2 = (Fulfilled response, w') /\
    ScanDecodeResponse.product response = Some p /\
    ScanDecodeResponse.cached response = true.
Proof.
  intros H Hentry Hchange.
  set (scanKey := "scan:product:" +:+
         DecodedBarcode.rawValue (decode (ScanDecodeRequest.barcode request)))
    in *.
  assert (cache_get (run change w).2 scanKey = Some (VProduct p)) as Hkept
    by (rewrite <- Hentry; apply run_leaves_key, Hchange).
  destruct (decodeScan_calm request (run change w).2 (run_faults change w H))
    as (response & w' & Hrun & _ & _ & _ & _ & Hanswer & _).
  fold scanKey in Hanswer. rewrite Hkept in Hanswer.
  injection Hanswer as Hproduct Hcached.
  exists response, w'. repeat split; assumption.
Qed.

(** X15: a scan entry outlives a change of its product.  updateProduct
    and deleteProduct leave every key scan:product:<raw> as it is, so
    without outages a decodeScan of a barcode that has a live scan entry
    answers with the product of that entry and cached = true in the
    world an updateProduct or a deleteProduct of any id has left, as it
    did before. *)
Theorem scan_entries_outlive_changes (id : string) (dto : UpdateProductDto.t)
    (request : ScanDecodeRequest.t) (p : Product.t) (w : World) :
  faults w = [] ->
  cache_get w ("scan:product:" +:+
               DecodedBarcode.rawValue (decode (ScanDecodeRequest.barcode request)))
  = Some (VProduct p) ->
  (exists response w',
      run (decodeScan request) (run (updateProduct id dto) w).2
      = (Fulfilled response, w') /\
      ScanDecodeResponse.product response = Some p /\
      ScanDecodeResponse.cached response = true) /\
  (exists response w',
      run (decodeScan request) (run (deleteProduct id) w).2
      = (Fulfilled response, w') /\
      ScanDecodeResponse.product response = Some p /\
      ScanDecodeResponse.cached response = true).
Proof.
  intros H Hentry. split.
  - apply decodeScan_after; [exact H|exact Hentry|].
    apply updateProduct_leaves_scan_key.
  - apply decodeScan_after; [exact H|exact Hentry|].
    apply deleteProduct_leaves_scan_key.
Qed.

End ChangingProducts.

(** An id the shop has no product for. *)
Lemma product_changes_reject_unknown_id_witness :
  faults Shop.opened = [] /\
  cache_aside_id Shop.opened "id-9" = None /\
  exists w',
    run (deleteProduct "id-9") Shop.opened
    = (Rejected (mkError PlainError "Product with ID id-9 not found"), w') /\
    products w' = products Shop.opened.
Proof.
  split; [reflexivity|]. split; [reflexivity|].
  destruct (proj2 (product_changes_reject_unknown_id "id-9" Scenes.rename
                     Shop.opened eq_refl eq_refl))
    as (w' & Hrun & Hrows & _).
  exists w'. split; [exact Hrun|exact Hrows].
Defined.


(** The widget of the shop, deleted. *)
Lemma deleteProduct_is_soft_witness :
  faults Shop.opened = [] /\
  repo_findWithRelations Shop.opened "id-0" = Some Shop.widget /\
  exists w',
    run (deleteProduct "id-0") Shop.opened = (Fulfilled true, w') /\
    length (products w') = length (products Shop.opened).
Proof.
  split; [reflexivity|]. split; [reflexivity|].
  destruct (deleteProduct_is_soft "id-0" Shop.widget Shop.opened
              eq_refl eq_refl)
    as (w' & w'' & Hrun & Hlength & _).
  exists w'. split; [exact Hrun|exact Hlength].
Defined.

(** abc-1 scanned, the widget deleted, abc-1 scanned again. *)
Lemma scan_entries_outlive_changes_witness :
  faults Scenes.scanned = [] /\
  cache_get Scenes.scanned "scan:product:abc-1" = Some (VProduct Shop.widget) /\
  exists response w',
    run (decodeScan (ScanDecodeRequest.mk "abc-1" None None))
        (run (deleteProduct "id-0") Scenes.scanned).2
    = (Fulfilled response, w') /\
    ScanDecodeResponse.product response = Some Shop.widget /\
    ScanDecodeResponse.cached response = true.
Proof.
  split; [reflexivity|]. split; [reflexivity|].
  exact (proj2 (scan_entries_outlive_changes "id-0" Scenes.rename
                  (ScanDecodeRequest.mk "abc-1" None None) Shop.widget
                  Scenes.scanned eq_refl eq_refl)).
Defined.

(** ** A product just created *)

Section CreatedProducts.

Context {barcodeService : BarcodeDecoderService}.

(** After a createProduct without outages and duplicates the cache-aside
    lookup resolves every spelling of the barcode to the saved row. *)
Lemma created_resolves (dto : CreateProductDto.t) (userId : string) (w : World) :
  faults w = [] ->
  repo_findByBarcode w (CreateProductDto.barcode dto) = None ->
  repo_findByBarcode w (normalize (CreateProductDto.barcode dto)) = None ->
  (forall sku, truthy_string (CreateProductDto.sku dto) = Some sku ->
               repo_findBySku w sku = None) ->
  cache_get w ("product:barcode:" +:+ normalize (CreateProductDto.barcode dto))
  = None ->
  exists saved w',
    run (createProduct dto userId) w = (Fulfilled saved, w') /\
    faults w' = [] /\
    Product.inventory saved = None /\
    forall raw,
      normalize raw = normalize (CreateProductDto.barcode dto) ->
      cache_aside w' (normalize raw) = Some saved.
Proof.
  intros H Hraw Hnorm Hsku Hentry.
  destruct (createProduct_calm dto userId w H Hraw Hnorm Hsku)
    as (w' & Hrun & H' & Hrows & Hcache).
  eexists _, w'. split; [exact Hrun|]. split; [exact H'|].
  split; [reflexivity|].
  intros raw ->. unfold cache_aside. rewrite Hcache, Hentry.
  destruct (_ || _); unfold repo_findByBarcode; rewrite Hrows;
    (apply find_app_miss; [exact Hnorm|apply String.eqb_refl]).
Qed.

(** X16: a product that was created is found by its barcode in any
    spelling.  Without outages, when neither the raw nor the normalized
    barcode nor the SKU is stored and the cache has no entry under
    product:barcode:<normalized>, createProduct succeeds and a
    getProductByBarcode that follows, with any string that normalizes to
    the same barcode, answers the saved product. *)
Theorem createProduct_then_lookup (dto : CreateProductDto.t)
    (userId raw : string) (w : World) :
  faults w = [] ->
  repo_findByBarcode w (CreateProductDto.barcode dto) = None ->
  repo_findByBarcode w (normalize (CreateProductDto.barcode dto)) = None ->
  (forall sku, truthy_string (CreateProductDto.sku dto) = Some sku ->
               repo_findBySku w sku = None) ->
  cache_get w ("product:barcode:" +:+ normalize (CreateProductDto.barcode dto))
  = None ->
  normalize raw = normalize (CreateProductDto.barcode dto) ->
  exists saved w1 w2,
    run (createProduct dto userId) w = (Fulfilled saved, w1) /\
    run (getProductByBarcode raw) w1 = (Fulfilled (Some saved), w2).
Proof.
  intros H Hraw Hnorm Hsku Hentry Hsame.
  destruct (created_resolves dto userId w H Hraw Hnorm Hsku Hentry)
    as (saved & w1 & Hrun & H1 & _ & Hfound).
  destruct (resolve_by_barcode raw w1 H1) as (w2 & Hlookup & _).
  rewrite (Hfound raw Hsame) in Hlookup.
  exists saved, w1, w2. split; [exact Hrun|exact Hlookup].
Qed.

(** X17: a product that was just created cannot take stock.
    createProduct builds an inventory record and does not save it, so
    under the conditions of X16 the saved product has no inventory: a
    quickAdd of its barcode answers Inventory record not found for
    product, a receiveInventory answers Inventory record missing, both
    with success false and a stock of 0, whatever the quantity. *)
Theorem created_product_takes_no_stock (dto : CreateProductDto.t)
    (userId : string) (request : QuickAddRequest.t) (adder : string)
    (supplierId receiver : option string) (w : World) :
  faults w = [] ->
  repo_findByBarcode w (CreateProductDto.barcode dto) = None ->
  repo_findByBarcode w (normalize (CreateProductDto.barcode dto)) = None ->
  (forall sku, truthy_string (CreateProductDto.sku dto) = Some sku ->
               repo_findBySku w sku = None) ->
  cache_get w ("product:barcode:" +:+ normalize (CreateProductDto.barcode dto))
  = None ->
  normalize (QuickAddRequest.barcode request)
  = normalize (CreateProductDto.barcode dto) ->
  exists saved w1 w2 w3,
    run (createProduct dto userId) w = (Fulfilled saved, w1) /\
    run (quickAdd request adder) w1
    = (Fulfilled (QuickAddResponse.mk false (Some saved)
                    (QuickAddRequest.quantity request) 0
                    "Inventory record not found for product"), w2) /\
    run (receiveInventory (QuickAddRequest.barcode request)
           (QuickAddRequest.quantity request) supplierId receiver) w1
    = (Fulfilled (QuickAddResponse.mk false (Some saved)
                    (QuickAddRequest.quantity request) 0
                    "Inventory record missing"), w3).
Proof.
  intros H Hraw Hnorm Hsku Hentry Hsame.
  destruct (created_resolves dto userId w H Hraw Hnorm Hsku Hentry)
    as (saved & w1 & Hrun & H1 & Hinventory & Hfound).
  destruct (quickAdd_calm request adder w1 H1)
    as (added & w2 & Hadd & _ & _ & _ & _ & Hadded).
  destruct (receiveInventory_calm (QuickAddRequest.barcode request)
              (QuickAddRequest.quantity request) supplierId receiver w1 H1)
    as (received & w3 & Hreceive & _ & _ & _ & _ & Hreceived).
  cbv zeta in Hadded.
  rewrite (Hfound _ Hsame), Hinventory in Hadded, Hreceived. subst.
  exists saved, w1, w2, w3. auto.
Qed.

End CreatedProducts.

(** ** bulkImportProducts *)

Section BulkImports.

Context {barcodeService : BarcodeDecoderService}.

(** One product of the import, in any world. *)
Lemma bulk_iteration_accounts userId result dto w :
  exists result' w' new,
    run (bulk_iteration userId result dto) w = (Fulfilled result', w') /\
    products w' = products w ++ new /\
    (faults w = [] -> faults w' = []) /\
    ((BulkImport.created result' = S (BulkImport.created result) /\
      BulkImport.failed result' = BulkImport.failed result /\
      BulkImport.errors result' = BulkImport.errors result /\
      length new = 1%nat) \/
     (BulkImport.created result' = BulkImport.created result /\
      BulkImport.failed result' = S (BulkImport.failed result) /\
      (exists text,
          BulkImport.errors result'
          = BulkImport.errors result ++ [(CreateProductDto.barcode dto, text)]) /\
      (length new <= 1)%nat /\
      (faults w = [] -> new = []))).
Proof.
  unfold bulk_iteration. rewrite run_try_catch, run_mbind.
  pose proof (run_faults (createProduct dto userId) w) as Hfaults.
  destruct (run (createProduct dto userId) w) as [[saved|error] w1] eqn:E.
  - apply createProduct_fulfilled in E. destruct E as (_ & _ & Hrows).
    rewrite run_ret. eexists _, _, [saved]. split; [reflexivity|].
    split; [exact Hrows|]. split; [exact Hfaults|]. left. simpl. auto.
  - rewrite run_ret.
    destruct (createProduct_rejected _ _ _ _ _ E)
      as [(_ & Hrows)|(_ & Hdown & saved & Hrows & _)].
    + eexists _, _, []. split; [reflexivity|]. rewrite app_nil_r.
      split; [exact Hrows|]. split; [exact Hfaults|]. right. simpl.
      repeat split; eauto.
    + eexists _, _, [saved]. split; [reflexivity|].
      split; [exact Hrows|]. split; [exact Hfaults|]. right. simpl.
      repeat split; eauto. intros Hcalm. contradiction.
Qed.

Lemma bulk_loop_accounts userId products0 result w :
  exists result' w' new texts,
    run (bulk_loop userId products0 result) w = (Fulfilled result', w') /\
    products w' = products w ++ new /\
    (BulkImport.created result' + BulkImport.failed result'
     = BulkImport.created result + BulkImport.failed result
       + length products0)%nat /\
    BulkImport.errors result' = BulkImport.errors result ++ texts /\
    (BulkImport.failed result' = BulkImport.failed result + length texts)%nat /\
    sublist (texts.*1) (CreateProductDto.barcode <$> products0) /\
    (BulkImport.created result' - BulkImport.created result <= length new)%nat /\
    (length new <= length products0)%nat /\
    (faults w = [] ->
     (BulkImport.created result'
      = BulkImport.created result + length new)%nat).
Proof.
  revert result w.
  induction products0 as [|dto rest IH]; intros result w.
  - exists result, w, [], []. simpl. rewrite !app_nil_r.
    repeat split; try lia. constructor.
  - cbn [bulk_loop]. rewrite run_mbind.
    destruct (bulk_iteration_accounts userId result dto w)
      as (r1 & w1 & new1 & -> & Hrows1 & Hf1 & Hcase).
    destruct (IH r1 w1)
      as (r2 & w2 & new2 & texts2 & -> & Hrows2 & Hsum & Herrors & Hfailed
          & Hsub & Hlow & Hhigh & Hcalm).
    destruct Hcase as [(Hc & Hf & He & Hn)|(Hc & Hf & (text & He) & Hn & Hnone)].
    + exists r2, w2, (new1 ++ new2), texts2. split; [reflexivity|].
      rewrite Hrows2, Hrows1, <- app_assoc, length_app. cbn [length].
      split; [reflexivity|]. split; [lia|]. split; [congruence|].
      split; [lia|]. split; [apply sublist_cons, Hsub|].
      split; [lia|]. split; [lia|].
      intros H. specialize (Hcalm (Hf1 H)). lia.
    + exists r2, w2, (new1 ++ new2),
        ((CreateProductDto.barcode dto, text) :: texts2).
      split; [reflexivity|].
      rewrite Hrows2, Hrows1, <- app_assoc, length_app. cbn [length].
      split; [reflexivity|]. split; [lia|].
      split; [rewrite Herrors, He, <- app_assoc; reflexivity|].
      split; [lia|]. split; [apply sublist_skip, Hsub|].
      split; [lia|]. split; [lia|].
      intros H. specialize (Hcalm (Hf1 H)). rewrite (Hnone H) in *.
      simpl in *. lia.
Qed.


(** X19: without outages bulkImportProducts stores exactly the products
    it counts as created: the rows appended to the store are created
    many. *)
Theorem bulkImportProducts_stores_created (products0 : list CreateProductDto.t)
    (userId : string) (w : World) :
  faults w = [] ->
  exists result w' new,
    run (bulkImportProducts products0 userId) w = (Fulfilled result, w') /\
    products w' = products w ++ new /\
    length new = BulkImport.created result.
Proof.
  intros H. unfold bulkImportProducts.
  destruct (bulk_loop_accounts userId products0 (BulkImport.mk 0 0 []) w)
    as (result & w' & new & texts & Hrun & Hrows & _ & _ & _ & _ & _ & _
        & Hcalm).
  exists result, w', new. split; [exact Hrun|]. split; [exact Hrows|].
  specialize (Hcalm H). simpl in Hcalm. lia.
Qed.

End BulkImports.

(** Shop.empty, abc-1 created and looked up as ABC1. *)
Lemma createProduct_then_lookup_witness :
  faults Shop.empty = [] /\
  normalize "ABC1" = normalize (CreateProductDto.barcode (Shop.dto "abc-1")) /\
  exists saved w1 w2,
    run (createProduct (Shop.dto "abc-1") "user-1") Shop.empty
    = (Fulfilled saved, w1) /\
    run (getProductByBarcode "ABC1") w1 = (Fulfilled (Some saved), w2).
Proof.
  split; [reflexivity|]. split; [reflexivity|].
  assert (forall sku,
             truthy_string (CreateProductDto.sku (Shop.dto "abc-1")) = Some sku ->
             repo_findBySku Shop.empty sku = None) as Hsku by (intros sku [=]).
  exact (createProduct_then_lookup (Shop.dto "abc-1") "user-1" "ABC1"
           Shop.empty eq_refl eq_refl eq_refl Hsku eq_refl eq_refl).
Defined.

(** Shop.empty, abc-1 created, five units added. *)
Lemma created_product_takes_no_stock_witness :
  faults Shop.empty = [] /\
  exists saved w1 w2,
    run (createProduct (Shop.dto "abc-1") "user-1") Shop.empty
    = (Fulfilled saved, w1) /\
    run (quickAdd Shop.add5 "device-a") w1
    = (Fulfilled (QuickAddResponse.mk false (Some saved) 5 0
                    "Inventory record not found for product"), w2).
Proof.
  split; [reflexivity|].
  assert (forall sku,
             truthy_string (CreateProductDto.sku (Shop.dto "abc-1")) = Some sku ->
             repo_findBySku Shop.empty sku = None) as Hsku by (intros sku [=]).
  destruct (created_product_takes_no_stock (Shop.dto "abc-1") "user-1"
              Shop.add5 "device-a" None None Shop.empty
              eq_refl eq_refl eq_refl Hsku eq_refl eq_refl)
    as (saved & w1 & w2 & w3 & Hrun & Hadd & _).
  exists saved, w1, w2. split; [exact Hrun|exact Hadd].
Defined.

(** An import of abc-1 and ABC1 into Shop.empty. *)
Lemma bulkImportProducts_stores_created_witness :
  faults Shop.empty = [] /\
  exists result w' new,
    run (bulkImportProducts [Shop.dto "abc-1"; Shop.dto "ABC1"] "user-1")
        Shop.empty = (Fulfilled result, w') /\
    products w' = products Shop.empty ++ new /\
    length new = BulkImport.created result.
Proof.
  split; [reflexivity|].
  exact (bulkImportProducts_stores_created
           [Shop.dto "abc-1"; Shop.dto "ABC1"] "user-1" Shop.empty eq_refl).
Defined.

(** ** The handlers of ProductController *)

Lemma exec_create_shape (p saved : Product.t) (w w' : World) :
  exec (RepoCreate p) w = (Fulfilled saved, w') ->
  saved = Product.with_id p (fresh_id w).
Proof.
  unfold exec. destruct (faults w) as [|[] rest]; simpl; unfold repo_create.
  - destruct (violates_unique w p); simpl; intros [= <- <-]; reflexivity.
  - discriminate.
  - change (violates_unique (with_faults w rest) p) with (violates_unique w p).
    destruct (violates_unique w p); simpl; intros [= <- <-]; reflexivity.
Qed.

Section Handlers.

Context {barcodeService : BarcodeDecoderService}.

(** The row of a fulfilled [createProduct], field by field. *)
Lemma createProduct_fulfilled_shape dto userId w saved w' :
  run (createProduct dto userId) w = (Fulfilled saved, w') ->
  exists id,
    saved
    = Product.mk id (normalize (CreateProductDto.barcode dto))
        (CreateProductDto.barcodeType dto) (CreateProductDto.name dto)
        (truthy_string (CreateProductDto.description dto))
        (truthy_string (CreateProductDto.sku dto))
        (truthy_string (CreateProductDto.manufacturer dto))
        (default 0 (CreateProductDto.priceUsd dto))
        (default 0 (CreateProductDto.costUsd dto))
        (truthy_string (CreateProductDto.imageUrl dto))
        userId true None.
Proof.
  unfold createProduct.
  rewrite run_mbind, (run_call (FindByBarcode (CreateProductDto.barcode dto))).
  destruct (exec (FindByBarcode (CreateProductDto.barcode dto)) w)
    as [[[existing|]|e] w0]; try discriminate.
  rewrite run_mbind.
  match goal with
  | |- context [run ?check w0] =>
      destruct (run check w0) as [[[]|e] w1]; try discriminate
  end.
  cbv zeta. rewrite run_mbind.
  match goal with
  | |- context [run (call (RepoCreate ?p)) w1] =>
      rewrite (run_call (RepoCreate p));
      destruct (exec (RepoCreate p) w1) as [[row|e] w2] eqn:Hcreate;
        try discriminate;
      apply exec_create_shape in Hcreate
  end.
  rewrite run_mbind, (run_call (CacheDeleteByPattern "products:*")).
  destruct (exec (CacheDeleteByPattern "products:*") w2) as [[[]|e] w3];
    try discriminate.
  rewrite run_mbind, (run_call (CacheDeleteByPattern "search:*")).
  destruct (exec (CacheDeleteByPattern "search:*") w3) as [[[]|e] w4];
    try discriminate.
  rewrite run_ret. intros [= <- <-]. exists (fresh_id w1). exact Hcreate.
Qed.

(** The response of POST /api/products, in any world. *)
Lemma createProduct_handler_shape (body : CreateBody.t) (userId : string)
    (w : World) :
  exists response w',
    run (ProductController.createProduct body userId) w
    = (Fulfilled response, w') /\
    coherent response /\
    (Http.status response = 201 \/ Http.status response = 400) /\
    (truthy_string (CreateBody.barcode body) = None \/
     truthy_string (CreateBody.name body) = None \/
     CreateBody.barcodeType body = None ->
     response
     = Http.mk 400 false None
         (Some "Missing required fields: barcode, name, barcodeType") None /\
     w' = w) /\
    forall p,
      Http.data response = Some p ->
      Http.status response = 201 /\
      products w' = products w ++ [p] /\
      Product.createdBy p = userId /\
      Product.inventory p = None /\
      Product.manufacturer p = None.
Proof.
  unfold ProductController.createProduct. rewrite run_try_catch.
  assert (coherent
            (Http.mk (A := Product.t) 400 false None
               (Some "Missing required fields: barcode, name, barcodeType")
               None)) as Hmissing
    by (right; simpl; eauto 10).
  destruct (truthy_string (CreateBody.barcode body)) as [barcode|];
    [destruct (truthy_string (CreateBody.name body)) as [name|];
     [destruct (CreateBody.barcodeType body) as [barcodeType|]|]|].
  2-4: (rewrite run_ret; eexists _, _; split; [reflexivity|];
        split; [exact Hmissing|]; split; [right; reflexivity|];
        split; [intros _; split; reflexivity|intros p [=]]).
  cbv zeta. rewrite run_mbind.
  match goal with
  | |- context [run (createProduct ?dto userId) w] =>
      destruct (run (createProduct dto userId) w) as [[saved|error] w1] eqn:E
  end.
  - rewrite run_ret. eexists _, _. split; [reflexivity|].
    split; [left; simpl; auto|]. split; [left; reflexivity|].
    split; [intros [H|[H|H]]; discriminate H|].
    intros p [= <-]. split; [reflexivity|].
    destruct (createProduct_fulfilled _ _ _ _ _ E) as (_ & _ & Hrows).
    destruct (createProduct_fulfilled_shape _ _ _ _ _ E) as (id & ->).
    split; [exact Hrows|]. repeat split.
  - rewrite run_ret. eexists _, _. split; [reflexivity|].
    split; [right; simpl; eauto 10|]. split; [right; reflexivity|].
    split; [intros [H|[H|H]]; discriminate H|]. intros p [=].
Qed.

(** X20: what POST /api/products answers, whichever calls fail.  The
    handler always responds, with 201 or with 400, never with 500.  A
    body without barcode, name or barcode type, or with an empty barcode
    or name, is a 400 naming the required fields, and no call is issued.
    When the response carries a product, the status is 201 and that
    product is the one row appended to the store; it was created by the
    user of the request, has no inventory, and has no manufacturer, the
    handler passing none on. *)
Theorem createProduct_handler_answers (body : CreateBody.t) (userId : string)
    (w : World) :
  exists response w',
    run (ProductController.createProduct body userId) w
    = (Fulfilled response, w') /\
    coherent response /\
    (Http.status response = 201 \/ Http.status response = 400) /\
    (truthy_string (CreateBody.barcode body) = None \/
     truthy_string (CreateBody.name body) = None \/
     CreateBody.barcodeType body = None ->
     response
     = Http.mk 400 false None
         (Some "Missing required fields: barcode, name, barcodeType") None /\
     w' = w) /\
    forall p,
      Http.data response = Some p ->
      Http.status response = 201 /\
      products w' = products w ++ [p] /\
      Product.createdBy p = userId /\
      Product.inventory p = None /\
      Product.manufacturer p = None.
Proof. apply createProduct_handler_shape. Qed.



(** X23: what the two GET handlers for one product answer without
    outages.  GET /api/products/:id answers 200 with the product the
    cache-aside lookup under product:<id> resolves, and 404 when it
    resolves none.  GET /api/products/barcode/:barcode does the same
    with the lookup under the normalized barcode; an empty barcode is a
    400, and no call is issued. *)
Theorem lookup_handlers_answer (id barcode : string) (w : World) :
  faults w = [] ->
  let found (product : option Product.t) :=
    match product with
    | Some p => Http.mk 200 true (Some p) None None
    | None => Http.mk 404 false None (Some "Product not found") None
    end in
  (exists w',
      run (ProductController.getProduct id) w
      = (Fulfilled (found (cache_aside_id w id)), w')) /\
  (exists w',
      run (ProductController.getProductByBarcode barcode) w
      = (Fulfilled
           (if decide (barcode = EmptyString)
            then Http.mk 400 false None (Some "Barcode is required") None
            else found (cache_aside w (normalize barcode))),
         if decide (barcode = EmptyString) then w else w')).
Proof.
  intros H found. split.
  - destruct (resolve_by_id id w H) as (w' & Hrun & _). exists w'.
    unfold ProductController.getProduct.
    rewrite run_try_catch, run_mbind, Hrun.
    destruct (cache_aside_id w id); reflexivity.
  - destruct (resolve_by_barcode barcode w H) as (w' & Hrun & _). exists w'.
    unfold ProductController.getProductByBarcode. rewrite run_try_catch.
    destruct barcode as [|c rest]; [reflexivity|].
    rewrite run_mbind, Hrun. destruct (decide _) as [E|_]; [discriminate E|].
    destruct (cache_aside w (normalize (String c rest))); reflexivity.
Qed.

(** X24: every handler always responds, and coherently.  Whichever
    calls fail, each of the six handlers settles fulfilled with a
    response that is either a 200 or 201 with success true and no error
    text, or a 400, 404 or 500 with success false, an error text and no
    data. *)
Theorem handlers_always_respond (w : World) :
  (forall body userId, exists response w',
      run (ProductController.createProduct body userId) w
      = (Fulfilled response, w') /\ coherent response) /\
  (forall id, exists response w',
      run (ProductController.getProduct id) w = (Fulfilled response, w') /\
      coherent response) /\
  (forall barcode, exists response w',
      run (ProductController.getProductByBarcode barcode) w
      = (Fulfilled response, w') /\ coherent response) /\
  (forall id dto, exists response w',
      run (ProductController.updateProduct id dto) w
      = (Fulfilled response, w') /\ coherent response) /\
  (forall id, exists response w',
      run (ProductController.deleteProduct id) w = (Fulfilled response, w') /\
      coherent response) /\
  (forall products0 userId, exists response w',
      run (ProductController.bulkImport products0 userId) w
      = (Fulfilled response, w') /\ coherent response).
Proof.
  assert (forall A (r : Http.Response A),
             Http.success r = true ->
             Http.status r = 200 \/ Http.status r = 201 ->
             Http.error r = None -> coherent r) as Hgood
    by (intros; left; auto).
  assert (forall A (r : Http.Response A),
             Http.success r = false ->
             Http.status r = 400 \/ Http.status r = 404 \/ Http.status r = 500 ->
             is_Some (Http.error r) -> Http.data r = None -> coherent r) as Hbad
    by (intros; right; auto).
  repeat split.
  - intros body userId.
    destruct (createProduct_handler_shape body userId w)
      as (response & w' & Hrun & Hcoherent & _).
    exists response, w'. split; assumption.
  - intros id. unfold ProductController.getProduct.
    rewrite run_try_catch, run_mbind.
    destruct (run (getProductById id) w) as [[[p|]|e] w1];
      rewrite ?run_ret; eexists _, _; (split; [reflexivity|]);
      first [apply Hgood; simpl; auto; fail | apply Hbad; simpl; eauto].
  - intros barcode. unfold ProductController.getProductByBarcode.
    rewrite run_try_catch. destruct barcode as [|c rest].
    + eexists _, _. split; [reflexivity|]. apply Hbad; simpl; eauto.
    + rewrite run_mbind.
      destruct (run (getProductByBarcode (String c rest)) w) as [[[p|]|e] w1];
        rewrite ?run_ret; eexists _, _; (split; [reflexivity|]);
        first [apply Hgood; simpl; auto; fail | apply Hbad; simpl; eauto].
  - intros id dto. unfold ProductController.updateProduct.
    rewrite run_try_catch, run_mbind.
    destruct (run (updateProduct id dto) w) as [[[p|]|e] w1];
      rewrite ?run_ret; eexists _, _; (split; [reflexivity|]);
      first [apply Hgood; simpl; auto; fail | apply Hbad; simpl; eauto].
  - intros id. unfold ProductController.deleteProduct.
    rewrite run_try_catch, run_mbind.
    destruct (run (deleteProduct id) w) as [[[]|e] w1];
      rewrite ?run_ret; eexists _, _; (split; [reflexivity|]);
      first [apply Hgood; simpl; auto; fail | apply Hbad; simpl; eauto].
  - intros products0 userId. unfold ProductController.bulkImport.
    rewrite run_try_catch. destruct products0 as [[|dto rest]|].
    + eexists _, _. split; [reflexivity|]. apply Hbad; simpl; eauto.
    + rewrite run_mbind.
      destruct (run (bulkImportProducts (dto :: rest) userId) w)
        as [[result|e] w1];
        rewrite ?run_ret; eexists _, _; (split; [reflexivity|]);
        first [apply Hgood; simpl; auto; fail | apply Hbad; simpl; eauto].
    + eexists _, _. split; [reflexivity|]. apply Hbad; simpl; eauto.
Qed.

End Handlers.

(** A body without a name, sent to the shop. *)
Lemma createProduct_handler_answers_witness :
  truthy_string (CreateBody.name Scenes.nameless) = None /\
  exists response w',
    run (ProductController.createProduct Scenes.nameless "user-1") Shop.opened
    = (Fulfilled response, w') /\
    response
    = Http.mk 400 false None
        (Some "Missing required fields: barcode, name, barcodeType") None /\
    w' = Shop.opened.
Proof.
  split; [reflexivity|].
  destruct (createProduct_handler_answers Scenes.nameless "user-1" Shop.opened)
    as (response & w' & Hrun & _ & _ & Hmissing & _).
  exists response, w'. split; [exact Hrun|].
  apply Hmissing. right. left. reflexivity.
Defined.


(** The widget of the shop, fetched by id and by a spelling of its
    barcode. *)
Lemma lookup_handlers_answer_witness :
  faults Shop.opened = [] /\
  (exists w',
      run (ProductController.getProduct "id-0") Shop.opened
      = (Fulfilled (Http.mk 200 true (Some Shop.widget) None None), w')) /\
  (exists w',
      run (ProductController.getProductByBarcode "abc-1") Shop.opened
      = (Fulfilled (Http.mk 200 true (Some Shop.widget) None None), w')).
Proof.
  split; [reflexivity|].
  destruct (lookup_handlers_answer "id-0" "abc-1" Shop.opened eq_refl)
    as ((w1 & Hid) & (w2 & Hbarcode)).
  split; [exists w1; exact Hid|exists w2; exact Hbarcode].
Defined.

(** ** Pages *)

Lemma ceil_div_bounds (total limit : Z) :
  1 <= limit ->
  (ceil_div total limit - 1) * limit < total <= ceil_div total limit * limit.
Proof.
  intros H. unfold ceil_div.
  pose proof (Z.div_mod (- total) limit ltac:(lia)) as Hdiv.
  pose proof (Z.mod_pos_bound (- total) limit ltac:(lia)) as Hmod.
  nia.
Qed.

(** X25: the page count of findPaginated covers the rows exactly.  For
    a limit of at least 1, when the store answers, the result carries the
    rows and the total the store gave for skip = (page - 1) * limit and
    take = limit, and the page it was asked for; pages is the least
    number of pages of that size that hold total rows: total is at most
    pages * limit and more than (pages - 1) * limit, so for a total that
    is not negative pages is 0 exactly when there is no row. *)
Theorem findPaginated_pages_cover {T : Type}
    (findAndCount : BaseRepository.FindAndCount (T := T)) (page limit : Z)
    (where_ : option (T -> bool)) (result : Page.t T) :
  1 <= limit ->
  BaseRepository.findPaginated findAndCount page limit where_
  = Fulfilled result ->
  findAndCount where_ ((page - 1) * limit) limit
  = inl (Page.data result, Page.total result) /\
  Page.page result = page /\
  (Page.pages result - 1) * limit < Page.total result
  <= Page.pages result * limit /\
  (0 <= Page.total result ->
   0 <= Page.pages result /\
   (Page.pages result = 0 <-> Page.total result = 0)).
Proof.
  intros H. unfold BaseRepository.findPaginated. cbv zeta.
  destruct (findAndCount where_ ((page - 1) * limit) limit)
    as [[data total]|error]; [|discriminate].
  intros [= <-]. simpl.
  pose proof (ceil_div_bounds total limit H) as Hb.
  set (pages := ceil_div total limit) in *.
  split; [reflexivity|]. split; [reflexivity|]. split; [exact Hb|].
  intros Htotal. split; [nia|]. split; intros E; nia.
Qed.

(** X26: what GET /api/products asks of the store.  A page or limit
    that is missing, not a number or 0 counts as page 1 and limit 10.
    With a page below 1 or a limit outside 1..100 the answer is a 400
    and does not depend on the store.  In every other case the store is
    asked for the active products once, with a skip that is not negative
    and a multiple of take, and a take between 1 and 100: its failure is
    a 500, and its rows and total are answered with a 200 together with
    the page, the limit and a page count that covers the total. *)
Theorem listProducts_answers
    (findAndCount : BaseRepository.FindAndCount (T := Product.t))
    (page limit : option Z) :
  let p := default 1 (truthy_number page) in
  let l := default 10 (truthy_number limit) in
  (p < 1 \/ l < 1 \/ 100 < l ->
   forall store,
     listProducts store page limit
     = Http.mk 400 false None (Some "Invalid pagination parameters") None) /\
  (1 <= p /\ 1 <= l <= 100 ->
   0 <= (p - 1) * l /\
   listProducts findAndCount page limit
   = match findAndCount (Some Product.isActive) ((p - 1) * l) l with
     | inl (data, total) =>
         Http.mk 200 true
           (Some (Listing.mk data p l total (ceil_div total l))) None None
     | inr _ => Http.mk 500 false None (Some "Error fetching products") None
     end /\
   forall total,
     (ceil_div total l - 1) * l < total <= ceil_div total l * l) /\
  listProducts findAndCount (Some 0) (Some 0)
  = listProducts findAndCount None None.
Proof.
  intros p l. split; [|split].
  - intros Hbad store. unfold listProducts. fold p. fold l. cbv zeta.
    destruct (p <? 1) eqn:E1; [reflexivity|].
    destruct (l <? 1) eqn:E2; [reflexivity|].
    destruct (100 <? l) eqn:E3; [reflexivity|].
    apply Z.ltb_ge in E1, E2, E3. lia.
  - intros (Hp & Hl1 & Hl2). split; [nia|]. split.
    + unfold listProducts. fold p. fold l. cbv zeta.
      destruct (p <? 1) eqn:E1; [apply Z.ltb_lt in E1; lia|].
      destruct (l <? 1) eqn:E2; [apply Z.ltb_lt in E2; lia|].
      destruct (100 <? l) eqn:E3; [apply Z.ltb_lt in E3; lia|].
      cbn [orb]. unfold getAllProducts, BaseRepository.findPaginated.
      cbv zeta.
      destruct (findAndCount _ _ _) as [[data total]|error]; reflexivity.
    + intros total. apply ceil_div_bounds. exact Hl1.
  - reflexivity.
Qed.

(** Twenty-five rows in pages of ten. *)
Lemma findPaginated_pages_cover_witness :
  1 <= 10 /\
  (Page.pages (Page.mk ([] : list Product.t) 25 3 (ceil_div 25 10)) - 1) * 10
  < 25 <= Page.pages (Page.mk ([] : list Product.t) 25 3 (ceil_div 25 10)) * 10.
Proof.
  assert (1 <= 10) as H by lia. split; [exact H|].
  exact (proj1 (proj2 (proj2
           (findPaginated_pages_cover (fun _ _ _ => inl ([], 25)) 3 10 None
              (Page.mk ([] : list Product.t) 25 3 (ceil_div 25 10))
              H eq_refl)))).
Defined.

(** Page 0 with a limit of 200, and the second page of twenty. *)
Lemma listProducts_answers_witness :
  (default 1 (truthy_number (Some 0)) < 1 \/
   default 10 (truthy_number (Some 200)) < 1 \/
   100 < default 10 (truthy_number (Some 200))) /\
  listProducts (fun _ _ _ => inr "down") (Some 0) (Some 200)
  = Http.mk 400 false None (Some "Invalid pagination parameters") None /\
  0 <= (default 1 (truthy_number (Some 2)) - 1)
       * default 10 (truthy_number (Some 20)).
Proof.
  assert (default 1 (truthy_number (Some 0)) < 1 \/
          default 10 (truthy_number (Some 200)) < 1 \/
          100 < default 10 (truthy_number (Some 200))) as Hbad
    by (right; right; simpl; lia).
  assert (1 <= default 1 (truthy_number (Some 2)) /\
          1 <= default 10 (truthy_number (Some 20)) <= 100) as Hgood
    by (simpl; lia).
  split; [exact Hbad|]. split.
  - exact (proj1 (listProducts_answers (fun _ _ _ => inr "down")
                    (Some 0) (Some 200)) Hbad (fun _ _ _ => inr "down")).
  - exact (proj1 (proj1 (proj2 (listProducts_answers (fun _ _ _ => inr "down")
                                  (Some 2) (Some 20))) Hgood)).
Defined.
